(** * Metadata-driven validation engine: data access layer and validators

    A shallow embedding of [utils/db_connector.py] (class [DatabaseConnector])
    and [validations/db_validations.py] (class [DatabaseValidator]).

    - Python [str] is [string]; the text handled here (type names, table and
      column names, flags) is ASCII, and [upper]/[lower] change the letters
      a-z / A-Z only.
    - Python [dict] is an association list in insertion order ([dict_set]
      overwrites in place or appends), as [dict.items()] iterates.
    - Python [float] (NumPy [float64]) is the kernel's binary64 [float].
    - The relational store is an oracle ([World]); every call the connector
      makes to it is logged, and an exception carries its message. *)

From Stdlib Require Import List String Ascii Bool ZArith NArith Lia.
From Stdlib Require Import PrimFloat Uint63 DecimalString.
Import ListNotations.
Local Open Scope list_scope.
Local Open Scope string_scope.

(** ** Strings *)

Definition upper_ascii (c : ascii) : ascii :=
  let n := nat_of_ascii c in
  if (97 <=? n)%nat && (n <=? 122)%nat then ascii_of_nat (n - 32) else c.

Definition lower_ascii (c : ascii) : ascii :=
  let n := nat_of_ascii c in
  if (65 <=? n)%nat && (n <=? 90)%nat then ascii_of_nat (n + 32) else c.

Fixpoint str_map (f : ascii -> ascii) (s : string) : string :=
  match s with
  | EmptyString => EmptyString
  | String c t => String (f c) (str_map f t)
  end.

(** [s.upper()] and [s.lower()]. *)
Definition upper (s : string) : string := str_map upper_ascii s.
Definition lower (s : string) : string := str_map lower_ascii s.

(** [needle in hay] on strings: [needle] occurs in [hay] as a substring. *)
Fixpoint str_in (needle hay : string) : bool :=
  prefix needle hay
  || match hay with
     | EmptyString => false
     | String _ t => str_in needle t
     end.

(** [x in l] on a list of strings. *)
Definition str_mem (x : string) (l : list string) : bool :=
  existsb (String.eqb x) l.

(** [s.split('.', 1)]: cut at the first dot; a string without a dot comes
    back alone. *)
Fixpoint split_dot (s : string) : list string :=
  match s with
  | EmptyString => [EmptyString]
  | String c t =>
      if Ascii.eqb c "."%char then [EmptyString; t]
      else match split_dot t with
           | [a] => [String c a]
           | a :: rest => String c a :: rest
           | [] => []
           end
  end.

(** [sep.join(l)]. *)
Fixpoint join (sep : string) (l : list string) : string :=
  match l with
  | [] => EmptyString
  | [x] => x
  | x :: rest => x ++ sep ++ join sep rest
  end.

(** ** The type-compatibility predicate ([DatabaseConnector._compare_data_types]) *)

Definition type_mappings : list (string * list string) :=
  [ ("VARCHAR",  ["VARCHAR"; "NVARCHAR"; "TEXT"; "STRING"]);
    ("INTEGER",  ["INTEGER"; "INT"; "BIGINT"; "SMALLINT"]);
    ("DECIMAL",  ["DECIMAL"; "NUMERIC"; "FLOAT"; "REAL"]);
    ("DATETIME", ["DATETIME"; "TIMESTAMP"; "DATE"; "TIME"]);
    ("BOOLEAN",  ["BOOLEAN"; "BIT"]) ].

(** [any(variant in s for variant in variants)]. *)
Definition any_variant_in (variants : list string) (s : string) : bool :=
  existsb (fun variant => str_in variant s) variants.

(** The [for standard_type, variants in type_mappings.items()] loop, which
    returns [True] from inside; [None] is falling out of the loop. *)
Fixpoint compare_loop (items : list (string * list string))
    (actual_type expected_type : string) : option bool :=
  match items with
  | [] => None
  | (_, variants) :: rest =>
      if any_variant_in variants actual_type
         && any_variant_in variants expected_type
      then Some true
      else compare_loop rest actual_type expected_type
  end.

Definition _compare_data_types (actual_type expected_type : string) : bool :=
  match compare_loop type_mappings actual_type expected_type with
  | Some b => b
  | None => String.eqb actual_type expected_type
  end.

(** The buckets of the specification, and what it is for a type string to
    fall in one: it mentions one of the bucket's type names. *)
Inductive Bucket := TextLike | IntegerLike | DecimalLike | DatetimeLike | BooleanLike.

Definition bucket_names (b : Bucket) : list string :=
  match b with
  | TextLike => ["VARCHAR"; "NVARCHAR"; "TEXT"; "STRING"]
  | IntegerLike => ["INTEGER"; "INT"; "BIGINT"; "SMALLINT"]
  | DecimalLike => ["DECIMAL"; "NUMERIC"; "FLOAT"; "REAL"]
  | DatetimeLike => ["DATETIME"; "TIMESTAMP"; "DATE"; "TIME"]
  | BooleanLike => ["BOOLEAN"; "BIT"]
  end.

Definition occurs_in (needle hay : string) : Prop :=
  exists before after, hay = before ++ needle ++ after.

Definition in_bucket (b : Bucket) (s : string) : Prop :=
  exists name, In name (bucket_names b) /\ occurs_in name s.

(** ** Python values and dictionaries *)

Unset Elimination Schemes.
Inductive PyVal :=
| VNone
| VBool (b : bool)
| VInt (z : Z)
| VFloat (f : float)
| VStr (s : string)
| VFmt (parts : list PyVal)   (* an f-string that prints a float: its parts *)
| VList (items : list PyVal)
| VDict (d : list (string * PyVal)).
Set Elimination Schemes.

Definition Dict := list (string * PyVal).

(** [d[k] = v]: an existing key keeps its place, a new one goes last. *)
Fixpoint dict_set {V : Type} (k : string) (v : V) (d : list (string * V))
  : list (string * V) :=
  match d with
  | [] => [(k, v)]
  | (k', v') :: rest =>
      if String.eqb k' k then (k', v) :: rest else (k', v') :: dict_set k v rest
  end.

(** [d.get(k)]. *)
Fixpoint dict_get {V : Type} (k : string) (d : list (string * V)) : option V :=
  match d with
  | [] => None
  | (k', v) :: rest => if String.eqb k' k then Some v else dict_get k rest
  end.

(** [k in d]. *)
Definition dict_has {V : Type} (k : string) (d : list (string * V)) : bool :=
  match dict_get k d with Some _ => true | None => false end.

(** An [Optional[str]] as a value, in an f-string, and as a condition. *)
Definition opt_val (o : option string) : PyVal :=
  match o with Some s => VStr s | None => VNone end.

Definition opt_str (o : option string) : string :=
  match o with Some s => s | None => "None" end.

Definition truthy (o : option string) : bool :=
  match o with
  | Some s => negb (String.eqb s EmptyString)
  | None => false
  end.

(** [str(n)] for an integer. *)
Definition str_int (z : Z) : string := NilZero.string_of_int (Z.to_int z).

Definition str_bool (b : bool) : string := if b then "True" else "False".

(** ** Floating point *)

(** [float(z)], for the 64-bit counts a store returns. *)
Definition float_of_Z (z : Z) : float :=
  if (z <? 0)%Z then PrimFloat.opp (PrimFloat.of_uint63 (Uint63.of_Z (- z)))
  else PrimFloat.of_uint63 (Uint63.of_Z z).

Definition two52 : float := Eval compute in float_of_Z 4503599627370496.
Definition f100 : float := Eval compute in float_of_Z 100.
Definition f95 : float := Eval compute in float_of_Z 95.

(** Round to the nearest integer, ties to even. *)
Definition rint (x : float) : float :=
  let a := PrimFloat.abs x in
  if PrimFloat.ltb a two52 then
    let r := PrimFloat.sub (PrimFloat.add a two52) two52 in
    if PrimFloat.get_sign x then PrimFloat.opp r else r
  else x.

(** [round(x, 2)] on a NumPy [float64]: scale, [rint], scale back. *)
Definition round2 (x : float) : float :=
  PrimFloat.div (rint (PrimFloat.mul x f100)) f100.

(** ** The metadata model ([utils/excel_reader.py]) *)

Module FeedMetadata.
Record t := mk {
  modules : string;
  feed : string;
  feed_list : list string;
  field_name : string;
  db_name : string;
  db_table : string;
  data_type : string;
  nullable : string;
  request : string;
  default : option string;
  enumeration : option string;
  range_bottom : option string;
  range_top : option string;
  mandatory : string;
  unique : string
}.
End FeedMetadata.
Abbreviation FeedMetadata := FeedMetadata.t.

Module EnumerationMetadata.
Record t := mk {
  enumeration_name : string;
  enum_values : string
}.
End EnumerationMetadata.
Abbreviation EnumerationMetadata := EnumerationMetadata.t.

(** ** The relational store *)

(** The two engines [_initialize_connections] creates. *)
Inductive Engine := server1 | server2.

(** One entry of [inspector.get_columns(table)]: its ['name'], the [str()]
    of its ['type'], and its ['nullable'] flag. *)
Record ColumnInfo := {
  col_name : string;
  col_type : string;
  col_nullable : bool
}.

Inductive Answer (A : Type) :=
| Returns (a : A)
| Throws (e : string).   (* [str(e)] of the exception *)
Arguments Returns {A} a.
Arguments Throws {A} e.

(** What the store answers: the schema an inspector reads for a table (the
    reads of [get_table_schema], taken together), and the number in the
    first row of a [SELECT COUNT(...)] that [execute_query] runs. A count is
    never negative. *)
Record World := {
  inspect_columns : Engine -> string -> Answer (list ColumnInfo);
  select_count : Engine -> string -> Answer N
}.

(** A call that reaches the store. *)
Inductive Call :=
| Inspect (engine : Engine) (table_name : string)
| Query (engine : Engine) (query : string).

(** The store raises [e] on call [c]. *)
Definition raises (w : World) (c : Call) (e : string) : Prop :=
  match c with
  | Inspect engine table_name => inspect_columns w engine table_name = Throws e
  | Query engine query => select_count w engine query = Throws e
  end.

(** ** Control flow

    A computation reads and writes the current [result] dictionary, appends
    dictionaries to [results] ([emitted]) and calls the store ([asked]); it
    ends normally, by an exception, or by [continue]. *)

Inductive Outcome (A : Type) :=
| Ok (a : A)
| Raise (e : string)
| Continue.
Arguments Ok {A} a.
Arguments Raise {A} e.
Arguments Continue {A}.

Record Run (A : Type) := mkRun {
  outcome : Outcome A;
  result : Dict;
  emitted : list Dict;
  asked : list Call
}.
Arguments mkRun {A} _ _ _ _.
Arguments outcome {A} _.
Arguments result {A} _.
Arguments emitted {A} _.
Arguments asked {A} _.

Definition M (A : Type) := Dict -> Run A.

Definition ret {A : Type} (a : A) : M A := fun d => mkRun (Ok a) d [] [].

Definition raise {A : Type} (e : string) : M A := fun d => mkRun (Raise e) d [] [].

Definition continue {A : Type} : M A := fun d => mkRun Continue d [] [].

(** [r2] run after a computation that emitted [em] and asked [ask]. *)
Definition after {B : Type} (em : list Dict) (ask : list Call) (r2 : Run B) : Run B :=
  match r2 with
  | mkRun o d2 em2 ask2 => mkRun o d2 (em ++ em2)%list (ask ++ ask2)%list
  end.

Definition bind {A B : Type} (m : M A) (f : A -> M B) : M B :=
  fun d =>
    match m d with
    | mkRun (Ok a) d1 em ask => after em ask (f a d1)
    | mkRun (Raise e) d1 em ask => mkRun (Raise e) d1 em ask
    | mkRun Continue d1 em ask => mkRun Continue d1 em ask
    end.

Notation "x <- m ;; k" := (bind m (fun x => k))
  (at level 61, m at next level, right associativity).
Notation "' pat <- m ;; k" := (bind m (fun x => match x with pat => k end))
  (at level 61, pat pattern, m at next level, right associativity).
Notation "m ;; k" := (bind m (fun _ => k))
  (at level 61, right associativity).

(** [try: block / except Exception as e: handler(e)]. *)
Definition try_except {A : Type} (block : M A) (handler : string -> M A) : M A :=
  fun d =>
    match block d with
    | mkRun (Raise e) d1 em ask => after em ask (handler e d1)
    | r => r
    end.

(** [for x in l: body(x)]; a [continue] in the body goes to the next [x]. *)
Fixpoint for_each {A : Type} (l : list A) (body : A -> M unit) : M unit :=
  match l with
  | [] => ret tt
  | x :: rest =>
      fun d =>
        match body x d with
        | mkRun (Raise e) d1 em ask => mkRun (Raise e) d1 em ask
        | mkRun _ d1 em ask => after em ask (for_each rest body d1)
        end
  end.

(** [result = {...}]. *)
Definition new_result (d : Dict) : M unit := fun _ => mkRun (Ok tt) d [] [].

(** [result[k] = v]. *)
Definition set_item (k : string) (v : PyVal) : M unit :=
  fun d => mkRun (Ok tt) (dict_set k v d) [] [].

(** [result[k].append(v)]. *)
Definition append_item (k : string) (v : PyVal) : M unit :=
  fun d =>
    match dict_get k d with
    | Some (VList items) => mkRun (Ok tt) (dict_set k (VList (items ++ [v])%list) d) [] []
    | Some _ => mkRun (Raise "object has no attribute 'append'") d [] []
    | None => mkRun (Raise k) d [] []
    end.

(** [results.append(result)]. *)
Definition append_result : M unit := fun d => mkRun (Ok tt) d [d] [].

(** [l[0]]. *)
Definition first {A : Type} (l : list A) : M A :=
  match l with
  | x :: _ => ret x
  | [] => raise "list index out of range"
  end.

(** [a, b = l]. *)
Definition unpack2 (l : list string) : M (string * string) :=
  match l with
  | [a; b] => ret (a, b)
  | [_] => raise "not enough values to unpack (expected 2, got 1)"
  | [] => raise "not enough values to unpack (expected 2, got 0)"
  | _ => raise "too many values to unpack (expected 2)"
  end.

(** [a / b] on integers; Python raises [ZeroDivisionError] on [b = 0]. *)
Definition truediv (a b : Z) : M float :=
  if (b =? 0)%Z then raise "division by zero"
  else ret (PrimFloat.div (float_of_Z a) (float_of_Z b)).

(** [x / n] for a float and an integer. *)
Definition truediv_float (x : float) (n : Z) : M float :=
  if (n =? 0)%Z then raise "float division by zero"
  else ret (PrimFloat.div x (float_of_Z n)).

(** [sum(l)] on floats, from the integer [0]. *)
Definition sum (l : list float) : float :=
  fold_left PrimFloat.add l (float_of_Z 0).

(** ** The data access layer ([utils/db_connector.py])

    Every method logs and re-raises what it catches, so an exception of the
    store passes through unchanged. *)

Module DatabaseConnector.
Section Connector.
Variable w : World.

Definition get_engine (db_name : string) : Engine :=
  if str_in "server1" (lower db_name) then server1
  else if str_in "server2" (lower db_name) then server2
  else server1.

(** [pd.read_sql_query(text(query), engine)] and the number in the first
    row of the frame. *)
Definition execute_query (db_name query : string) : M N :=
  fun d =>
    let engine := get_engine db_name in
    match select_count w engine query with
    | Returns n => mkRun (Ok n) d [] [Query engine query]
    | Throws e => mkRun (Raise e) d [] [Query engine query]
    end.

(** [schema_info['columns']] of [get_table_schema]. *)
Definition get_table_schema (db_name table_name : string) : M (list ColumnInfo) :=
  fun d =>
    let engine := get_engine db_name in
    match inspect_columns w engine table_name with
    | Returns columns => mkRun (Ok columns) d [] [Inspect engine table_name]
    | Throws e => mkRun (Raise e) d [] [Inspect engine table_name]
    end.

Definition row_count_query (table_name : string) (where_clause : option string)
  : string :=
  let query := "SELECT COUNT(*) as row_count FROM " ++ table_name in
  if truthy where_clause then query ++ " WHERE " ++ opt_str where_clause
  else query.

Definition get_row_count (db_name table_name : string)
    (where_clause : option string) : M N :=
  execute_query db_name (row_count_query table_name where_clause).

(** The loop of [validate_data_types] over the columns of the actual
    schema. *)
Fixpoint validate_columns (columns : list ColumnInfo)
    (expected_schema : list (string * string))
    (validation_results : list (string * bool)) : list (string * bool) :=
  match columns with
  | [] => validation_results
  | column_info :: rest =>
      let column_name := col_name column_info in
      let actual_type := upper (col_type column_info) in
      validate_columns rest expected_schema
        (match dict_get column_name expected_schema with
         | Some declared =>
             let expected_type := upper declared in
             dict_set column_name
               (_compare_data_types actual_type expected_type)
               validation_results
         | None => dict_set column_name false validation_results
         end)
  end.

Definition validate_data_types (db_name table_name : string)
    (expected_schema : list (string * string)) : M (list (string * bool)) :=
  actual_schema <- get_table_schema db_name table_name ;;
  ret (validate_columns actual_schema expected_schema []).

(** [column_nullable]: the flag of the first column of that name, or
    [None]. *)
Fixpoint column_nullable (columns : list ColumnInfo) (column_name : string)
  : option bool :=
  match columns with
  | [] => None
  | col :: rest =>
      if String.eqb (col_name col) column_name then Some (col_nullable col)
      else column_nullable rest column_name
  end.

Definition null_count_query (table_name column_name : string) : string :=
  "SELECT COUNT(*) as null_count FROM " ++ table_name
    ++ " WHERE " ++ column_name ++ " IS NULL".

Definition check_nullable_constraints (db_name table_name column_name : string)
  : M (option bool * N) :=
  schema <- get_table_schema db_name table_name ;;
  null_count <- execute_query db_name (null_count_query table_name column_name) ;;
  ret (column_nullable schema column_name, null_count).

Definition total_query (table_name : string) : string :=
  "SELECT COUNT(*) as total_count FROM " ++ table_name.

Definition distinct_query (table_name column_name : string) : string :=
  "SELECT COUNT(DISTINCT " ++ column_name ++ ") as distinct_count FROM "
    ++ table_name.

Definition check_unique_constraints (db_name table_name column_name : string)
  : M (N * N) :=
  total_count <- execute_query db_name (total_query table_name) ;;
  distinct_count <- execute_query db_name (distinct_query table_name column_name) ;;
  ret (total_count, distinct_count).

Definition below_query (table_name column_name bottom : string) : string :=
  "SELECT COUNT(*) as below_range FROM " ++ table_name
    ++ " WHERE " ++ column_name ++ " < " ++ bottom.

Definition above_query (table_name column_name top : string) : string :=
  "SELECT COUNT(*) as above_range FROM " ++ table_name
    ++ " WHERE " ++ column_name ++ " > " ++ top.

Definition check_range_constraints (db_name table_name column_name : string)
    (range_bottom range_top : option string) : M (list (string * N)) :=
  let results : list (string * N) := [] in
  results <-
    (if truthy range_bottom then
       n <- execute_query db_name
              (below_query table_name column_name (opt_str range_bottom)) ;;
       ret (dict_set "below_range" n results)
     else ret results) ;;
  results <-
    (if truthy range_top then
       n <- execute_query db_name
              (above_query table_name column_name (opt_str range_top)) ;;
       ret (dict_set "above_range" n results)
     else ret results) ;;
  ret results.

Definition enumeration_query (table_name column_name : string)
    (allowed_values : list string) : string :=
  let values_str := join "', '" allowed_values in
  "SELECT COUNT(*) as invalid_count FROM " ++ table_name
    ++ " WHERE " ++ column_name ++ " NOT IN ('" ++ values_str ++ "')".

Definition check_enumeration_constraints (db_name table_name column_name : string)
    (allowed_values : list string) : M N :=
  execute_query db_name (enumeration_query table_name column_name allowed_values).

End Connector.
End DatabaseConnector.

(** ** The validation engine ([validations/db_validations.py])

    [framework_logger] calls are left out: they do not touch a result.
    [FeedMetadata] declares neither [skiprow] nor [where_clause], so the
    [hasattr] tests of [validate_data_types] are false. *)

Module DatabaseValidator.
Import FeedMetadata.
Section Validator.
Variable w : World.

(** [[meta for meta in metadata if meta.feed in selected_feeds]] when
    [selected_feeds] is given and not empty. *)
Definition select_feeds (metadata : list FeedMetadata)
    (selected_feeds : option (list string)) : list FeedMetadata :=
  match selected_feeds with
  | Some (f :: fs) => filter (fun meta => str_mem (feed meta) (f :: fs)) metadata
  | _ => metadata
  end.

(** [f"{meta.db_name}.{meta.db_table}"]. *)
Definition table_key_of (meta : FeedMetadata) : string :=
  db_name meta ++ "." ++ db_table meta.

(** [if key not in table_groups: table_groups[key] = []] and
    [table_groups[key].append(meta)]. *)
Fixpoint group_add (key : string) (meta : FeedMetadata)
    (table_groups : list (string * list FeedMetadata))
  : list (string * list FeedMetadata) :=
  match table_groups with
  | [] => [(key, [meta])]
  | (k, metas) :: rest =>
      if String.eqb k key then (k, (metas ++ [meta])%list) :: rest
      else (k, metas) :: group_add key meta rest
  end.

Definition group_by_table (metadata : list FeedMetadata)
  : list (string * list FeedMetadata) :=
  fold_left (fun table_groups meta => group_add (table_key_of meta) meta table_groups)
            metadata [].

(** The outer [try] of a validator: what it returns. *)
Definition returned (validation_type in_what : string) (block : M unit) : list Dict :=
  let r := block [] in
  match outcome r with
  | Raise e =>
      [[ ("validation_type", VStr validation_type);
         ("validation_status", VStr "ERROR");
         ("error_message", VStr (in_what ++ e)) ]]
  | _ => emitted r
  end.

(** The [except Exception as e] clause around one check. *)
Definition on_error (validating_what : string) (e : string) : M unit :=
  set_item "validation_status" (VStr "ERROR") ;;
  set_item "error_message" (VStr (validating_what ++ e)).

Definition is_Y (flag : string) : bool := String.eqb (upper flag) "Y".

(** *** validate_data_types *)

Definition expected_schema_of (table_metadata : list FeedMetadata)
  : list (string * string) :=
  fold_left (fun expected_schema meta =>
               dict_set (field_name meta) (data_type meta) expected_schema)
            table_metadata [].

Definition column_result_of (table_metadata : list FeedMetadata)
    (column_name : string) (is_valid : bool) : PyVal :=
  let column_meta :=
    find (fun m => String.eqb (field_name m) column_name) table_metadata in
  VDict [ ("column_name", VStr column_name);
          ("expected_type",
           VStr (match column_meta with
                 | Some m => data_type m
                 | None => "Unknown"
                 end));
          ("validation_passed", VBool is_valid);
          ("error_message",
           if is_valid then VNone
           else VStr ("Data type mismatch for column " ++ column_name)) ].

(** The [result] of a table, with its column validations and status. *)
Definition data_type_result (db_name table_name feed_name : string)
    (column_validations : list PyVal) (validation_status : string) : Dict :=
  [ ("validation_type", VStr "data_type");
    ("db_name", VStr db_name);
    ("table_name", VStr table_name);
    ("feed_name", VStr feed_name);
    ("column_validations", VList column_validations);
    ("validation_status", VStr validation_status);
    ("error_message", VNone) ].

(** The loop [for column_name, is_valid in type_validation_results.items()]. *)
Definition record_columns (table_metadata : list FeedMetadata)
    (type_validation_results : list (string * bool)) : M unit :=
  for_each type_validation_results
    (fun '(column_name, is_valid) =>
       append_item "column_validations"
         (column_result_of table_metadata column_name is_valid) ;;
       if negb is_valid then set_item "validation_status" (VStr "FAIL")
       else ret tt).

Definition data_type_table (table_key : string)
    (table_metadata : list FeedMetadata) : M unit :=
  '(db_name, table_name) <- unpack2 (split_dot table_key) ;;
  meta0 <- first table_metadata ;;
  new_result (data_type_result db_name table_name (feed meta0) [] "PASS") ;;
  try_except
    (actual_schema <- DatabaseConnector.get_table_schema w db_name table_name ;;
     let expected_schema := expected_schema_of table_metadata in
     type_validation_results <-
       DatabaseConnector.validate_data_types w db_name table_name expected_schema ;;
     record_columns table_metadata type_validation_results)
    (on_error "Error validating data types: ") ;;
  append_result.

Definition validate_data_types (metadata : list FeedMetadata)
    (selected_feeds : option (list string)) : list Dict :=
  returned "data_type" "Error in data type validation: "
    (let metadata := select_feeds metadata selected_feeds in
     let table_groups := group_by_table metadata in
     for_each table_groups
       (fun '(table_key, table_metadata) => data_type_table table_key table_metadata)).

(** *** validate_nullable_constraints *)

Definition opt_bool_val (o : option bool) : PyVal :=
  match o with Some b => VBool b | None => VNone end.

Definition opt_bool_str (o : option bool) : string :=
  match o with Some b => str_bool b | None => "None" end.

(** [actual_nullable != expected_nullable_bool]. *)
Definition differs (actual_nullable : option bool) (expected : bool) : bool :=
  match actual_nullable with
  | Some b => negb (Bool.eqb b expected)
  | None => true
  end.

Definition nullable_column (meta : FeedMetadata) : M unit :=
  new_result [ ("validation_type", VStr "nullable_constraint");
               ("db_name", VStr (db_name meta));
               ("table_name", VStr (db_table meta));
               ("column_name", VStr (field_name meta));
               ("feed_name", VStr (feed meta));
               ("expected_nullable", VStr (nullable meta));
               ("expected_mandatory", VStr (mandatory meta));
               ("actual_nullable", VNone);
               ("null_count", VInt 0);
               ("validation_status", VStr "PASS");
               ("error_message", VNone) ] ;;
  try_except
    ('(actual_nullable, null_count) <-
       DatabaseConnector.check_nullable_constraints w
         (db_name meta) (db_table meta) (field_name meta) ;;
     set_item "actual_nullable" (opt_bool_val actual_nullable) ;;
     set_item "null_count" (VInt (Z.of_N null_count)) ;;
     let validation_passed := true in
     let error_messages : list string := [] in
     let '(validation_passed, error_messages) :=
       if is_Y (mandatory meta) && (0 <? null_count)%N
       then (false,
             List.app error_messages
               ["Mandatory field has " ++ str_int (Z.of_N null_count)
                  ++ " null values"])
       else (validation_passed, error_messages) in
     let expected_nullable_bool := is_Y (nullable meta) in
     let '(validation_passed, error_messages) :=
       if differs actual_nullable expected_nullable_bool
       then (false,
             List.app error_messages
               ["Nullable setting mismatch: expected "
                  ++ str_bool expected_nullable_bool ++ ", got "
                  ++ opt_bool_str actual_nullable])
       else (validation_passed, error_messages) in
     if negb validation_passed then
       set_item "validation_status" (VStr "FAIL") ;;
       set_item "error_message" (VStr (join "; " error_messages))
     else ret tt)
    (on_error "Error validating nullable constraints: ") ;;
  append_result.

Definition validate_nullable_constraints (metadata : list FeedMetadata)
    (selected_feeds : option (list string)) : list Dict :=
  returned "nullable_constraint" "Error in nullable constraints validation: "
    (let metadata := select_feeds metadata selected_feeds in
     for_each metadata nullable_column).

(** *** validate_unique_constraints *)

Definition unique_column (meta : FeedMetadata) : M unit :=
  new_result [ ("validation_type", VStr "unique_constraint");
               ("db_name", VStr (db_name meta));
               ("table_name", VStr (db_table meta));
               ("column_name", VStr (field_name meta));
               ("feed_name", VStr (feed meta));
               ("expected_unique", VStr (unique meta));
               ("total_count", VInt 0);
               ("distinct_count", VInt 0);
               ("duplicate_count", VInt 0);
               ("validation_status", VStr "PASS");
               ("error_message", VNone) ] ;;
  try_except
    ('(total_count, distinct_count) <-
       DatabaseConnector.check_unique_constraints w
         (db_name meta) (db_table meta) (field_name meta) ;;
     set_item "total_count" (VInt (Z.of_N total_count)) ;;
     set_item "distinct_count" (VInt (Z.of_N distinct_count)) ;;
     let duplicate_count := (Z.of_N total_count - Z.of_N distinct_count)%Z in
     set_item "duplicate_count" (VInt duplicate_count) ;;
     if negb (N.eqb total_count distinct_count) then
       set_item "validation_status" (VStr "FAIL") ;;
       set_item "error_message"
         (VStr ("Column should be unique but has " ++ str_int duplicate_count
                  ++ " duplicates"))
     else ret tt)
    (on_error "Error validating unique constraints: ") ;;
  append_result.

Definition validate_unique_constraints (metadata : list FeedMetadata)
    (selected_feeds : option (list string)) : list Dict :=
  returned "unique_constraint" "Error in unique constraints validation: "
    (let metadata := select_feeds metadata selected_feeds in
     let unique_metadata := filter (fun meta => is_Y (unique meta)) metadata in
     for_each unique_metadata unique_column).

(** *** validate_range_constraints *)

(** [range_results.get(k, 0)]. *)
Definition get_or_0 (k : string) (range_results : list (string * N)) : N :=
  match dict_get k range_results with Some n => n | None => 0%N end.

Definition range_column (meta : FeedMetadata) : M unit :=
  new_result [ ("validation_type", VStr "range_constraint");
               ("db_name", VStr (db_name meta));
               ("table_name", VStr (db_table meta));
               ("column_name", VStr (field_name meta));
               ("feed_name", VStr (feed meta));
               ("range_bottom", opt_val (range_bottom meta));
               ("range_top", opt_val (range_top meta));
               ("below_range_count", VInt 0);
               ("above_range_count", VInt 0);
               ("validation_status", VStr "PASS");
               ("error_message", VNone) ] ;;
  try_except
    (range_results <-
       DatabaseConnector.check_range_constraints w
         (db_name meta) (db_table meta) (field_name meta)
         (range_bottom meta) (range_top meta) ;;
     let below_range_count := get_or_0 "below_range" range_results in
     let above_range_count := get_or_0 "above_range" range_results in
     set_item "below_range_count" (VInt (Z.of_N below_range_count)) ;;
     set_item "above_range_count" (VInt (Z.of_N above_range_count)) ;;
     let total_violations := (below_range_count + above_range_count)%N in
     if (0 <? total_violations)%N then
       set_item "validation_status" (VStr "FAIL") ;;
       set_item "error_message"
         (VStr ("Range violations: " ++ str_int (Z.of_N below_range_count)
                  ++ " below range, " ++ str_int (Z.of_N above_range_count)
                  ++ " above range"))
     else ret tt)
    (on_error "Error validating range constraints: ") ;;
  append_result.

Definition validate_range_constraints (metadata : list FeedMetadata)
    (selected_feeds : option (list string)) : list Dict :=
  returned "range_constraint" "Error in range constraints validation: "
    (let metadata := select_feeds metadata selected_feeds in
     let range_metadata :=
       filter (fun meta => truthy (range_bottom meta) || truthy (range_top meta))
              metadata in
     for_each range_metadata range_column).

(** *** validate_enumeration_constraints *)

(** [if name not in enum_lookup: enum_lookup[name] = []] and
    [enum_lookup[name].append(value)]. *)
Fixpoint enum_add (name value : string) (enum_lookup : list (string * list string))
  : list (string * list string) :=
  match enum_lookup with
  | [] => [(name, [value])]
  | (k, values) :: rest =>
      if String.eqb k name then (k, (values ++ [value])%list) :: rest
      else (k, values) :: enum_add name value rest
  end.

Definition enum_lookup_of (enumeration_metadata : list EnumerationMetadata)
  : list (string * list string) :=
  fold_left (fun enum_lookup enum_meta =>
               enum_add (EnumerationMetadata.enumeration_name enum_meta)
                        (EnumerationMetadata.enum_values enum_meta) enum_lookup)
            enumeration_metadata [].

(** [enum_lookup.get(meta.enumeration, [])]. *)
Definition allowed_values_of (enum_lookup : list (string * list string))
    (enumeration : option string) : list string :=
  match enumeration with
  | Some name =>
      match dict_get name enum_lookup with
      | Some values => values
      | None => []
      end
  | None => []
  end.

Definition enumeration_column (enum_lookup : list (string * list string))
    (meta : FeedMetadata) : M unit :=
  new_result [ ("validation_type", VStr "enumeration_constraint");
               ("db_name", VStr (db_name meta));
               ("table_name", VStr (db_table meta));
               ("column_name", VStr (field_name meta));
               ("feed_name", VStr (feed meta));
               ("enumeration_name", opt_val (enumeration meta));
               ("allowed_values", VList []);
               ("invalid_count", VInt 0);
               ("validation_status", VStr "PASS");
               ("error_message", VNone) ] ;;
  try_except
    (let allowed_values := allowed_values_of enum_lookup (enumeration meta) in
     set_item "allowed_values" (VList (map VStr allowed_values)) ;;
     (match allowed_values with
      | [] =>
          set_item "validation_status" (VStr "ERROR") ;;
          set_item "error_message"
            (VStr ("Enumeration " ++ opt_str (enumeration meta)
                     ++ " not found in metadata")) ;;
          append_result ;;
          continue
      | _ => ret tt
      end) ;;
     invalid_count <-
       DatabaseConnector.check_enumeration_constraints w
         (db_name meta) (db_table meta) (field_name meta) allowed_values ;;
     set_item "invalid_count" (VInt (Z.of_N invalid_count)) ;;
     if (0 <? invalid_count)%N then
       set_item "validation_status" (VStr "FAIL") ;;
       set_item "error_message"
         (VStr ("Found " ++ str_int (Z.of_N invalid_count)
                  ++ " values not in allowed enumeration"))
     else ret tt)
    (on_error "Error validating enumeration constraints: ") ;;
  append_result.

Definition validate_enumeration_constraints (metadata : list FeedMetadata)
    (enumeration_metadata : list EnumerationMetadata)
    (selected_feeds : option (list string)) : list Dict :=
  returned "enumeration_constraint" "Error in enumeration constraints validation: "
    (let metadata := select_feeds metadata selected_feeds in
     let enum_metadata := filter (fun meta => truthy (enumeration meta)) metadata in
     let enum_lookup := enum_lookup_of enumeration_metadata in
     for_each enum_metadata (enumeration_column enum_lookup)).

(** *** validate_insert_append_logic *)

Definition insert_append_table (table_key : string)
    (table_metadata : list FeedMetadata) : M unit :=
  '(db_name, table_name) <- unpack2 (split_dot table_key) ;;
  meta0 <- first table_metadata ;;
  let request_type := request meta0 in
  new_result [ ("validation_type", VStr "insert_append_logic");
               ("db_name", VStr db_name);
               ("table_name", VStr table_name);
               ("feed_name", VStr (feed meta0));
               ("request_type", VStr request_type);
               ("current_row_count", VInt 0);
               ("expected_behavior", VStr EmptyString);
               ("validation_status", VStr "PASS");
               ("error_message", VNone) ] ;;
  try_except
    (current_count <- DatabaseConnector.get_row_count w db_name table_name None ;;
     set_item "current_row_count" (VInt (Z.of_N current_count)) ;;
     if String.eqb (upper request_type) "INSERT" then
       set_item "expected_behavior"
         (VStr "Fresh data load - table should be truncated before insert")
     else if String.eqb (upper request_type) "APPEND" then
       set_item "expected_behavior" (VStr "Data should be appended to existing data")
     else
       set_item "validation_status" (VStr "ERROR") ;;
       set_item "error_message" (VStr ("Unknown request type: " ++ request_type)))
    (on_error "Error validating insert/append logic: ") ;;
  append_result.

Definition validate_insert_append_logic (metadata : list FeedMetadata)
    (selected_feeds : option (list string)) : list Dict :=
  returned "insert_append_logic" "Error in insert/append logic validation: "
    (let metadata := select_feeds metadata selected_feeds in
     let table_groups := group_by_table metadata in
     for_each table_groups
       (fun '(table_key, table_metadata) =>
          insert_append_table table_key table_metadata)).

(** *** validate_count_checks *)

(** [expected_counts and table_key in expected_counts], then
    [expected_counts[table_key]]. *)
Definition expected_for (expected_counts : option (list (string * Z)))
    (table_key : string) : option Z :=
  match expected_counts with
  | Some counts => dict_get table_key counts
  | None => None
  end.

Definition count_table (expected_counts : option (list (string * Z)))
    (table_key : string) (table_metadata : list FeedMetadata) : M unit :=
  '(db_name, table_name) <- unpack2 (split_dot table_key) ;;
  meta0 <- first table_metadata ;;
  new_result [ ("validation_type", VStr "count_check");
               ("db_name", VStr db_name);
               ("table_name", VStr table_name);
               ("feed_name", VStr (feed meta0));
               ("actual_count", VInt 0);
               ("expected_count", VNone);
               ("validation_status", VStr "PASS");
               ("error_message", VNone) ] ;;
  try_except
    (actual_count <- DatabaseConnector.get_row_count w db_name table_name None ;;
     set_item "actual_count" (VInt (Z.of_N actual_count)) ;;
     (match expected_for expected_counts table_key with
      | Some expected_count =>
          set_item "expected_count" (VInt expected_count) ;;
          if negb (Z.eqb (Z.of_N actual_count) expected_count) then
            set_item "validation_status" (VStr "FAIL") ;;
            set_item "error_message"
              (VStr ("Count mismatch: expected " ++ str_int expected_count
                       ++ ", got " ++ str_int (Z.of_N actual_count)))
          else ret tt
      | None => ret tt
      end) ;;
     if N.eqb actual_count 0 then
       set_item "validation_status" (VStr "FAIL") ;;
       set_item "error_message" (VStr "Table is empty")
     else ret tt)
    (on_error "Error validating count checks: ") ;;
  append_result.

Definition validate_count_checks (metadata : list FeedMetadata)
    (expected_counts : option (list (string * Z)))
    (selected_feeds : option (list string)) : list Dict :=
  returned "count_check" "Error in count checks validation: "
    (let metadata := select_feeds metadata selected_feeds in
     let table_groups := group_by_table metadata in
     for_each table_groups
       (fun '(table_key, table_metadata) =>
          count_table expected_counts table_key table_metadata)).

(** *** validate_completeness_checks *)

(** [((total_rows - null_count) / total_rows) * 100]. *)
Definition completeness_of (total_rows null_count : N) : M float :=
  ratio <- truediv (Z.of_N total_rows - Z.of_N null_count) (Z.of_N total_rows) ;;
  ret (PrimFloat.mul ratio f100).

Definition column_completeness_of (meta : FeedMetadata) (total_rows null_count : N)
    (completeness_percentage : float) : PyVal :=
  VDict [ ("column_name", VStr (field_name meta));
          ("total_rows", VInt (Z.of_N total_rows));
          ("null_count", VInt (Z.of_N null_count));
          ("completeness_percentage", VFloat (round2 completeness_percentage));
          ("is_mandatory", VBool (is_Y (mandatory meta))) ].

(** The loop [for meta in table_metadata] of the completeness check. *)
Fixpoint completeness_columns (db_name table_name : string) (total_rows : N)
    (table_metadata : list FeedMetadata) (completeness_scores : list float)
  : M (list float) :=
  match table_metadata with
  | [] => ret completeness_scores
  | meta :: rest =>
      '(_, null_count) <-
        DatabaseConnector.check_nullable_constraints w
          db_name table_name (field_name meta) ;;
      completeness_percentage <- completeness_of total_rows null_count ;;
      let completeness_scores :=
        (completeness_scores ++ [completeness_percentage])%list in
      append_item "column_completeness"
        (column_completeness_of meta total_rows null_count completeness_percentage) ;;
      completeness_columns db_name table_name total_rows rest completeness_scores
  end.

(** The [result] of a table: its row count, the column entries gathered so
    far, the overall score, the status and the message. *)
Definition completeness_result (db_name table_name feed_name : string)
    (total_rows : Z) (column_completeness : list PyVal)
    (overall_completeness_score : float) (validation_status : string)
    (error_message : PyVal) : Dict :=
  [ ("validation_type", VStr "completeness_check");
    ("db_name", VStr db_name);
    ("table_name", VStr table_name);
    ("feed_name", VStr feed_name);
    ("total_rows", VInt total_rows);
    ("column_completeness", VList column_completeness);
    ("overall_completeness_score", VFloat overall_completeness_score);
    ("validation_status", VStr validation_status);
    ("error_message", error_message) ].

Definition completeness_table (table_key : string)
    (table_metadata : list FeedMetadata) : M unit :=
  '(db_name, table_name) <- unpack2 (split_dot table_key) ;;
  meta0 <- first table_metadata ;;
  new_result (completeness_result db_name table_name (feed meta0) 0 []
                (float_of_Z 0) "PASS" VNone) ;;
  try_except
    (total_rows <- DatabaseConnector.get_row_count w db_name table_name None ;;
     set_item "total_rows" (VInt (Z.of_N total_rows)) ;;
     (if N.eqb total_rows 0 then
        set_item "validation_status" (VStr "FAIL") ;;
        set_item "error_message"
          (VStr "Table is empty - cannot check completeness") ;;
        append_result ;;
        continue
      else ret tt) ;;
     completeness_scores <-
       completeness_columns db_name table_name total_rows table_metadata [] ;;
     overall_score <-
       truediv_float (sum completeness_scores)
                     (Z.of_nat (List.length completeness_scores)) ;;
     set_item "overall_completeness_score" (VFloat (round2 overall_score)) ;;
     if PrimFloat.ltb overall_score f95 then
       set_item "validation_status" (VStr "FAIL") ;;
       set_item "error_message"
         (VFmt [VStr "Low completeness score: "; VFloat overall_score; VStr "%"])
     else ret tt)
    (on_error "Error validating completeness checks: ") ;;
  append_result.

Definition validate_completeness_checks (metadata : list FeedMetadata)
    (selected_feeds : option (list string)) : list Dict :=
  returned "completeness_check" "Error in completeness checks validation: "
    (let metadata := select_feeds metadata selected_feeds in
     let table_groups := group_by_table metadata in
     for_each table_groups
       (fun '(table_key, table_metadata) =>
          completeness_table table_key table_metadata)).

End Validator.
End DatabaseValidator.

(** ** Reading a result *)

Definition status_of (r : Dict) : option PyVal := dict_get "validation_status" r.
Definition message_of (r : Dict) : option PyVal := dict_get "error_message" r.

Definition PASS : option PyVal := Some (VStr "PASS").
Definition FAIL : option PyVal := Some (VStr "FAIL").
Definition ERROR : option PyVal := Some (VStr "ERROR").

(** The record a loop body appends for its unit, and the calls it makes. *)
Definition record_of (block : M unit) : Dict :=
  match emitted (block []) with
  | r :: _ => r
  | [] => []
  end.

Definition calls_of (block : M unit) : list Call := asked (block []).

(** Error isolation of a validator that runs [body] on each of [units] and
    returns [results]: every unit contributes its one record, in order,
    whatever happened to the others; and when a store call made for a unit
    raises [e], that record has status ERROR and carries [e]. *)
Definition error_isolation (w : World) {U : Type} (units : list U)
    (body : U -> M unit) (validating_what : string) (results : list Dict) : Prop :=
  results = map (fun u => record_of (body u)) units
  /\ forall u c e,
       In u units -> In c (calls_of (body u)) -> raises w c e ->
       status_of (record_of (body u)) = ERROR
       /\ message_of (record_of (body u)) = Some (VStr (validating_what ++ e)).

(** The completeness figures, as the check computes them from the row count
    and the null counts of the columns. *)
Definition percentage_of (total_rows null_count : N) : float :=
  PrimFloat.mul
    (PrimFloat.div (float_of_Z (Z.of_N total_rows - Z.of_N null_count))
                   (float_of_Z (Z.of_N total_rows)))
    f100.

Definition overall_of (total_rows : N) (null_counts : list N) : float :=
  PrimFloat.div (sum (map (percentage_of total_rows) null_counts))
                (float_of_Z (Z.of_nat (List.length null_counts))).

(** The verdict of the data-type check on a column of the actual schema:
    the column is declared in the group's metadata, with a compatible type. *)
Definition column_accepted (table_metadata : list FeedMetadata) (c : ColumnInfo)
  : bool :=
  match dict_get (col_name c) (DatabaseValidator.expected_schema_of table_metadata) with
  | Some declared => _compare_data_types (upper (col_type c)) (upper declared)
  | None => false
  end.

(** A group has a first record and a key that splits in two. *)
Definition group_ok (g : string * list FeedMetadata) : Prop :=
  snd g <> [] /\ exists x y, split_dot (fst g) = [x; y].

(** A loop body appends exactly one record and lets no exception out. *)
Definition one_record (block : M unit) : Prop :=
  forall d,
    (forall e, outcome (block d) <> Raise e)
    /\ emitted (block d) = [record_of block].

(** When a store call made by the body raises [e], its record has status
    ERROR and the message of the body's [except] clause with [e]. *)
Definition reports (w : World) (validating_what : string) (block : M unit) : Prop :=
  forall c e,
    In c (calls_of block) -> raises w c e ->
    status_of (record_of block) = ERROR
    /\ message_of (record_of block) = Some (VStr (validating_what ++ e)).

(** ** Sample stores and metadata *)

(** A store with one schema for every table, whose counts depend on the
    query text only. *)
Definition store_of (columns : list ColumnInfo) (count : string -> N) : World :=
  {| inspect_columns := fun _ _ => Returns columns;
     select_count := fun _ query => Returns (count query) |}.

Definition customer_column (field_name data_type nullable mandatory unique : string)
    (enumeration : option string) : FeedMetadata :=
  FeedMetadata.mk "CRM" "customers.csv" ["customers.csv"] field_name
    "sales" "CUSTOMER" data_type nullable "Insert" None enumeration None None
    mandatory unique.

Definition customer_id : FeedMetadata :=
  customer_column "ID" "Integer" "N" "Y" "Y" None.

Definition customer_name : FeedMetadata :=
  customer_column "NAME" "Varchar" "Y" "N" "N" None.

Definition customer_status : FeedMetadata :=
  customer_column "STATUS" "Varchar" "Y" "N" "N" (Some "CustomerStatus").

Definition id_column (nullable : bool) : ColumnInfo :=
  {| col_name := "ID"; col_type := "INTEGER"; col_nullable := nullable |}.

(** 100 rows, one of them without an ID. *)
Definition one_null_in_100 : World :=
  store_of [id_column false]
           (fun query => if str_in "IS NULL" query then 1%N else 100%N).

(** 100000 rows, 5004 of them without an ID: 94.996% complete. *)
Definition just_below_95 : World :=
  store_of [id_column false]
           (fun query => if str_in "IS NULL" query then 5004%N else 100000%N).

(** No null ID, in a column that the schema lets be null. *)
Definition nullable_id : World :=
  store_of [id_column true] (fun _ => 0%N).

(** The two counts of the unique check read one row, then two values. *)
Definition grown_between_counts : World :=
  store_of [id_column false]
           (fun query => if str_in "DISTINCT" query then 2%N else 1%N).

(** A table without rows. *)
Definition empty_table : World := store_of [id_column false] (fun _ => 0%N).


(** * Further models: the session selector, the metadata reader, the
      command-line fixture and the report summary

    What follows embeds [DatabaseConnector.get_session] (its choice of
    engine), [MetadataReader] ([utils/excel_reader.py]), the fixture
    [selected_feeds] ([tests/conftest.py]) and the summary and sheet headers
    of [ReportGenerator] ([validations/report_generator.py]), with the
    vocabulary used to state properties of them and of the checks. *)

(** ** Reading a record, continued *)

(** The keys of a record, in the order of their first assignment. *)
Definition keys_of (r : Dict) : list string := map fst r.

(** The status of a record is one of the three the checks assign. *)
Definition settled (r : Dict) : Prop :=
  status_of r = PASS \/ status_of r = FAIL \/ status_of r = ERROR.

(** Some call of the block made the store raise. *)
Definition store_raised (w : World) (block : M unit) : Prop :=
  exists c e, In c (calls_of block) /\ raises w c e.

(** A count, or a sum of counts, that a 64-bit integer holds: the counts
    come from the store as [numpy.int64], whose sum wraps beyond. *)
Definition fits_int64 (n : N) : Prop := (n < 2 ^ 63)%N.

(** ** More sample metadata and stores *)

(** A store that cannot be reached: every call raises. *)
Definition store_down : World :=
  {| inspect_columns := fun _ _ => Throws "connection refused";
     select_count := fun _ _ => Throws "connection refused" |}.

(** AGE, declared between 0 and 120. *)
Definition customer_age : FeedMetadata :=
  FeedMetadata.mk "CRM" "customers.csv" ["customers.csv"] "AGE"
    "sales" "CUSTOMER" "Integer" "Y" "Insert" None None (Some "0") (Some "120")
    "N" "N".

(** Two ages under the lower bound, none over the upper one. *)
Definition two_below_range : World :=
  store_of [id_column false]
           (fun query => if str_in " < " query then 2%N else 0%N).

(** The catalog rows of CustomerStatus. *)
Definition status_catalog : list EnumerationMetadata :=
  [ EnumerationMetadata.mk "CustomerStatus" "ACTIVE";
    EnumerationMetadata.mk "Country" "FR";
    EnumerationMetadata.mk "CustomerStatus" "CLOSED" ].

(** Three rows in every table, and three matches for every other count. *)
Definition three_rows : World := store_of [id_column false] (fun _ => 3%N).

(** The entry under [k] is a string. *)
Definition is_text (k : string) (r : Dict) : Prop :=
  exists s, dict_get k r = Some (VStr s).

(** A record of the check [validation_type]: it has exactly the keys [keys],
    in that order, names its check, its store, table and feed, and has a
    status. *)
Definition well_formed (validation_type : string) (keys : list string) (r : Dict)
  : Prop :=
  keys_of r = keys
  /\ dict_get "validation_type" r = Some (VStr validation_type)
  /\ is_text "db_name" r /\ is_text "table_name" r /\ is_text "feed_name" r
  /\ settled r.

(** The keys of the records of each check, as its [result] literal lists
    them. *)
Definition data_type_keys : list string :=
  [ "validation_type"; "db_name"; "table_name"; "feed_name";
    "column_validations"; "validation_status"; "error_message" ].

Definition nullable_keys : list string :=
  [ "validation_type"; "db_name"; "table_name"; "column_name"; "feed_name";
    "expected_nullable"; "expected_mandatory"; "actual_nullable"; "null_count";
    "validation_status"; "error_message" ].

Definition unique_keys : list string :=
  [ "validation_type"; "db_name"; "table_name"; "column_name"; "feed_name";
    "expected_unique"; "total_count"; "distinct_count"; "duplicate_count";
    "validation_status"; "error_message" ].

Definition range_keys : list string :=
  [ "validation_type"; "db_name"; "table_name"; "column_name"; "feed_name";
    "range_bottom"; "range_top"; "below_range_count"; "above_range_count";
    "validation_status"; "error_message" ].

Definition enumeration_keys : list string :=
  [ "validation_type"; "db_name"; "table_name"; "column_name"; "feed_name";
    "enumeration_name"; "allowed_values"; "invalid_count";
    "validation_status"; "error_message" ].

Definition insert_append_keys : list string :=
  [ "validation_type"; "db_name"; "table_name"; "feed_name"; "request_type";
    "current_row_count"; "expected_behavior";
    "validation_status"; "error_message" ].

Definition count_keys : list string :=
  [ "validation_type"; "db_name"; "table_name"; "feed_name";
    "actual_count"; "expected_count"; "validation_status"; "error_message" ].

Definition completeness_keys : list string :=
  [ "validation_type"; "db_name"; "table_name"; "feed_name"; "total_rows";
    "column_completeness"; "overall_completeness_score";
    "validation_status"; "error_message" ].

(** The store and the table that a check by table names in its record. *)
Definition names (db_name table_name : string) (r : Dict) : Prop :=
  dict_get "db_name" r = Some (VStr db_name)
  /\ dict_get "table_name" r = Some (VStr table_name).

(** ID declared a second time, as text, by another feed of the same table. *)
Definition customer_id_as_text : FeedMetadata :=
  FeedMetadata.mk "CRM" "customers_delta.csv" ["customers_delta.csv"] "ID"
    "sales" "CUSTOMER" "Varchar" "N" "Append" None None None None "Y" "Y".

(** The first and the last record of a group that declare a column. *)
Definition first_declaration (table_metadata : list FeedMetadata)
    (column_name : string) : option FeedMetadata :=
  find (fun meta => String.eqb (FeedMetadata.field_name meta) column_name)
       table_metadata.

Definition last_declaration (table_metadata : list FeedMetadata)
    (column_name : string) : option FeedMetadata :=
  find (fun meta => String.eqb (FeedMetadata.field_name meta) column_name)
       (rev table_metadata).

(** ** The session of a store ([DatabaseConnector.get_session])

    [engine_key] of [get_session]: the engine whose session factory it
    opens. The session itself (commit, rollback, close) is not modelled. *)
Definition get_session (db_name : string) : Engine :=
  if str_in "server1" (lower db_name) then server1 else server2.

(** ** Strings, continued *)

(** White space, as [str.isspace] has it on ASCII: the characters 9 to 13
    (tab, line feed, vertical tab, form feed, carriage return), the
    separators 28 to 31 and the space. *)
Definition is_space (c : ascii) : bool :=
  let n := nat_of_ascii c in
  ((9 <=? n)%nat && (n <=? 13)%nat) || ((28 <=? n)%nat && (n <=? 32)%nat).

(** [s.lstrip()], [s.rstrip()] and [s.strip()]. *)
Fixpoint lstrip (s : string) : string :=
  match s with
  | EmptyString => EmptyString
  | String c t => if is_space c then lstrip t else s
  end.

Fixpoint rstrip (s : string) : string :=
  match s with
  | EmptyString => EmptyString
  | String c t =>
      match rstrip t with
      | EmptyString => if is_space c then EmptyString else String c EmptyString
      | kept => String c kept
      end
  end.

Definition strip (s : string) : string := rstrip (lstrip s).

(** A string is empty, as a condition: [not s]. *)
Definition is_empty (s : string) : bool :=
  match s with EmptyString => true | String _ _ => false end.

(** Some character of [s] satisfies [p]. *)
Fixpoint str_exists (p : ascii -> bool) (s : string) : bool :=
  match s with
  | EmptyString => false
  | String c t => p c || str_exists p t
  end.

(** The string is ASCII text. On such text [upper], [lower] and [strip] do
    what [str.upper], [str.lower] and [str.strip] do; a character beyond
    ASCII may change case, or be white space, in Python. *)
Definition is_ascii (s : string) : bool :=
  negb (str_exists (fun c => (128 <=? nat_of_ascii c)%nat) s).

(** [s.split(sep)] for a separator of one character. *)
Fixpoint split_on (sep : ascii) (s : string) : list string :=
  match s with
  | EmptyString => [EmptyString]
  | String c t =>
      if Ascii.eqb c sep then EmptyString :: split_on sep t
      else match split_on sep t with
           | piece :: pieces => String c piece :: pieces
           | [] => [String c EmptyString]
           end
  end.

(** The character class [[,\|;]] of the feed separators. *)
Definition is_separator (c : ascii) : bool :=
  Ascii.eqb c "," || Ascii.eqb c "|" || Ascii.eqb c ";".

(** [re.split(r'[,\|;]+', s)]: cut at every run of separators; [in_run]
    says that the character before was a separator. A string that starts
    (ends) with a separator gives an empty first (last) piece, and the empty
    string gives one empty piece. *)
Fixpoint re_split_from (in_run : bool) (s : string) : list string :=
  match s with
  | EmptyString => [EmptyString]
  | String c t =>
      if is_separator c then
        if in_run then re_split_from true t
        else EmptyString :: re_split_from true t
      else match re_split_from false t with
           | piece :: pieces => String c piece :: pieces
           | [] => [String c EmptyString]
           end
  end.

Definition re_split (s : string) : list string := re_split_from false s.

(** ** The metadata reader ([utils/excel_reader.py])

    A sheet is a [DataFrame]: its column labels and its rows. A cell is
    blank (NaN, as [read_excel] gives an empty cell) or holds a value, kept
    as the text [str] prints for it. A row shorter than the labels reads as
    blank beyond its end. The labels are strings, distinct once stripped
    ([read_excel] renames a repeated label); [row.get] reads the first
    column of a label. *)

Inductive Cell := Blank | Text (s : string).

Record DataFrame := mkFrame {
  columns : list string;
  rows : list (list Cell)
}.

(** The position of a label among the columns. *)
Fixpoint index_of (label : string) (labels : list string) : option nat :=
  match labels with
  | [] => None
  | l :: rest =>
      if String.eqb l label then Some 0%nat
      else option_map S (index_of label rest)
  end.

(** [row.get(label)]: [None] when the sheet has no such column. *)
Definition row_get (labels : list string) (row : list Cell) (label : string)
  : option Cell :=
  match index_of label labels with
  | Some j => Some (nth j row Blank)
  | None => None
  end.

(** [pd.isna(x)] and [pd.notna(x)], for [x] a cell or [None]. *)
Definition isna (x : option Cell) : bool :=
  match x with
  | Some (Text _) => false
  | Some Blank => true
  | None => true
  end.

Definition notna (x : option Cell) : bool := negb (isna x).

(** [str(row.get(label, default))]: a blank cell prints as [nan]. *)
Definition str_cell (x : option Cell) (default : string) : string :=
  match x with
  | Some (Text s) => s
  | Some Blank => "nan"
  | None => default
  end.

(** [str(row.get(label, '')) if pd.notna(row.get(label)) else None]. *)
Definition opt_cell (x : option Cell) : option string :=
  if notna x then Some (str_cell x EmptyString) else None.

(** [[f.strip() for f in re.split(r'[,\|;]+', feed_raw) if f.strip()]]. *)
Definition parse_feed_list (feed_raw : string) : list string :=
  map strip (filter (fun f => negb (is_empty (strip f))) (re_split feed_raw)).

(** The Modules and Feed texts of the rows that have both, in the order of
    the sheet. *)
Definition named_rows (labels : list string) (rs : list (list Cell))
  : list (string * string) :=
  flat_map (fun row =>
              match row_get labels row "Modules", row_get labels row "Feed" with
              | Some (Text modules), Some (Text feed) => [(modules, feed)]
              | _, _ => []
              end)
           rs.

Module MetadataReader.

(** The body of the loop of [_load_feed_metadata] on a row: [None] is the
    [continue] of a row without Modules or Feed. *)
Definition feed_row (labels : list string) (row : list Cell)
  : option FeedMetadata :=
  let get := row_get labels row in
  if isna (get "Modules") || isna (get "Feed") then None
  else
    let feed_raw := str_cell (get "Feed") EmptyString in
    let feed_list := parse_feed_list feed_raw in
    Some (FeedMetadata.mk
            (str_cell (get "Modules") EmptyString)
            feed_raw
            feed_list
            (str_cell (get "FieldName") EmptyString)
            (str_cell (get "DBName") EmptyString)
            (str_cell (get "DB Table") EmptyString)
            (str_cell (get "DataType") EmptyString)
            (str_cell (get "Nullable") "N")
            (str_cell (get "Request") "Insert")
            (opt_cell (get "Default"))
            (opt_cell (get "Enumeration"))
            (opt_cell (get "RangeBottom"))
            (opt_cell (get "RangeTop"))
            (str_cell (get "Mandatory") "N")
            (str_cell (get "Unique") "N")).

(** [_load_feed_metadata(df)]: from [self.feed_metadata] before the call to
    [self.feed_metadata] after it. *)
Definition _load_feed_metadata (df : option DataFrame)
    (feed_metadata : list FeedMetadata) : list FeedMetadata :=
  match df with
  | None => feed_metadata
  | Some df =>
      let labels := map strip (columns df) in
      fold_left (fun feed_metadata row =>
                   match feed_row labels row with
                   | Some feed_meta => (feed_metadata ++ [feed_meta])%list
                   | None => feed_metadata
                   end)
                (rows df) feed_metadata
  end.

Definition enumeration_row (labels : list string) (row : list Cell)
  : option EnumerationMetadata :=
  let get := row_get labels row in
  if isna (get "EnumerationName") then None
  else Some (EnumerationMetadata.mk
               (str_cell (get "EnumerationName") EmptyString)
               (str_cell (get "EnumValues") EmptyString)).

(** [_load_enumeration_metadata(df)], on [self.enumeration_metadata]. *)
Definition _load_enumeration_metadata (df : option DataFrame)
    (enumeration_metadata : list EnumerationMetadata)
  : list EnumerationMetadata :=
  match df with
  | None => enumeration_metadata
  | Some df =>
      let labels := map strip (columns df) in
      fold_left (fun enumeration_metadata row =>
                   match enumeration_row labels row with
                   | Some enum_meta => (enumeration_metadata ++ [enum_meta])%list
                   | None => enumeration_metadata
                   end)
                (rows df) enumeration_metadata
  end.

(** The loop of [get_enumeration_values]. *)
Definition get_enumeration_values (enumeration_metadata : list EnumerationMetadata)
    (enum_name : string) : list string :=
  fold_left (fun values meta =>
               if String.eqb (EnumerationMetadata.enumeration_name meta) enum_name
               then (values ++ [EnumerationMetadata.enum_values meta])%list
               else values)
            enumeration_metadata [].

End MetadataReader.

(** ** The feeds named on the command line ([tests/conftest.py])

    The fixture [selected_feeds], from the value of the option [--feeds]. *)
Definition selected_feeds (feeds : option string) : option (list string) :=
  if truthy feeds then Some (map strip (split_on "," (opt_str feeds)))
  else None.

(** The records that a loader's loop body [keep] gives for the rows of a
    sheet, in the order of the rows. *)
Fixpoint kept_of {A : Type} (keep : list Cell -> option A) (rs : list (list Cell))
  : list A :=
  match rs with
  | [] => []
  | row :: rest =>
      match keep row with
      | Some record => record :: kept_of keep rest
      | None => kept_of keep rest
      end
  end.

(** A sheet whose first row feeds one table from two files, whose second
    row has no feed and whose third leaves the flags blank. *)
Definition sample_sheet : DataFrame :=
  {| columns := ["Modules"; " Feed"; "FieldName"; "DBName"; "DB Table";
                 "DataType"; "Unique "; "RangeTop"];
     rows := [ [Text "CRM"; Text "customers.csv, customers_delta.csv"; Text "ID";
                Text "sales"; Text "CUSTOMER"; Text "Integer"; Text "Y"; Blank];
               [Text "CRM"; Blank; Text "NAME";
                Text "sales"; Text "CUSTOMER"; Text "Varchar"; Text "N"; Blank];
               [Text "CRM"; Text "customers.csv"; Text "AGE";
                Text "sales"; Text "CUSTOMER"; Text "Integer"; Blank; Text "120"] ] |}.

(** An enumeration sheet: two values for CustomerStatus, one row without a
    name, and a name without a value. *)
Definition enumeration_sheet : DataFrame :=
  {| columns := ["EnumerationName"; "EnumValues"];
     rows := [ [Text "CustomerStatus"; Text "ACTIVE"];
               [Blank; Text "ORPHAN"];
               [Text "CustomerStatus"; Text "CLOSED"];
               [Text "Country"; Blank] ] |}.

(** ** The report ([validations/report_generator.py])

    A test result is a dictionary, as the checks return it. *)

Module ReportGenerator.

(** [v == s] for a string literal [s]. A formatted message ([VFmt]) prints
    a float, and equals none of the literals compared here. *)
Definition is_str (v : PyVal) (s : string) : bool :=
  match v with
  | VStr t => String.eqb t s
  | _ => false
  end.

(** [result.get(key)] and [result.get(key, default)]. *)
Definition get (result : Dict) (key : string) : PyVal :=
  match dict_get key result with Some v => v | None => VNone end.

Definition get_or (result : Dict) (key : string) (default : PyVal) : PyVal :=
  match dict_get key result with Some v => v | None => default end.

(** The counters of a group: [{'total', 'passed', 'failed', 'errors'}]. *)
Record Tally := mkTally {
  total : nat;
  passed : nat;
  failed : nat;
  errors : nat
}.

Definition no_test : Tally := mkTally 0 0 0 0.

(** [group['total'] += 1], then the counter of the status. *)
Definition count (status : PyVal) (tally : Tally) : Tally :=
  let tally :=
    mkTally (total tally + 1) (passed tally) (failed tally) (errors tally) in
  if is_str status "PASS" then
    mkTally (total tally) (passed tally + 1) (failed tally) (errors tally)
  else if is_str status "FAIL" then
    mkTally (total tally) (passed tally) (failed tally + 1) (errors tally)
  else
    mkTally (total tally) (passed tally) (failed tally) (errors tally + 1).

(** The name under which a result is grouped: [result.get(key, 'Unknown')].
    [None] stands for a value that is no string; grouping by such a value
    is not modelled. *)
Definition label (result : Dict) (key default : string) : option string :=
  match dict_get key result with
  | None => Some default
  | Some (VStr name) => Some name
  | Some _ => None
  end.

(** One turn of a grouping loop. *)
Definition count_in (name : string) (result : Dict)
    (groups : list (string * Tally)) : list (string * Tally) :=
  let groups :=
    if negb (dict_has name groups) then dict_set name no_test groups
    else groups in
  let tally :=
    match dict_get name groups with Some tally => tally | None => no_test end in
  let status := get_or result "validation_status" (VStr "ERROR") in
  dict_set name (count status tally) groups.

(** The loops [for result in test_results] that group by [key]. *)
Definition group_by (key : string) (test_results : list Dict)
  : option (list (string * Tally)) :=
  fold_left (fun groups result =>
               match groups, label result key "Unknown" with
               | Some groups, Some name => Some (count_in name result groups)
               | _, _ => None
               end)
            test_results (Some []).

(** The summary of [_prepare_report_data], without [report_generated_at]
    (the clock) and [success_rate] (a rounded float). *)
Record ReportData := mkReportData {
  total_tests : nat;
  passed_tests : nat;
  failed_tests : nat;
  error_tests : nat;
  validation_types : list (string * Tally);
  feed_results : list (string * Tally)
}.

Definition having (status : string) (test_results : list Dict) : nat :=
  List.length
    (filter (fun r => is_str (get r "validation_status") status) test_results).

Definition _prepare_report_data (test_results : list Dict) : option ReportData :=
  let total_tests := List.length test_results in
  let passed_tests := having "PASS" test_results in
  let failed_tests := having "FAIL" test_results in
  let error_tests := having "ERROR" test_results in
  match group_by "validation_type" test_results,
        group_by "feed_name" test_results with
  | Some validation_types, Some feed_results =>
      Some (mkReportData total_tests passed_tests failed_tests error_tests
              validation_types feed_results)
  | _, _ => None
  end.

(** *** The sheets of the Excel report *)

Definition common_headers : list string :=
  ["Feed Name"; "DB Name"; "Table Name"; "Validation Status"; "Error Message"].

Definition type_specific_headers : list (string * list string) :=
  [ ("data_type", ["Column Name"; "Expected Type"]);
    ("nullable_constraint", ["Column Name"; "Expected Nullable"; "Null Count"]);
    ("unique_constraint",
     ["Column Name"; "Total Count"; "Distinct Count"; "Duplicate Count"]);
    ("range_constraint",
     ["Column Name"; "Range Bottom"; "Range Top"; "Below Range Count";
      "Above Range Count"]);
    ("enumeration_constraint",
     ["Column Name"; "Enumeration Name"; "Invalid Count"]);
    ("count_check", ["Actual Count"; "Expected Count"]);
    ("completeness_check", ["Total Rows"; "Overall Completeness Score"]);
    ("file_availability", ["File Pattern"; "File Count"; "Latest File"]);
    ("autosys_job", ["Job Name"; "Current Status"; "Expected Status"]) ].

Definition _get_headers_for_validation_type (validation_type : string)
  : list string :=
  let specific_headers :=
    match dict_get validation_type type_specific_headers with
    | Some headers => headers
    | None => []
    end in
  (specific_headers ++ common_headers)%list.

(** [s.replace(old, new)] for strings of one character. *)
Definition replace (old new : ascii) (s : string) : string :=
  str_map (fun c => if Ascii.eqb c old then new else c) s.

(** [header.lower().replace(' ', '_')]. *)
Definition key_of_header (header : string) : string :=
  replace " " "_" (lower header).

(** The value that [_create_detailed_worksheets] writes under a header:
    [result.get(header.lower().replace(' ', '_'), '')]. *)
Definition value_under (header : string) (result : Dict) : PyVal :=
  get_or result (key_of_header header) (VStr EmptyString).

End ReportGenerator.

(** The sum of a counter over the groups of a report. *)
Definition sum_of (counter : ReportGenerator.Tally -> nat)
    (groups : list (string * ReportGenerator.Tally)) : nat :=
  fold_right (fun group n => (counter (snd group) + n)%nat) 0%nat groups.

(** The counters of a group add up, and the group is not empty. *)
Definition balanced (tally : ReportGenerator.Tally) : Prop :=
  ReportGenerator.total tally
  = (ReportGenerator.passed tally + ReportGenerator.failed tally
     + ReportGenerator.errors tally)%nat
  /\ (0 < ReportGenerator.total tally)%nat.

(** The results of the eight checks on the same metadata, one check after
    the other. *)
Definition all_checks (w : World) (metadata : list FeedMetadata)
    (enumeration_metadata : list EnumerationMetadata)
    (expected_counts : option (list (string * Z)))
    (selected_feeds : option (list string)) : list Dict :=
  (DatabaseValidator.validate_data_types w metadata selected_feeds
   ++ DatabaseValidator.validate_nullable_constraints w metadata selected_feeds
   ++ DatabaseValidator.validate_unique_constraints w metadata selected_feeds
   ++ DatabaseValidator.validate_range_constraints w metadata selected_feeds
   ++ DatabaseValidator.validate_enumeration_constraints w metadata
        enumeration_metadata selected_feeds
   ++ DatabaseValidator.validate_insert_append_logic w metadata selected_feeds
   ++ DatabaseValidator.validate_count_checks w metadata expected_counts
        selected_feeds
   ++ DatabaseValidator.validate_completeness_checks w metadata selected_feeds)%list.

(** The names of the eight checks. *)
Definition check_names : list string :=
  [ "data_type"; "nullable_constraint"; "unique_constraint"; "range_constraint";
    "enumeration_constraint"; "insert_append_logic"; "count_check";
    "completeness_check" ].

(** A result of one of the eight checks. *)
Definition checked (r : Dict) : Prop :=
  exists validation_type keys,
    In validation_type check_names /\ well_formed validation_type keys r.

(** The status under which the report counts a result. *)
Definition counted_status (r : Dict) : PyVal :=
  ReportGenerator.get_or r "validation_status" (VStr "ERROR").

(** What one result adds to a counter, and what a list of results adds. *)
Definition adds (counter : ReportGenerator.Tally -> nat) (r : Dict) : nat :=
  counter (ReportGenerator.count (counted_status r) ReportGenerator.no_test).

Definition tests (counter : ReportGenerator.Tally -> nat) (rs : list Dict) : nat :=
  fold_right (fun r n => (adds counter r + n)%nat) 0%nat rs.

(** A counter that [count] raises by what it gives on an empty group. *)
Definition additive (counter : ReportGenerator.Tally -> nat) : Prop :=
  forall status tally,
    counter (ReportGenerator.count status tally)
    = (counter tally
       + counter (ReportGenerator.count status ReportGenerator.no_test))%nat.

(** The groups of a report agree with its headline: no name comes twice, no
    group is empty, the counters of a group add up, and over the groups the
    totals, the passed and the failed add up to the headline figures, while
    the errors add up to the headline figure or more. *)
Definition agrees (data : ReportGenerator.ReportData)
    (groups : list (string * ReportGenerator.Tally)) : Prop :=
  NoDup (map fst groups)
  /\ Forall balanced (map snd groups)
  /\ sum_of ReportGenerator.total groups = ReportGenerator.total_tests data
  /\ sum_of ReportGenerator.passed groups = ReportGenerator.passed_tests data
  /\ sum_of ReportGenerator.failed groups = ReportGenerator.failed_tests data
  /\ (ReportGenerator.error_tests data <= sum_of ReportGenerator.errors groups)%nat.

(** Every column of the sheet of a validation type finds its key in the
    result. *)
Definition filled (validation_type : string) (r : Dict) : Prop :=
  forall header,
    In header (ReportGenerator._get_headers_for_validation_type validation_type) ->
    dict_has (ReportGenerator.key_of_header header) r = true.

(** The column of the sheet under [header] is blank for the result. *)
Definition blank_under (header : string) (r : Dict) : Prop :=
  ReportGenerator.value_under header r = VStr EmptyString.

(** Two results of a count check as a test run collects them: one passed,
    and one that a test marked as skipped. *)
Definition collected_results : list Dict :=
  [ [ ("validation_type", VStr "count_check");
      ("feed_name", VStr "customers.csv");
      ("validation_status", VStr "PASS") ];
    [ ("validation_type", VStr "count_check");
      ("validation_status", VStr "SKIPPED") ] ].

Definition collected_summary : ReportGenerator.ReportData :=
  ReportGenerator.mkReportData 2 1 0 0
    [ ("count_check", ReportGenerator.mkTally 2 1 0 1) ]
    [ ("customers.csv", ReportGenerator.mkTally 1 1 0 0);
      ("Unknown", ReportGenerator.mkTally 1 0 0 1) ].

(** The calls of the completeness check for a column: the schema of the
    table, then the count of nulls of the column. *)
Definition column_calls (db_name table_name : string) (meta : FeedMetadata)
  : list Call :=
  [ Inspect (DatabaseConnector.get_engine db_name) table_name;
    Query (DatabaseConnector.get_engine db_name)
          (DatabaseConnector.null_count_query table_name
             (FeedMetadata.field_name meta)) ].
(** ** Lemmas on strings *)

Lemma prefix_occurs (n h : string) :
  prefix n h = true <-> exists after, h = n ++ after.
Proof.
  revert h. induction n as [|c n IH]; intros h.
  - split; [intros _; now exists h | intros _; now destruct h].
  - destruct h as [|d h]; simpl.
    + split; [discriminate | intros [a Ha]; discriminate].
    + destruct (Ascii.ascii_dec c d) as [Hcd|Hcd].
      * subst d. rewrite IH.
        split; intros [a Ha]; exists a; [now rewrite Ha | now inversion Ha].
      * split; [discriminate | intros [a Ha]; inversion Ha; congruence].
Qed.

Lemma str_in_occurs (n h : string) : str_in n h = true <-> occurs_in n h.
Proof.
  unfold occurs_in. induction h as [|d h IH].
  - cbn [str_in]. rewrite orb_false_r, prefix_occurs. split.
    + intros [a Ha]. now exists EmptyString, a.
    + intros [b [a Ha]]. destruct b; [now exists a | discriminate].
  - cbn [str_in]. rewrite orb_true_iff, prefix_occurs, IH. split.
    + intros [[a Ha] | [b [a Ha]]].
      * now exists EmptyString, a.
      * exists (String d b), a. simpl. now rewrite Ha.
    + intros [b [a Ha]]. destruct b as [|c b].
      * left. now exists a.
      * right. simpl in Ha. inversion Ha. now exists b, a.
Qed.

Lemma any_variant_in_spec (variants : list string) (s : string) :
  any_variant_in variants s = true <->
  exists name, In name variants /\ occurs_in name s.
Proof.
  unfold any_variant_in. rewrite existsb_exists.
  split; intros [x [Hx H]]; exists x; split; auto; now apply str_in_occurs.
Qed.

Lemma compare_loop_spec items a e :
  compare_loop items a e = Some true <->
  exists k variants, In (k, variants) items
    /\ any_variant_in variants a = true /\ any_variant_in variants e = true.
Proof.
  induction items as [|[k vs] rest IH]; simpl.
  - split; [discriminate | intros (? & ? & [] & _)].
  - destruct (any_variant_in vs a && any_variant_in vs e) eqn:E.
    + split; [intros _ | reflexivity].
      apply andb_true_iff in E. exists k, vs. tauto.
    + rewrite IH. split.
      * intros (k' & vs' & Hin & H). exists k', vs'. tauto.
      * intros (k' & vs' & [Heq | Hin] & Ha & He).
        -- inversion Heq; subst. rewrite Ha, He in E. discriminate.
        -- exists k', vs'. tauto.
Qed.

Lemma compare_loop_not_false items a e : compare_loop items a e <> Some false.
Proof.
  induction items as [|[k vs] rest IH]; simpl; [discriminate|].
  destruct (_ && _); [discriminate | exact IH].
Qed.

Lemma bucket_of_mapping k variants :
  In (k, variants) type_mappings -> exists b, bucket_names b = variants.
Proof.
  simpl. intros [H|[H|[H|[H|[H|[]]]]]]; inversion H; subst;
    [exists TextLike | exists IntegerLike | exists DecimalLike
    | exists DatetimeLike | exists BooleanLike]; reflexivity.
Qed.

Lemma mapping_of_bucket b : exists k, In (k, bucket_names b) type_mappings.
Proof.
  destruct b; simpl; eexists; eauto 6.
Qed.

(** ** Claims *)

(** C8. The type-compatibility predicate [_compare_data_types] returns true
    if and only if the actual and the expected type string fall in one same
    bucket (text-like, integer-like, decimal-like, datetime-like,
    boolean-like), or the two raw strings are equal; otherwise it returns
    false. *)
Theorem C8_compare_data_types_iff (actual_type expected_type : string) :
  (_compare_data_types actual_type expected_type = true <->
     (exists b : Bucket, in_bucket b actual_type /\ in_bucket b expected_type)
     \/ actual_type = expected_type)
  /\ (_compare_data_types actual_type expected_type = false <->
     ~ ((exists b : Bucket, in_bucket b actual_type /\ in_bucket b expected_type)
        \/ actual_type = expected_type)).
Proof.
  assert (Hiff : _compare_data_types actual_type expected_type = true <->
     (exists b : Bucket, in_bucket b actual_type /\ in_bucket b expected_type)
     \/ actual_type = expected_type).
  { unfold _compare_data_types, in_bucket.
    destruct (compare_loop type_mappings actual_type expected_type) as [[|]|] eqn:E.
    - split; [intros _ | reflexivity]. left.
      apply compare_loop_spec in E. destruct E as (k & vs & Hin & Ha & He).
      destruct (bucket_of_mapping _ _ Hin) as [b Hb]. exists b. rewrite Hb.
      split; now apply any_variant_in_spec.
    - now apply compare_loop_not_false in E.
    - rewrite String.eqb_eq. split; [tauto|].
      intros [[b [Ha He]] | H]; [exfalso | exact H].
      destruct (mapping_of_bucket b) as [k Hin].
      assert (compare_loop type_mappings actual_type expected_type = Some true) as H.
      { apply compare_loop_spec. exists k, (bucket_names b).
        repeat split; [exact Hin | |]; now apply any_variant_in_spec. }
      rewrite E in H. discriminate. }
  split; [exact Hiff|].
  rewrite <- Hiff.
  destruct (_compare_data_types actual_type expected_type);
    split; intros H; congruence.
Qed.

(** A string may fall in several buckets, and a bucket name may occur inside
    another word. *)
Example compare_parameterized_varchar :
  _compare_data_types "NVARCHAR(50)" "STRING" = true.
Proof. reflexivity. Qed.

Example compare_interval_is_integer_like :
  _compare_data_types "INTERVAL" "BIGINT" = true.
Proof. reflexivity. Qed.

Example compare_equal_unknown_types :
  _compare_data_types "XML" "XML" = true.
Proof. reflexivity. Qed.

Example compare_integer_with_text :
  _compare_data_types "INT" "VARCHAR" = false.
Proof. reflexivity. Qed.

(** ** Lemmas on dictionaries *)

Lemma dict_get_set_same {V : Type} (k : string) (v : V) (d : list (string * V)) :
  dict_get k (dict_set k v d) = Some v.
Proof.
  induction d as [|[k' v'] d IH]; simpl.
  - now rewrite String.eqb_refl.
  - destruct (String.eqb k' k) eqn:E; simpl; rewrite E; auto.
Qed.

Lemma dict_get_set_other {V : Type} (k k' : string) (v : V) (d : list (string * V)) :
  k <> k' -> dict_get k (dict_set k' v d) = dict_get k d.
Proof.
  intros Hk. induction d as [|[k0 v0] d IH]; simpl.
  - destruct (String.eqb k' k) eqn:E; [apply String.eqb_eq in E; congruence | reflexivity].
  - destruct (String.eqb k0 k') eqn:E; simpl.
    + apply String.eqb_eq in E. subst k0.
      destruct (String.eqb k' k) eqn:E'; [apply String.eqb_eq in E'; congruence | reflexivity].
    + now rewrite IH.
Qed.

Lemma dict_get_in {V : Type} (k : string) (v : V) (d : list (string * V)) :
  dict_get k d = Some v -> In (k, v) d.
Proof.
  induction d as [|[k' v'] d IH]; simpl; [discriminate|].
  destruct (String.eqb k' k) eqn:E.
  - apply String.eqb_eq in E. intros H. inversion H. subst. now left.
  - auto.
Qed.

(** ** Lemmas on table keys and groups *)

Lemma split_dot_key (a b : string) :
  exists x y, split_dot (a ++ "." ++ b) = [x; y].
Proof.
  induction a as [|c a IH]; cbn [append split_dot] in *.
  - now exists EmptyString, b.
  - destruct (Ascii.eqb c ".").
    + eexists _, _. reflexivity.
    + destruct IH as (x & y & ->). now exists (String c x), y.
Qed.

Lemma split_dot_plain (a b : string) :
  str_in "." a = false -> split_dot (a ++ "." ++ b) = [a; b].
Proof.
  induction a as [|c a IH]; cbn [str_in]; intros H.
  - reflexivity.
  - apply orb_false_iff in H. destruct H as [Hp Hrest].
    specialize (IH Hrest). cbn [append split_dot] in *.
    destruct (Ascii.eqb c ".") eqn:E.
    + apply Ascii.eqb_eq in E. subst c. simpl in Hp.
      destruct a; discriminate.
    + now rewrite IH.
Qed.


Lemma group_add_ok key meta groups :
  (exists x y, split_dot key = [x; y]) ->
  Forall group_ok groups ->
  Forall group_ok (DatabaseValidator.group_add key meta groups).
Proof.
  intros Hkey. induction 1 as [|[k ms] rest Hg Hrest IH]; simpl.
  - repeat constructor; [discriminate | exact Hkey].
  - destruct (String.eqb k key); constructor; auto.
    destruct Hg as [Hne Hk]. split; [|exact Hk].
    simpl. now destruct ms.
Qed.

Lemma group_by_table_ok metadata :
  Forall group_ok (DatabaseValidator.group_by_table metadata).
Proof.
  unfold DatabaseValidator.group_by_table.
  assert (H : Forall group_ok []) by constructor.
  revert H. generalize (@nil (string * list FeedMetadata)) as groups.
  induction metadata as [|meta rest IH]; intros groups H; simpl; [exact H|].
  apply IH, group_add_ok; [|exact H].
  apply split_dot_key.
Qed.

(** ** Lemmas on control flow *)

Lemma for_each_records {U : Type} (body : U -> M unit) (units : list U) :
  (forall u, In u units -> one_record (body u)) ->
  forall d,
    (forall e, outcome (for_each units body d) <> Raise e)
    /\ emitted (for_each units body d) = map (fun u => record_of (body u)) units.
Proof.
  induction units as [|u rest IH]; intros Hbody d; simpl.
  - split; [discriminate | reflexivity].
  - destruct (Hbody u (or_introl eq_refl) d) as [Hout Hem].
    assert (Hrest : forall u', In u' rest -> one_record (body u'))
      by (intros; apply Hbody; now right).
    destruct (body u d) as [o d1 em ask]. simpl in Hout, Hem. subst em.
    specialize (IH Hrest d1). destruct IH as [Hout' Hem'].
    destruct (for_each rest body d1) as [o2 d2 em2 ask2]. simpl in *.
    destruct o as [[]|e|]; simpl.
    + split; [exact Hout' | now rewrite Hem'].
    + now elim (Hout e).
    + split; [exact Hout' | now rewrite Hem'].
Qed.

Lemma returned_records {U : Type} (ty pre : string) (body : U -> M unit)
    (units : list U) :
  (forall u, In u units -> one_record (body u)) ->
  DatabaseValidator.returned ty pre (for_each units body)
  = map (fun u => record_of (body u)) units.
Proof.
  intros H. unfold DatabaseValidator.returned.
  destruct (for_each_records body units H []) as [Hout Hem].
  destruct (outcome (for_each units body [])) eqn:E; auto.
  now elim (Hout e).
Qed.

(** ** Running a loop body *)

#[local] Arguments DatabaseValidator.is_Y : simpl never.
#[local] Arguments upper : simpl never.
#[local] Arguments lower : simpl never.
#[local] Arguments str_int : simpl never.
#[local] Arguments str_bool : simpl never.
#[local] Arguments opt_str : simpl never.
#[local] Arguments truthy : simpl never.
#[local] Arguments join : simpl never.
#[local] Arguments String.append : simpl never.
#[local] Arguments round2 : simpl never.
#[local] Arguments float_of_Z : simpl never.
#[local] Arguments DatabaseValidator.opt_bool_str : simpl never.
#[local] Arguments DatabaseValidator.differs : simpl never.
#[local] Arguments DatabaseValidator.record_columns : simpl never.
#[local] Arguments DatabaseValidator.completeness_columns : simpl never.
#[local] Arguments DatabaseValidator.column_result_of : simpl never.
#[local] Arguments DatabaseValidator.column_completeness_of : simpl never.
#[local] Arguments DatabaseValidator.expected_schema_of : simpl never.
#[local] Arguments DatabaseValidator.expected_for : simpl never.
#[local] Arguments DatabaseValidator.allowed_values_of : simpl never.
#[local] Arguments DatabaseValidator.get_or_0 : simpl never.
#[local] Arguments DatabaseConnector.get_engine : simpl never.
#[local] Arguments DatabaseConnector.validate_columns : simpl never.
#[local] Arguments DatabaseConnector.column_nullable : simpl never.
#[local] Arguments DatabaseConnector.row_count_query : simpl never.
#[local] Arguments DatabaseConnector.null_count_query : simpl never.
#[local] Arguments DatabaseConnector.total_query : simpl never.
#[local] Arguments DatabaseConnector.distinct_query : simpl never.
#[local] Arguments DatabaseConnector.below_query : simpl never.
#[local] Arguments DatabaseConnector.above_query : simpl never.
#[local] Arguments DatabaseConnector.enumeration_query : simpl never.
#[local] Arguments truediv : simpl never.
#[local] Arguments truediv_float : simpl never.
#[local] Arguments sum : simpl never.
#[local] Arguments percentage_of : simpl never.
#[local] Arguments overall_of : simpl never.
#[local] Arguments column_accepted : simpl never.

(** Unfold the control operators and the connector's methods down to the
    calls on the store. *)
Ltac ops :=
  cbv beta iota zeta delta
    [bind try_except new_result set_item append_item append_result ret raise
     continue after first unpack2 outcome result emitted asked
     record_of calls_of
     DatabaseValidator.on_error
     DatabaseConnector.get_row_count
     DatabaseConnector.check_nullable_constraints
     DatabaseConnector.check_unique_constraints
     DatabaseConnector.check_range_constraints
     DatabaseConnector.check_enumeration_constraints
     DatabaseConnector.validate_data_types
     DatabaseConnector.get_table_schema DatabaseConnector.execute_query];
  cbn.

Ltac ask_store :=
  match goal with
  | |- context [inspect_columns ?w ?e ?t] => destruct (inspect_columns w e t) eqn:?
  | |- context [select_count ?w ?e ?q] => destruct (select_count w e q) eqn:?
  end.

Ltac split_if :=
  match goal with
  | |- context [if ?b then _ else _] => destruct b eqn:?
  end.

Ltac exec := ops; repeat (first [ask_store | split_if]; ops).

(** A call in the log raised: contradiction with an answer that returned,
    or the message is the one at hand. *)
Ltac blame :=
  let Hin := fresh "Hin" in
  let Hr := fresh "Hr" in
  intros Hin Hr;
  repeat (destruct Hin as [<- | Hin]);
  try contradiction;
  cbn [raises] in Hr;
  try congruence;
  (split; [reflexivity | congruence]).

Section Bodies.
Variable w : World.

Lemma nullable_one meta : one_record (DatabaseValidator.nullable_column w meta).
Proof.
  intros d. unfold DatabaseValidator.nullable_column. exec.
  all: split; [discriminate | reflexivity].
Qed.

Lemma nullable_reports meta :
  reports w "Error validating nullable constraints: "
    (DatabaseValidator.nullable_column w meta).
Proof.
  intros c e. unfold DatabaseValidator.nullable_column. exec; blame.
Qed.

Lemma unique_one meta : one_record (DatabaseValidator.unique_column w meta).
Proof.
  intros d. unfold DatabaseValidator.unique_column. exec.
  all: split; [discriminate | reflexivity].
Qed.

Lemma unique_reports meta :
  reports w "Error validating unique constraints: "
    (DatabaseValidator.unique_column w meta).
Proof.
  intros c e. unfold DatabaseValidator.unique_column. exec; blame.
Qed.

Lemma range_one meta : one_record (DatabaseValidator.range_column w meta).
Proof.
  intros d. unfold DatabaseValidator.range_column. exec.
  all: split; [discriminate | reflexivity].
Qed.

Lemma range_reports meta :
  reports w "Error validating range constraints: "
    (DatabaseValidator.range_column w meta).
Proof.
  intros c e. unfold DatabaseValidator.range_column. exec; blame.
Qed.


Lemma enumeration_one enum_lookup meta :
  one_record (DatabaseValidator.enumeration_column w enum_lookup meta).
Proof.
  intros d. unfold DatabaseValidator.enumeration_column.
  destruct (DatabaseValidator.allowed_values_of enum_lookup
              (FeedMetadata.enumeration meta)) eqn:Ha; exec.
  all: split; [discriminate | reflexivity].
Qed.

Lemma enumeration_reports enum_lookup meta :
  reports w "Error validating enumeration constraints: "
    (DatabaseValidator.enumeration_column w enum_lookup meta).
Proof.
  intros c e. unfold DatabaseValidator.enumeration_column.
  destruct (DatabaseValidator.allowed_values_of enum_lookup
              (FeedMetadata.enumeration meta)) eqn:Ha; exec; blame.
Qed.

Lemma insert_append_one key metas :
  group_ok (key, metas) ->
  one_record (DatabaseValidator.insert_append_table w key metas).
Proof.
  intros [Hne (x & y & Hkey)] d. simpl in Hne, Hkey.
  unfold DatabaseValidator.insert_append_table. rewrite Hkey.
  destruct metas as [|meta0 rest]; [congruence|]. exec.
  all: split; [discriminate | reflexivity].
Qed.

Lemma insert_append_reports key metas :
  group_ok (key, metas) ->
  reports w "Error validating insert/append logic: "
    (DatabaseValidator.insert_append_table w key metas).
Proof.
  intros [Hne (x & y & Hkey)] c e. simpl in Hne, Hkey.
  unfold DatabaseValidator.insert_append_table. rewrite Hkey.
  destruct metas as [|meta0 rest]; [congruence|]. exec; blame.
Qed.

Lemma count_one expected_counts key metas :
  group_ok (key, metas) ->
  one_record (DatabaseValidator.count_table w expected_counts key metas).
Proof.
  intros [Hne (x & y & Hkey)] d. simpl in Hne, Hkey.
  unfold DatabaseValidator.count_table. rewrite Hkey.
  destruct metas as [|meta0 rest]; [congruence|].
  destruct (DatabaseValidator.expected_for expected_counts key) eqn:Hx; exec.
  all: split; [discriminate | reflexivity].
Qed.

Lemma count_reports expected_counts key metas :
  group_ok (key, metas) ->
  reports w "Error validating count checks: "
    (DatabaseValidator.count_table w expected_counts key metas).
Proof.
  intros [Hne (x & y & Hkey)] c e. simpl in Hne, Hkey.
  unfold DatabaseValidator.count_table. rewrite Hkey.
  destruct metas as [|meta0 rest]; [congruence|].
  destruct (DatabaseValidator.expected_for expected_counts key) eqn:Hx; exec; blame.
Qed.

End Bodies.

(** ** The loops inside a check *)

Lemma record_columns_run metas verdicts : forall db tbl fd l s,
  DatabaseValidator.record_columns metas verdicts
    (DatabaseValidator.data_type_result db tbl fd l s)
  = mkRun (Ok tt)
      (DatabaseValidator.data_type_result db tbl fd
         (l ++ map (fun v => DatabaseValidator.column_result_of metas (fst v) (snd v))
                   verdicts)%list
         (if forallb snd verdicts then s else "FAIL"))
      [] [].
Proof.
  unfold DatabaseValidator.record_columns.
  induction verdicts as [|[n ok] rest IH]; intros db tbl fd l s.
  - simpl. now rewrite app_nil_r.
  - cbn [for_each map forallb fst snd].
    match goal with
    | |- context [match ?b ?x ?d with mkRun _ _ _ _ => _ end] =>
        assert (Hstep : b x d
                = mkRun (Ok tt)
                    (DatabaseValidator.data_type_result db tbl fd
                       (l ++ [DatabaseValidator.column_result_of metas n ok])%list
                       (if ok then s else "FAIL")) [] [])
          by (destruct ok; reflexivity);
        rewrite Hstep
    end.
    rewrite IH. cbn [after app]. rewrite <- app_assoc. cbn [app].
    destruct ok; cbn [andb]; [reflexivity|].
    now destruct (forallb snd rest).
Qed.

Section Tables.
Variable w : World.

Lemma data_type_one key metas :
  group_ok (key, metas) ->
  one_record (DatabaseValidator.data_type_table w key metas).
Proof.
  intros [Hne (x & y & Hkey)] d. simpl in Hne, Hkey.
  unfold DatabaseValidator.data_type_table. rewrite Hkey.
  destruct metas as [|meta0 rest]; [congruence|]. exec.
  all: rewrite ?record_columns_run; ops.
  all: split; [discriminate | reflexivity].
Qed.

Lemma data_type_reports key metas :
  group_ok (key, metas) ->
  reports w "Error validating data types: "
    (DatabaseValidator.data_type_table w key metas).
Proof.
  intros [Hne (x & y & Hkey)] c e. simpl in Hne, Hkey.
  unfold DatabaseValidator.data_type_table. rewrite Hkey.
  destruct metas as [|meta0 rest]; [congruence|]. exec.
  all: rewrite ?record_columns_run; ops; blame.
Qed.

Lemma data_type_returns key metas db tbl cols :
  split_dot key = [db; tbl] ->
  metas <> [] ->
  inspect_columns w (DatabaseConnector.get_engine db) tbl = Returns cols ->
  let verdicts :=
    DatabaseConnector.validate_columns cols
      (DatabaseValidator.expected_schema_of metas) [] in
  record_of (DatabaseValidator.data_type_table w key metas)
  = DatabaseValidator.data_type_result db tbl
      (match metas with m :: _ => FeedMetadata.feed m | [] => EmptyString end)
      (map (fun v => DatabaseValidator.column_result_of metas (fst v) (snd v)) verdicts)
      (if forallb snd verdicts then "PASS" else "FAIL").
Proof.
  intros Hkey Hne Hcols verdicts. subst verdicts.
  unfold DatabaseValidator.data_type_table. rewrite Hkey.
  destruct metas as [|meta0 rest]; [congruence|]. ops.
  rewrite Hcols. ops. rewrite record_columns_run. ops. reflexivity.
Qed.


Lemma truediv_ok a b d :
  b <> 0%Z ->
  truediv a b d = mkRun (Ok (PrimFloat.div (float_of_Z a) (float_of_Z b))) d [] [].
Proof.
  intros Hb. unfold truediv. apply Z.eqb_neq in Hb. now rewrite Hb.
Qed.

Lemma truediv_float_ok x n d :
  n <> 0%Z ->
  truediv_float x n d = mkRun (Ok (PrimFloat.div x (float_of_Z n))) d [] [].
Proof.
  intros Hn. unfold truediv_float. apply Z.eqb_neq in Hn. now rewrite Hn.
Qed.

Lemma completeness_of_ok total_rows null_count d :
  total_rows <> 0%N ->
  DatabaseValidator.completeness_of total_rows null_count d
  = mkRun (Ok (percentage_of total_rows null_count)) d [] [].
Proof.
  intros Hn. unfold DatabaseValidator.completeness_of, bind.
  rewrite truediv_ok by lia. reflexivity.
Qed.

Lemma completeness_columns_cons db tbl n meta rest scores :
  DatabaseValidator.completeness_columns w db tbl n (meta :: rest) scores
  = ('(_, null_count) <-
       DatabaseConnector.check_nullable_constraints w db tbl
         (FeedMetadata.field_name meta) ;;
     completeness_percentage <- DatabaseValidator.completeness_of n null_count ;;
     append_item "column_completeness"
       (DatabaseValidator.column_completeness_of meta n null_count
          completeness_percentage) ;;
     DatabaseValidator.completeness_columns w db tbl n rest
       (scores ++ [completeness_percentage])%list).
Proof. reflexivity. Qed.

(** Whatever the store answers, the column loop appends no record; it ends
    normally when every call returned, and with the store's exception when
    a call raised. *)
Lemma completeness_columns_any db tbl fd n :
  n <> 0%N ->
  forall metas scores l,
    let r := DatabaseValidator.completeness_columns w db tbl n metas scores
               (DatabaseValidator.completeness_result db tbl fd (Z.of_N n) l
                  (float_of_Z 0) "PASS" VNone) in
    emitted r = []
    /\ (exists l', result r
                   = DatabaseValidator.completeness_result db tbl fd (Z.of_N n) l'
                       (float_of_Z 0) "PASS" VNone)
    /\ match outcome r with
       | Ok scores' =>
           List.length scores' = (List.length scores + List.length metas)%nat
           /\ forall c e, In c (asked r) -> ~ raises w c e
       | Raise e0 =>
           (exists c, In c (asked r) /\ raises w c e0)
           /\ forall c e, In c (asked r) -> raises w c e -> e = e0
       | Continue => False
       end.
Proof.
  intros Hn. induction metas as [|meta rest IH]; intros scores l.
  - cbn. split; [reflexivity|]. split; [eexists; reflexivity|].
    split; [lia|]. intros c e [].
  - cbv zeta. rewrite completeness_columns_cons. ops.
    ask_store; ops.
    + ask_store; ops.
      * rewrite completeness_of_ok by exact Hn. ops.
        specialize (IH (scores ++ [percentage_of n a0])%list
                       (l ++ [DatabaseValidator.column_completeness_of meta n a0
                                (percentage_of n a0)])%list).
        cbv zeta in IH. unfold DatabaseValidator.completeness_result in *.
        destruct (DatabaseValidator.completeness_columns _ _ _ _ _ _ _)
          as [o d1 em ask].
        cbn in IH |- *. destruct IH as (Hem & Hres & Hout). subst em.
        split; [reflexivity|]. split; [exact Hres|].
        destruct o as [scores'|e0|]; [| |exact Hout].
        -- destruct Hout as [Hlen Hno]. split.
           ++ rewrite Hlen, length_app. simpl. lia.
           ++ intros c e [<-|[<-|Hin]]; cbn [raises]; [congruence|congruence|].
              now apply Hno.
        -- destruct Hout as [(c0 & Hin0 & Hr0) Hall]. split.
           ++ exists c0. split; [now right; right | exact Hr0].
           ++ intros c e [<-|[<-|Hin]]; cbn [raises]; [congruence|congruence|].
              now apply Hall.
      * split; [reflexivity|]. split; [eexists; reflexivity|]. split.
        -- eexists. split; [right; left; reflexivity | exact Heqa0].
        -- intros c e' [<-|[<-|[]]]; cbn [raises]; congruence.
    + split; [reflexivity|]. split; [eexists; reflexivity|]. split.
      * eexists. split; [left; reflexivity | exact Heqa].
      * intros c e' [<-|[]]; cbn [raises]; congruence.
Qed.


End Tables.

(** Run the column loop of the completeness check in the goal. *)
Ltac run_columns w x y fd rows :=
  match goal with
  | H : N.eqb ?n 0 = false |- _ =>
      let Hn := fresh "Hn" in
      let Hany := fresh "Hany" in
      assert (Hn : n <> 0%N) by (now apply N.eqb_neq);
      pose proof (completeness_columns_any w x y fd n Hn rows [] []) as Hany;
      cbv zeta in Hany; unfold DatabaseValidator.completeness_result in Hany;
      destruct (DatabaseValidator.completeness_columns _ _ _ _ _ _ _)
        as [o d1 em ask];
      cbn in Hany;
      destruct Hany as (-> & (l' & ->) & Hany);
      destruct o as [scores'|e0|]; [| |contradiction]; ops;
      [ rewrite truediv_float_ok
          by (destruct Hany as [Hlen _]; rewrite Hlen; cbn [List.length]; lia);
        ops; try split_if; ops
      | ]
  end.

Section Completeness.
Variable w : World.

Lemma completeness_one key metas :
  group_ok (key, metas) ->
  one_record (DatabaseValidator.completeness_table w key metas).
Proof.
  intros [Hne (x & y & Hkey)] d. simpl in Hne, Hkey.
  unfold DatabaseValidator.completeness_table. rewrite Hkey.
  destruct metas as [|meta0 rest]; [congruence|]. exec.
  all: try run_columns w x y (FeedMetadata.feed meta0) (meta0 :: rest).
  all: split; [discriminate | reflexivity].
Qed.

Lemma completeness_reports key metas :
  group_ok (key, metas) ->
  reports w "Error validating completeness checks: "
    (DatabaseValidator.completeness_table w key metas).
Proof.
  intros [Hne (x & y & Hkey)] c e. simpl in Hne, Hkey.
  unfold DatabaseValidator.completeness_table. rewrite Hkey.
  destruct metas as [|meta0 rest]; [congruence|]. exec.
  all: try run_columns w x y (FeedMetadata.feed meta0) (meta0 :: rest).
  all: try blame.
  all: intros [<-|Hin] Hr; cbn [raises] in Hr; [congruence|].
  all: rewrite ?app_nil_r in Hin.
  all: first [ destruct Hany as [_ Hno]; now elim (Hno c e Hin Hr)
             | destruct Hany as [_ Hall]; rewrite (Hall c e Hin Hr);
               split; reflexivity ].
Qed.

End Completeness.

Section Answers.
Variable w : World.

(** The column loop when every call returns. *)
Lemma completeness_columns_returns db tbl fd n cols (nulls : string -> N) :
  n <> 0%N ->
  inspect_columns w (DatabaseConnector.get_engine db) tbl = Returns cols ->
  forall metas,
    (forall meta, In meta metas ->
       select_count w (DatabaseConnector.get_engine db)
         (DatabaseConnector.null_count_query tbl (FeedMetadata.field_name meta))
       = Returns (nulls (FeedMetadata.field_name meta))) ->
    forall scores l,
      let r := DatabaseValidator.completeness_columns w db tbl n metas scores
                 (DatabaseValidator.completeness_result db tbl fd (Z.of_N n) l
                    (float_of_Z 0) "PASS" VNone) in
      outcome r
      = Ok (scores ++ map (fun meta =>
                             percentage_of n (nulls (FeedMetadata.field_name meta)))
                          metas)%list
      /\ result r
         = DatabaseValidator.completeness_result db tbl fd (Z.of_N n)
             (l ++ map (fun meta =>
                          DatabaseValidator.column_completeness_of meta n
                            (nulls (FeedMetadata.field_name meta))
                            (percentage_of n (nulls (FeedMetadata.field_name meta))))
                       metas)%list
             (float_of_Z 0) "PASS" VNone
      /\ emitted r = [].
Proof.
  intros Hn Hcols. induction metas as [|meta rest IH]; intros Hq scores l.
  - cbn. now rewrite !app_nil_r.
  - cbv zeta. rewrite completeness_columns_cons. ops.
    rewrite Hcols. ops. rewrite (Hq meta (or_introl eq_refl)). ops.
    rewrite completeness_of_ok by exact Hn. ops.
    assert (Hq' : forall meta', In meta' rest ->
              select_count w (DatabaseConnector.get_engine db)
                (DatabaseConnector.null_count_query tbl (FeedMetadata.field_name meta'))
              = Returns (nulls (FeedMetadata.field_name meta')))
      by (intros; apply Hq; now right).
    specialize (IH Hq'
      (scores ++ [percentage_of n (nulls (FeedMetadata.field_name meta))])%list
      (l ++ [DatabaseValidator.column_completeness_of meta n
               (nulls (FeedMetadata.field_name meta))
               (percentage_of n (nulls (FeedMetadata.field_name meta)))])%list).
    cbv zeta in IH. unfold DatabaseValidator.completeness_result in *.
    destruct (DatabaseValidator.completeness_columns _ _ _ _ _ _ _)
      as [o d1 em ask].
    cbn in IH |- *. destruct IH as (-> & -> & ->).
    rewrite <- !app_assoc. repeat split.
Qed.

(** The record of a table with rows, when every call returns. *)
Lemma completeness_returns key metas db tbl n cols (nulls : string -> N) :
  split_dot key = [db; tbl] ->
  metas <> [] ->
  select_count w (DatabaseConnector.get_engine db)
    (DatabaseConnector.row_count_query tbl None) = Returns n ->
  n <> 0%N ->
  inspect_columns w (DatabaseConnector.get_engine db) tbl = Returns cols ->
  (forall meta, In meta metas ->
     select_count w (DatabaseConnector.get_engine db)
       (DatabaseConnector.null_count_query tbl (FeedMetadata.field_name meta))
     = Returns (nulls (FeedMetadata.field_name meta))) ->
  let overall_score :=
    overall_of n (map (fun meta => nulls (FeedMetadata.field_name meta)) metas) in
  record_of (DatabaseValidator.completeness_table w key metas)
  = DatabaseValidator.completeness_result db tbl
      (match metas with m :: _ => FeedMetadata.feed m | [] => EmptyString end)
      (Z.of_N n)
      (map (fun meta =>
              DatabaseValidator.column_completeness_of meta n
                (nulls (FeedMetadata.field_name meta))
                (percentage_of n (nulls (FeedMetadata.field_name meta))))
           metas)
      (round2 overall_score)
      (if PrimFloat.ltb overall_score f95 then "FAIL" else "PASS")
      (if PrimFloat.ltb overall_score f95
       then VFmt [VStr "Low completeness score: "; VFloat overall_score; VStr "%"]
       else VNone).
Proof.
  intros Hkey Hne Hrows Hn Hcols Hq overall_score.
  unfold DatabaseValidator.completeness_table. rewrite Hkey.
  destruct metas as [|meta0 rest]; [congruence|]. ops.
  rewrite Hrows. ops.
  apply N.eqb_neq in Hn. rewrite Hn. apply N.eqb_neq in Hn. ops.
  pose proof (completeness_columns_returns db tbl (FeedMetadata.feed meta0)
                n cols nulls Hn Hcols (meta0 :: rest) Hq [] []) as Hrun.
  cbv zeta in Hrun. unfold DatabaseValidator.completeness_result in Hrun.
  destruct (DatabaseValidator.completeness_columns _ _ _ _ _ _ _)
    as [o d1 em ask].
  cbn [outcome result emitted app] in Hrun. destruct Hrun as (-> & -> & ->). ops.
  rewrite truediv_float_ok by (cbn [List.length map]; lia).
  match goal with
  | |- context [PrimFloat.div (sum ?a) ?b] =>
      replace (PrimFloat.div (sum a) b) with overall_score
        by (subst overall_score; unfold overall_of;
            rewrite ?map_map, ?length_map; cbn [map List.length];
            rewrite ?length_map; reflexivity)
  end.
  clearbody overall_score. ops.
  destruct (PrimFloat.ltb overall_score f95); reflexivity.
Qed.

(** A table without rows. *)
Lemma completeness_empty key metas db tbl :
  split_dot key = [db; tbl] ->
  metas <> [] ->
  select_count w (DatabaseConnector.get_engine db)
    (DatabaseConnector.row_count_query tbl None) = Returns 0%N ->
  record_of (DatabaseValidator.completeness_table w key metas)
  = DatabaseValidator.completeness_result db tbl
      (match metas with m :: _ => FeedMetadata.feed m | [] => EmptyString end)
      0 [] (float_of_Z 0) "FAIL"
      (VStr "Table is empty - cannot check completeness")
  /\ calls_of (DatabaseValidator.completeness_table w key metas)
     = [Query (DatabaseConnector.get_engine db)
              (DatabaseConnector.row_count_query tbl None)].
Proof.
  intros Hkey Hne Hrows.
  unfold DatabaseValidator.completeness_table. rewrite Hkey.
  destruct metas as [|meta0 rest]; [congruence|]. ops.
  rewrite Hrows. ops. split; reflexivity.
Qed.

(** The completeness check ends in ERROR only when the store raised. *)
Lemma completeness_error_from_store key metas :
  group_ok (key, metas) ->
  status_of (record_of (DatabaseValidator.completeness_table w key metas)) = ERROR ->
  exists c e,
    In c (calls_of (DatabaseValidator.completeness_table w key metas))
    /\ raises w c e.
Proof.
  intros [Hne (x & y & Hkey)]. simpl in Hne, Hkey.
  unfold DatabaseValidator.completeness_table. rewrite Hkey.
  destruct metas as [|meta0 rest]; [congruence|]. exec.
  all: try run_columns w x y (FeedMetadata.feed meta0) (meta0 :: rest).
  all: try discriminate.
  - intros _. destruct Hany as [(c & Hin & Hr) _].
    exists c, e0. rewrite !app_nil_r. split; [now right | exact Hr].
  - intros _. eexists _, e. split; [left; reflexivity | exact Heqa].
Qed.

End Answers.

(** ** Lemmas on the connector's column loop and the enumeration catalog *)

Lemma dict_set_fresh {V : Type} (k : string) (v : V) (d : list (string * V)) :
  ~ In k (map fst d) -> dict_set k v d = (d ++ [(k, v)])%list.
Proof.
  induction d as [|[k' v'] d IH]; simpl; intros Hk; [reflexivity|].
  destruct (String.eqb k' k) eqn:E.
  - apply String.eqb_eq in E. tauto.
  - rewrite IH; tauto.
Qed.

Lemma validate_columns_cons c rest expected acc :
  DatabaseConnector.validate_columns (c :: rest) expected acc
  = DatabaseConnector.validate_columns rest expected
      (match dict_get (col_name c) expected with
       | Some declared =>
           dict_set (col_name c)
             (_compare_data_types (upper (col_type c)) (upper declared)) acc
       | None => dict_set (col_name c) false acc
       end).
Proof. reflexivity. Qed.

Lemma validate_columns_distinct metas cols : forall acc,
  NoDup (map fst acc ++ map col_name cols) ->
  DatabaseConnector.validate_columns cols
    (DatabaseValidator.expected_schema_of metas) acc
  = (acc ++ map (fun c => (col_name c, column_accepted metas c)) cols)%list.
Proof.
  induction cols as [|c rest IH]; intros acc Hnd.
  - cbn. now rewrite app_nil_r.
  - rewrite validate_columns_cons. cbn [map].
    assert (Hfresh : ~ In (col_name c) (map fst acc)).
    { intros Hin. apply NoDup_remove_2 in Hnd. apply Hnd.
      apply in_or_app. now left. }
    assert (Hnd' : NoDup (map fst (acc ++ [(col_name c, column_accepted metas c)])
                          ++ map col_name rest)).
    { rewrite map_app, <- app_assoc. exact Hnd. }
    unfold column_accepted at 1 in Hnd'. unfold column_accepted at 1.
    destruct (dict_get (col_name c) (DatabaseValidator.expected_schema_of metas));
      rewrite dict_set_fresh by exact Hfresh;
      rewrite IH by exact Hnd'; now rewrite <- app_assoc.
Qed.

Lemma enum_add_get name k v enum_lookup :
  dict_get name (DatabaseValidator.enum_add k v enum_lookup)
  = if String.eqb k name
    then Some ((match dict_get name enum_lookup with
                | Some vs => vs
                | None => []
                end) ++ [v])%list
    else dict_get name enum_lookup.
Proof.
  induction enum_lookup as [|[k' vs] rest IH]; simpl.
  - destruct (String.eqb k name); reflexivity.
  - destruct (String.eqb k' k) eqn:E; simpl.
    + apply String.eqb_eq in E. subst k'.
      destruct (String.eqb k name); reflexivity.
    + destruct (String.eqb k' name) eqn:E'.
      * apply String.eqb_eq in E'. subst k'.
        rewrite String.eqb_sym in E. now rewrite E.
      * exact IH.
Qed.

(** The allowed values of a name are the values of the catalog rows of that
    name, in order. *)
Lemma allowed_values_catalog catalog name :
  DatabaseValidator.allowed_values_of
    (DatabaseValidator.enum_lookup_of catalog) (Some name)
  = map EnumerationMetadata.enum_values
        (filter (fun em => String.eqb (EnumerationMetadata.enumeration_name em) name)
                catalog).
Proof.
  unfold DatabaseValidator.allowed_values_of, DatabaseValidator.enum_lookup_of.
  change (map EnumerationMetadata.enum_values
            (filter (fun em => String.eqb (EnumerationMetadata.enumeration_name em) name)
                    catalog))
    with ((match dict_get name (@nil (string * list string)) with
           | Some vs => vs | None => [] end)
          ++ map EnumerationMetadata.enum_values
               (filter (fun em => String.eqb (EnumerationMetadata.enumeration_name em) name)
                       catalog))%list.
  generalize (@nil (string * list string)) as acc.
  induction catalog as [|em rest IH]; intros acc; cbn [fold_left filter map].
  - rewrite app_nil_r. reflexivity.
  - rewrite IH, enum_add_get.
    destruct (String.eqb (EnumerationMetadata.enumeration_name em) name);
      cbn [map]; [now rewrite <- app_assoc | reflexivity].
Qed.

Lemma allowed_values_unresolved catalog name :
  (forall em, In em catalog -> EnumerationMetadata.enumeration_name em <> name) ->
  DatabaseValidator.allowed_values_of
    (DatabaseValidator.enum_lookup_of catalog) (Some name) = [].
Proof.
  intros H. rewrite allowed_values_catalog.
  induction catalog as [|em rest IH]; simpl; [reflexivity|].
  destruct (String.eqb (EnumerationMetadata.enumeration_name em) name) eqn:E.
  - apply String.eqb_eq in E. now elim (H em (or_introl eq_refl)).
  - apply IH. intros; apply H; now right.
Qed.

(** ** What each validator returns *)

Section Results.
Variable w : World.

Lemma group_in_ok metadata g :
  In g (DatabaseValidator.group_by_table metadata) -> group_ok g.
Proof.
  intros Hin. pose proof (group_by_table_ok metadata) as H.
  rewrite Forall_forall in H. now apply H.
Qed.

Lemma validate_data_types_records metadata selected_feeds :
  DatabaseValidator.validate_data_types w metadata selected_feeds
  = map (fun g => record_of (DatabaseValidator.data_type_table w (fst g) (snd g)))
        (DatabaseValidator.group_by_table
           (DatabaseValidator.select_feeds metadata selected_feeds)).
Proof.
  unfold DatabaseValidator.validate_data_types. cbv zeta.
  rewrite returned_records.
  - apply map_ext. now intros [k ms].
  - intros [k ms] Hin. apply data_type_one. eapply group_in_ok, Hin.
Qed.

Lemma validate_nullable_constraints_records metadata selected_feeds :
  DatabaseValidator.validate_nullable_constraints w metadata selected_feeds
  = map (fun meta => record_of (DatabaseValidator.nullable_column w meta))
        (DatabaseValidator.select_feeds metadata selected_feeds).
Proof.
  unfold DatabaseValidator.validate_nullable_constraints. cbv zeta.
  apply returned_records. intros meta _. apply nullable_one.
Qed.

Lemma validate_unique_constraints_records metadata selected_feeds :
  DatabaseValidator.validate_unique_constraints w metadata selected_feeds
  = map (fun meta => record_of (DatabaseValidator.unique_column w meta))
        (filter (fun meta => DatabaseValidator.is_Y (FeedMetadata.unique meta))
                (DatabaseValidator.select_feeds metadata selected_feeds)).
Proof.
  unfold DatabaseValidator.validate_unique_constraints. cbv zeta.
  apply returned_records. intros meta _. apply unique_one.
Qed.

Lemma validate_range_constraints_records metadata selected_feeds :
  DatabaseValidator.validate_range_constraints w metadata selected_feeds
  = map (fun meta => record_of (DatabaseValidator.range_column w meta))
        (filter (fun meta => truthy (FeedMetadata.range_bottom meta)
                             || truthy (FeedMetadata.range_top meta))
                (DatabaseValidator.select_feeds metadata selected_feeds)).
Proof.
  unfold DatabaseValidator.validate_range_constraints. cbv zeta.
  apply returned_records. intros meta _. apply range_one.
Qed.

Lemma validate_enumeration_constraints_records metadata enumeration_metadata
    selected_feeds :
  DatabaseValidator.validate_enumeration_constraints w metadata
    enumeration_metadata selected_feeds
  = map (fun meta =>
           record_of (DatabaseValidator.enumeration_column w
                        (DatabaseValidator.enum_lookup_of enumeration_metadata) meta))
        (filter (fun meta => truthy (FeedMetadata.enumeration meta))
                (DatabaseValidator.select_feeds metadata selected_feeds)).
Proof.
  unfold DatabaseValidator.validate_enumeration_constraints. cbv zeta.
  apply returned_records. intros meta _. apply enumeration_one.
Qed.

Lemma validate_insert_append_logic_records metadata selected_feeds :
  DatabaseValidator.validate_insert_append_logic w metadata selected_feeds
  = map (fun g => record_of (DatabaseValidator.insert_append_table w (fst g) (snd g)))
        (DatabaseValidator.group_by_table
           (DatabaseValidator.select_feeds metadata selected_feeds)).
Proof.
  unfold DatabaseValidator.validate_insert_append_logic. cbv zeta.
  rewrite returned_records.
  - apply map_ext. now intros [k ms].
  - intros [k ms] Hin. apply insert_append_one. eapply group_in_ok, Hin.
Qed.

Lemma validate_count_checks_records metadata expected_counts selected_feeds :
  DatabaseValidator.validate_count_checks w metadata expected_counts selected_feeds
  = map (fun g => record_of (DatabaseValidator.count_table w expected_counts
                               (fst g) (snd g)))
        (DatabaseValidator.group_by_table
           (DatabaseValidator.select_feeds metadata selected_feeds)).
Proof.
  unfold DatabaseValidator.validate_count_checks. cbv zeta.
  rewrite returned_records.
  - apply map_ext. now intros [k ms].
  - intros [k ms] Hin. apply count_one. eapply group_in_ok, Hin.
Qed.

Lemma validate_completeness_checks_records metadata selected_feeds :
  DatabaseValidator.validate_completeness_checks w metadata selected_feeds
  = map (fun g => record_of (DatabaseValidator.completeness_table w (fst g) (snd g)))
        (DatabaseValidator.group_by_table
           (DatabaseValidator.select_feeds metadata selected_feeds)).
Proof.
  unfold DatabaseValidator.validate_completeness_checks. cbv zeta.
  rewrite returned_records.
  - apply map_ext. now intros [k ms].
  - intros [k ms] Hin. apply completeness_one. eapply group_in_ok, Hin.
Qed.

End Results.

(** ** Claims on the validators *)

(** C1, as the code has it. For a group of the data-type validator whose
    table the store can describe, the result is FAIL exactly when some column
    of the ACTUAL schema is not accepted (it is not declared in the group, or
    its type is not compatible with the declared one), and PASS exactly when
    every actual column is accepted; [column_validations] lists every actual
    column with its verdict. *)
Theorem C1_data_type_status_by_actual_columns (w : World)
    (metadata : list FeedMetadata) (selected_feeds : option (list string))
    (table_key : string) (table_metadata : list FeedMetadata)
    (db_name table_name : string) (columns : list ColumnInfo) :
  In (table_key, table_metadata)
     (DatabaseValidator.group_by_table
        (DatabaseValidator.select_feeds metadata selected_feeds)) ->
  split_dot table_key = [db_name; table_name] ->
  inspect_columns w (DatabaseConnector.get_engine db_name) table_name
    = Returns columns ->
  NoDup (map col_name columns) ->
  let r := record_of (DatabaseValidator.data_type_table w table_key table_metadata) in
  In r (DatabaseValidator.validate_data_types w metadata selected_feeds)
  /\ (status_of r = FAIL <->
      exists c, In c columns /\ column_accepted table_metadata c = false)
  /\ (status_of r = PASS <->
      forall c, In c columns -> column_accepted table_metadata c = true)
  /\ dict_get "column_validations" r
     = Some (VList (map (fun c =>
                           DatabaseValidator.column_result_of table_metadata
                             (col_name c) (column_accepted table_metadata c))
                        columns)).
Proof.
  intros Hin Hkey Hcols Hnd r.
  assert (Hne : table_metadata <> [])
    by (now destruct (group_in_ok _ _ Hin) as [Hne _]).
  split.
  { rewrite validate_data_types_records. subst r.
    change (DatabaseValidator.data_type_table w table_key table_metadata)
      with (DatabaseValidator.data_type_table w (fst (table_key, table_metadata))
              (snd (table_key, table_metadata))).
    apply (in_map (fun g => record_of (DatabaseValidator.data_type_table w (fst g) (snd g)))).
    exact Hin. }
  subst r. rewrite (data_type_returns w _ _ _ _ _ Hkey Hne Hcols).
  rewrite (validate_columns_distinct table_metadata columns []) by exact Hnd.
  cbn [app]. rewrite map_map. cbn [fst snd].
  unfold status_of, FAIL, PASS, DatabaseValidator.data_type_result.
  cbn [dict_get String.eqb Ascii.eqb Bool.eqb].
  assert (Hall : forallb snd
                   (map (fun c => (col_name c, column_accepted table_metadata c)) columns)
                 = true
                 <-> forall c, In c columns -> column_accepted table_metadata c = true).
  { rewrite forallb_forall. split.
    - intros H c Hc.
      apply (H (col_name c, column_accepted table_metadata c)).
      apply in_map_iff. now exists c.
    - intros H [n b] Hx. apply in_map_iff in Hx.
      destruct Hx as (c & Heq & Hc). inversion Heq; subst. now apply H. }
  destruct (forallb snd _) eqn:E.
  - split; [|split; [|reflexivity]].
    + split; [discriminate|]. intros (c & Hc & Hf).
      rewrite (proj1 Hall eq_refl c Hc) in Hf. discriminate.
    + split; [intros _; now apply Hall | reflexivity].
  - split; [|split; [|reflexivity]].
    + split; [intros _ | reflexivity].
      destruct (existsb (fun c => negb (column_accepted table_metadata c)) columns) eqn:Ex.
      * apply existsb_exists in Ex. destruct Ex as (c & Hc & Hn).
        exists c. split; [exact Hc|]. now destruct (column_accepted table_metadata c).
      * exfalso. assert (false = true); [|discriminate].
        apply Hall. intros c Hc.
        destruct (column_accepted table_metadata c) eqn:Ec; [reflexivity|].
        assert (existsb (fun c => negb (column_accepted table_metadata c)) columns = true).
        { apply existsb_exists. exists c. now rewrite Ec. }
        congruence.
    + split; [discriminate|]. intros H. apply Hall in H. discriminate.
Qed.

(** C1, witness: the CUSTOMER table with its ID column. *)
Lemma C1_witness :
  let r := record_of (DatabaseValidator.data_type_table one_null_in_100
                        "sales.CUSTOMER" [customer_id]) in
  In r (DatabaseValidator.validate_data_types one_null_in_100 [customer_id] None)
  /\ (status_of r = FAIL <->
      exists c, In c [id_column false] /\ column_accepted [customer_id] c = false)
  /\ (status_of r = PASS <->
      forall c, In c [id_column false] -> column_accepted [customer_id] c = true)
  /\ dict_get "column_validations" r
     = Some (VList (map (fun c =>
                           DatabaseValidator.column_result_of [customer_id]
                             (col_name c) (column_accepted [customer_id] c))
                        [id_column false])).
Proof.
  apply (C1_data_type_status_by_actual_columns one_null_in_100 [customer_id] None
           "sales.CUSTOMER" [customer_id] "sales" "CUSTOMER" [id_column false]).
  - left. reflexivity.
  - reflexivity.
  - reflexivity.
  - repeat constructor. intros [].
Defined.

(** C1, counterexample to the claim as stated: NAME is declared for the
    table and missing from its actual schema, and the result is PASS. *)
Lemma C1_counterexample :
  exists r,
    DatabaseValidator.validate_data_types one_null_in_100
      [customer_id; customer_name] None = [r]
    /\ status_of r = PASS
    /\ In customer_name [customer_id; customer_name]
    /\ forall c, In c [id_column false] ->
         col_name c <> FeedMetadata.field_name customer_name.
Proof.
  eexists. split; [vm_compute; reflexivity|].
  split; [reflexivity|]. split; [right; left; reflexivity|].
  intros c [<-|[]]. discriminate.
Qed.

Lemma group_record_in {U : Type} (f : U -> Dict) (u : U) (units : list U) :
  In u units -> In (f u) (map f units).
Proof. apply in_map. Qed.

(** C2, as the code has it. For a group whose table has at least one row
    and whose calls all return, the completeness result is PASS exactly when
    the overall score (the mean of the per-column percentages, not rounded)
    is not below 95, and FAIL exactly when it is below 95. The completeness
    of a mandatory column is reported and has no effect on the status. *)
Theorem C2_completeness_status_by_overall_score (w : World)
    (metadata : list FeedMetadata) (selected_feeds : option (list string))
    (table_key : string) (table_metadata : list FeedMetadata)
    (db_name table_name : string) (total_rows : N)
    (columns : list ColumnInfo) (nulls : string -> N) :
  In (table_key, table_metadata)
     (DatabaseValidator.group_by_table
        (DatabaseValidator.select_feeds metadata selected_feeds)) ->
  split_dot table_key = [db_name; table_name] ->
  select_count w (DatabaseConnector.get_engine db_name)
    (DatabaseConnector.row_count_query table_name None) = Returns total_rows ->
  (0 < total_rows)%N ->
  inspect_columns w (DatabaseConnector.get_engine db_name) table_name
    = Returns columns ->
  (forall meta, In meta table_metadata ->
     select_count w (DatabaseConnector.get_engine db_name)
       (DatabaseConnector.null_count_query table_name (FeedMetadata.field_name meta))
     = Returns (nulls (FeedMetadata.field_name meta))) ->
  let overall_score :=
    overall_of total_rows
      (map (fun meta => nulls (FeedMetadata.field_name meta)) table_metadata) in
  let r := record_of (DatabaseValidator.completeness_table w table_key table_metadata) in
  In r (DatabaseValidator.validate_completeness_checks w metadata selected_feeds)
  /\ (status_of r = PASS <-> PrimFloat.ltb overall_score f95 = false)
  /\ (status_of r = FAIL <-> PrimFloat.ltb overall_score f95 = true).
Proof.
  intros Hin Hkey Hrows Hpos Hcols Hq overall_score r.
  assert (Hne : table_metadata <> [])
    by (now destruct (group_in_ok _ _ Hin) as [Hne _]).
  split.
  { rewrite validate_completeness_checks_records.
    apply (group_record_in
             (fun g => record_of (DatabaseValidator.completeness_table w (fst g) (snd g)))
             (table_key, table_metadata)), Hin. }
  subst r.
  rewrite (completeness_returns w _ _ _ _ _ _ nulls Hkey Hne Hrows
             ltac:(lia) Hcols Hq).
  fold overall_score. unfold status_of, PASS, FAIL.
  destruct (PrimFloat.ltb overall_score f95); cbn;
    split; split; intros H; congruence.
Qed.

(** C2, witness: 100 rows, one without an ID. *)
Lemma C2_witness :
  let overall_score := overall_of 100 [1%N] in
  let r := record_of (DatabaseValidator.completeness_table one_null_in_100
                        "sales.CUSTOMER" [customer_id]) in
  In r (DatabaseValidator.validate_completeness_checks one_null_in_100
          [customer_id] None)
  /\ (status_of r = PASS <-> PrimFloat.ltb overall_score f95 = false)
  /\ (status_of r = FAIL <-> PrimFloat.ltb overall_score f95 = true).
Proof.
  apply (C2_completeness_status_by_overall_score one_null_in_100 [customer_id] None
           "sales.CUSTOMER" [customer_id] "sales" "CUSTOMER" 100
           [id_column false] (fun _ => 1%N)).
  - left. reflexivity.
  - reflexivity.
  - reflexivity.
  - reflexivity.
  - reflexivity.
  - intros meta [<-|[]]. reflexivity.
Defined.

(** C2, counterexample to the claim as stated: ID is mandatory and 99%
    complete, and the result is PASS. *)
Lemma C2_counterexample :
  exists r column,
    DatabaseValidator.validate_completeness_checks one_null_in_100
      [customer_id] None = [r]
    /\ status_of r = PASS
    /\ dict_get "column_completeness" r = Some (VList [VDict column])
    /\ dict_get "is_mandatory" column = Some (VBool true)
    /\ dict_get "completeness_percentage" column = Some (VFloat 99).
Proof.
  eexists. eexists. split; [vm_compute; reflexivity|].
  repeat split; reflexivity.
Qed.

(** C3, as the code has it. The values placed in the result are rounded to
    two decimals ([completeness_percentage] of every column and
    [overall_completeness_score]); the comparison with 95 is made on the
    overall score before rounding, which is also the number in the message. *)
Theorem C3_rounding_in_record_only (w : World)
    (table_key : string) (table_metadata : list FeedMetadata)
    (db_name table_name : string) (total_rows : N)
    (columns : list ColumnInfo) (nulls : string -> N) :
  split_dot table_key = [db_name; table_name] ->
  table_metadata <> [] ->
  select_count w (DatabaseConnector.get_engine db_name)
    (DatabaseConnector.row_count_query table_name None) = Returns total_rows ->
  (0 < total_rows)%N ->
  inspect_columns w (DatabaseConnector.get_engine db_name) table_name
    = Returns columns ->
  (forall meta, In meta table_metadata ->
     select_count w (DatabaseConnector.get_engine db_name)
       (DatabaseConnector.null_count_query table_name (FeedMetadata.field_name meta))
     = Returns (nulls (FeedMetadata.field_name meta))) ->
  let overall_score :=
    overall_of total_rows
      (map (fun meta => nulls (FeedMetadata.field_name meta)) table_metadata) in
  let r := record_of (DatabaseValidator.completeness_table w table_key table_metadata) in
  dict_get "overall_completeness_score" r = Some (VFloat (round2 overall_score))
  /\ dict_get "column_completeness" r
     = Some (VList
               (map (fun meta =>
                       let null_count := nulls (FeedMetadata.field_name meta) in
                       VDict [ ("column_name", VStr (FeedMetadata.field_name meta));
                               ("total_rows", VInt (Z.of_N total_rows));
                               ("null_count", VInt (Z.of_N null_count));
                               ("completeness_percentage",
                                VFloat (round2 (percentage_of total_rows null_count)));
                               ("is_mandatory",
                                VBool (DatabaseValidator.is_Y
                                         (FeedMetadata.mandatory meta))) ])
                    table_metadata))
  /\ (status_of r = FAIL <-> PrimFloat.ltb overall_score f95 = true)
  /\ (PrimFloat.ltb overall_score f95 = true ->
      message_of r
      = Some (VFmt [VStr "Low completeness score: "; VFloat overall_score; VStr "%"])).
Proof.
  intros Hkey Hne Hrows Hpos Hcols Hq overall_score r. subst r.
  rewrite (completeness_returns w _ _ _ _ _ _ nulls Hkey Hne Hrows
             ltac:(lia) Hcols Hq).
  fold overall_score. unfold status_of, message_of, FAIL.
  destruct (PrimFloat.ltb overall_score f95); cbn;
    repeat split; intros; congruence.
Qed.

(** C3, witness: 100000 rows, 5004 of them without an ID. *)
Lemma C3_witness :
  let r := record_of (DatabaseValidator.completeness_table just_below_95
                        "sales.CUSTOMER" [customer_id]) in
  dict_get "overall_completeness_score" r
    = Some (VFloat (round2 (overall_of 100000 [5004%N])))
  /\ status_of r = FAIL.
Proof.
  destruct (C3_rounding_in_record_only just_below_95
              "sales.CUSTOMER" [customer_id] "sales" "CUSTOMER" 100000
              [id_column false] (fun _ => 5004%N))
    as (Hscore & _ & Hstatus & _).
  - reflexivity.
  - discriminate.
  - reflexivity.
  - reflexivity.
  - reflexivity.
  - intros meta [<-|[]]. reflexivity.
  - split; [exact Hscore | apply Hstatus; reflexivity].
Defined.

(** C3, counterexample to the claim as stated: the score placed in the
    result, rounded, is 95.0, which is not below 95; the check compared the
    score before rounding (94.996...) and the result is FAIL. *)
Lemma C3_counterexample :
  exists r,
    DatabaseValidator.validate_completeness_checks just_below_95
      [customer_id] None = [r]
    /\ dict_get "overall_completeness_score" r = Some (VFloat 95)
    /\ PrimFloat.ltb 95 f95 = false
    /\ status_of r = FAIL.
Proof.
  eexists. split; [vm_compute; reflexivity|].
  repeat split; reflexivity.
Qed.

(** C4, as the code has it. For a record whose calls return, the nullable
    validator's result is FAIL exactly when the column is mandatory and has
    nulls, or the nullable flag of the actual schema differs from the
    declared one (a column the schema lacks differs); otherwise it is PASS.
    So for a mandatory column whose nullable flag matches, FAIL holds exactly
    when [null_count > 0]. *)
Theorem C4_nullable_status (w : World)
    (metadata : list FeedMetadata) (selected_feeds : option (list string))
    (meta : FeedMetadata) (columns : list ColumnInfo) (null_count : N) :
  In meta (DatabaseValidator.select_feeds metadata selected_feeds) ->
  inspect_columns w (DatabaseConnector.get_engine (FeedMetadata.db_name meta))
    (FeedMetadata.db_table meta) = Returns columns ->
  select_count w (DatabaseConnector.get_engine (FeedMetadata.db_name meta))
    (DatabaseConnector.null_count_query (FeedMetadata.db_table meta)
       (FeedMetadata.field_name meta)) = Returns null_count ->
  let r := record_of (DatabaseValidator.nullable_column w meta) in
  let mismatch :=
    DatabaseValidator.differs
      (DatabaseConnector.column_nullable columns (FeedMetadata.field_name meta))
      (DatabaseValidator.is_Y (FeedMetadata.nullable meta)) in
  In r (DatabaseValidator.validate_nullable_constraints w metadata selected_feeds)
  /\ dict_get "null_count" r = Some (VInt (Z.of_N null_count))
  /\ (status_of r = FAIL <->
      (DatabaseValidator.is_Y (FeedMetadata.mandatory meta) = true
       /\ (0 < null_count)%N)
      \/ mismatch = true)
  /\ (status_of r = PASS <->
      ~ ((DatabaseValidator.is_Y (FeedMetadata.mandatory meta) = true
          /\ (0 < null_count)%N)
         \/ mismatch = true))
  /\ (DatabaseValidator.is_Y (FeedMetadata.mandatory meta) = true ->
      mismatch = false ->
      (status_of r = FAIL <-> (0 < null_count)%N)).
Proof.
  intros Hin Hcols Hq r mismatch.
  split.
  { rewrite validate_nullable_constraints_records.
    apply (group_record_in
             (fun meta => record_of (DatabaseValidator.nullable_column w meta))), Hin. }
  subst r mismatch. unfold DatabaseValidator.nullable_column. ops.
  rewrite Hcols. ops. rewrite Hq. ops.
  unfold status_of, FAIL, PASS.
  destruct (DatabaseValidator.is_Y (FeedMetadata.mandatory meta));
    destruct (N.ltb_spec 0 null_count) as [Hlt|Hge];
    destruct (DatabaseValidator.differs _ _); cbn;
    (split; [reflexivity|]);
    repeat split; try congruence; try tauto; try lia;
    try (intros [[? ?]|?]; (congruence || lia));
    try (intros ? [[? ?]|?]; (congruence || lia)).
Qed.

(** C4, witness: the ID column, mandatory and declared not nullable, on a
    table without null IDs. *)
Lemma C4_witness :
  let r := record_of (DatabaseValidator.nullable_column empty_table customer_id) in
  status_of r = PASS /\ dict_get "null_count" r = Some (VInt 0).
Proof.
  destruct (C4_nullable_status empty_table [customer_id] None customer_id
              [id_column false] 0)
    as (_ & Hcount & _ & Hpass & _).
  - left. reflexivity.
  - reflexivity.
  - reflexivity.
  - split; [|exact Hcount]. apply Hpass.
    intros [[_ H]|H]; [inversion H | discriminate H].
Defined.

(** C4, counterexample to the claim as stated: ID is mandatory and has no
    null ([null_count] is 0), the schema lets it be null while the metadata
    declares it not nullable, and the result is FAIL. *)
Lemma C4_counterexample :
  exists r,
    DatabaseValidator.validate_nullable_constraints nullable_id [customer_id] None
      = [r]
    /\ FeedMetadata.mandatory customer_id = "Y"
    /\ dict_get "null_count" r = Some (VInt 0)
    /\ status_of r = FAIL
    /\ ~ (status_of r = FAIL <-> (0 < 0)%N).
Proof.
  eexists. split; [vm_compute; reflexivity|].
  repeat split; try reflexivity.
  intros [H _]. specialize (H eq_refl). inversion H.
Qed.

(** C5, as the code has it. For a record of the unique validator whose two
    counts return, [duplicate_count] is [total_count - distinct_count], and
    the result is FAIL exactly when the two counts differ. When the distinct
    count does not exceed the total, [duplicate_count] is not negative and
    FAIL holds exactly when it is positive. *)
Theorem C5_unique_status (w : World)
    (metadata : list FeedMetadata) (selected_feeds : option (list string))
    (meta : FeedMetadata) (total_count distinct_count : N) :
  In meta (filter (fun meta => DatabaseValidator.is_Y (FeedMetadata.unique meta))
                  (DatabaseValidator.select_feeds metadata selected_feeds)) ->
  select_count w (DatabaseConnector.get_engine (FeedMetadata.db_name meta))
    (DatabaseConnector.total_query (FeedMetadata.db_table meta))
    = Returns total_count ->
  select_count w (DatabaseConnector.get_engine (FeedMetadata.db_name meta))
    (DatabaseConnector.distinct_query (FeedMetadata.db_table meta)
       (FeedMetadata.field_name meta)) = Returns distinct_count ->
  let r := record_of (DatabaseValidator.unique_column w meta) in
  let duplicate_count := (Z.of_N total_count - Z.of_N distinct_count)%Z in
  In r (DatabaseValidator.validate_unique_constraints w metadata selected_feeds)
  /\ dict_get "total_count" r = Some (VInt (Z.of_N total_count))
  /\ dict_get "distinct_count" r = Some (VInt (Z.of_N distinct_count))
  /\ dict_get "duplicate_count" r = Some (VInt duplicate_count)
  /\ (status_of r = FAIL <-> total_count <> distinct_count)
  /\ (status_of r = PASS <-> total_count = distinct_count)
  /\ ((distinct_count <= total_count)%N ->
      (0 <= duplicate_count)%Z
      /\ (status_of r = FAIL <-> (0 < duplicate_count)%Z)).
Proof.
  intros Hin Htotal Hdistinct r duplicate_count.
  split.
  { rewrite validate_unique_constraints_records.
    apply (group_record_in
             (fun meta => record_of (DatabaseValidator.unique_column w meta))), Hin. }
  subst r duplicate_count. unfold DatabaseValidator.unique_column. ops.
  rewrite Htotal. ops. rewrite Hdistinct. ops.
  unfold status_of, FAIL, PASS.
  destruct (N.eqb_spec total_count distinct_count) as [Heq|Hneq]; cbn;
    repeat split; try congruence; try lia; intros; try congruence; try lia.
Qed.

(** C5, witness: the ID column, one row, one distinct value. *)
Lemma C5_witness :
  let r := record_of (DatabaseValidator.unique_column
                        (store_of [id_column false] (fun _ => 1%N)) customer_id) in
  dict_get "duplicate_count" r = Some (VInt 0) /\ status_of r = PASS.
Proof.
  destruct (C5_unique_status (store_of [id_column false] (fun _ => 1%N))
              [customer_id] None customer_id 1 1)
    as (_ & _ & _ & Hdup & _ & Hpass & _).
  - left. reflexivity.
  - reflexivity.
  - reflexivity.
  - split; [exact Hdup | apply Hpass; reflexivity].
Defined.

(** C5, counterexample to the claim as stated: the store answers 1 to the
    count of rows and 2 to the count of distinct values (the two are
    separate reads of a table that may grow in between);
    [duplicate_count] is -1 and the result is FAIL. *)
Lemma C5_counterexample :
  exists r,
    DatabaseValidator.validate_unique_constraints grown_between_counts
      [customer_id] None = [r]
    /\ dict_get "total_count" r = Some (VInt 1)
    /\ dict_get "distinct_count" r = Some (VInt 2)
    /\ dict_get "duplicate_count" r = Some (VInt (-1))
    /\ status_of r = FAIL
    /\ ~ (0 <= -1)%Z.
Proof.
  eexists. split; [vm_compute; reflexivity|].
  repeat split; try reflexivity. lia.
Qed.

(** C6. A record of the enumeration validator whose enumeration name has no
    row in the enumeration catalog gets a result with status ERROR (so
    neither PASS nor FAIL), and no call reaches the store for it: the
    [invalid_count] of the result is the initial 0. *)
Theorem C6_unresolved_enumeration_is_error (w : World)
    (metadata : list FeedMetadata)
    (enumeration_metadata : list EnumerationMetadata)
    (selected_feeds : option (list string))
    (meta : FeedMetadata) (name : string) :
  In meta (DatabaseValidator.select_feeds metadata selected_feeds) ->
  FeedMetadata.enumeration meta = Some name ->
  name <> EmptyString ->
  (forall enum_meta, In enum_meta enumeration_metadata ->
     EnumerationMetadata.enumeration_name enum_meta <> name) ->
  let block :=
    DatabaseValidator.enumeration_column w
      (DatabaseValidator.enum_lookup_of enumeration_metadata) meta in
  In (record_of block)
     (DatabaseValidator.validate_enumeration_constraints w metadata
        enumeration_metadata selected_feeds)
  /\ status_of (record_of block) = ERROR
  /\ status_of (record_of block) <> PASS
  /\ status_of (record_of block) <> FAIL
  /\ message_of (record_of block)
     = Some (VStr ("Enumeration " ++ name ++ " not found in metadata"))
  /\ calls_of block = []
  /\ dict_get "invalid_count" (record_of block) = Some (VInt 0).
Proof.
  intros Hin Hname Hne Hcat block.
  split.
  { rewrite validate_enumeration_constraints_records.
    apply (group_record_in
             (fun meta =>
                record_of (DatabaseValidator.enumeration_column w
                             (DatabaseValidator.enum_lookup_of enumeration_metadata)
                             meta))).
    apply filter_In. split; [exact Hin|].
    rewrite Hname. unfold truthy.
    destruct (String.eqb_spec name EmptyString); [contradiction | reflexivity]. }
  subst block. unfold DatabaseValidator.enumeration_column.
  rewrite Hname, (allowed_values_unresolved enumeration_metadata name Hcat).
  ops. unfold status_of, message_of, ERROR, PASS, FAIL. cbn.
  repeat split; try reflexivity; discriminate.
Qed.

(** C6, witness: STATUS refers to CustomerStatus and the catalog is empty. *)
Lemma C6_witness :
  let block :=
    DatabaseValidator.enumeration_column empty_table
      (DatabaseValidator.enum_lookup_of []) customer_status in
  status_of (record_of block) = ERROR /\ calls_of block = [].
Proof.
  destruct (C6_unresolved_enumeration_is_error empty_table
              [customer_status] [] None customer_status "CustomerStatus")
    as (_ & Hstatus & _ & _ & _ & Hcalls & _).
  - left. reflexivity.
  - reflexivity.
  - discriminate.
  - intros enum_meta [].
  - split; [exact Hstatus | exact Hcalls].
Defined.

(** C7, as the code has it. In every validator, one unit of the loop
    contributes exactly one result, in order, and the list returned is made
    of these results whatever happened to other units: no exception leaves
    the validator. The unit is a table group in the data-type,
    insert/append, count and completeness validators, and a column record
    in the nullable, unique, range and enumeration validators. When a call
    to the store made for a unit raises, the unit's result has status ERROR
    and its message carries the message of the exception. *)
Theorem C7_error_isolation (w : World)
    (metadata : list FeedMetadata)
    (enumeration_metadata : list EnumerationMetadata)
    (expected_counts : option (list (string * Z)))
    (selected_feeds : option (list string)) :
  let selected := DatabaseValidator.select_feeds metadata selected_feeds in
  let groups := DatabaseValidator.group_by_table selected in
  error_isolation w groups
    (fun g => DatabaseValidator.data_type_table w (fst g) (snd g))
    "Error validating data types: "
    (DatabaseValidator.validate_data_types w metadata selected_feeds)
  /\ error_isolation w selected
       (DatabaseValidator.nullable_column w)
       "Error validating nullable constraints: "
       (DatabaseValidator.validate_nullable_constraints w metadata selected_feeds)
  /\ error_isolation w
       (filter (fun meta => DatabaseValidator.is_Y (FeedMetadata.unique meta)) selected)
       (DatabaseValidator.unique_column w)
       "Error validating unique constraints: "
       (DatabaseValidator.validate_unique_constraints w metadata selected_feeds)
  /\ error_isolation w
       (filter (fun meta => truthy (FeedMetadata.range_bottom meta)
                            || truthy (FeedMetadata.range_top meta)) selected)
       (DatabaseValidator.range_column w)
       "Error validating range constraints: "
       (DatabaseValidator.validate_range_constraints w metadata selected_feeds)
  /\ error_isolation w
       (filter (fun meta => truthy (FeedMetadata.enumeration meta)) selected)
       (DatabaseValidator.enumeration_column w
          (DatabaseValidator.enum_lookup_of enumeration_metadata))
       "Error validating enumeration constraints: "
       (DatabaseValidator.validate_enumeration_constraints w metadata
          enumeration_metadata selected_feeds)
  /\ error_isolation w groups
       (fun g => DatabaseValidator.insert_append_table w (fst g) (snd g))
       "Error validating insert/append logic: "
       (DatabaseValidator.validate_insert_append_logic w metadata selected_feeds)
  /\ error_isolation w groups
       (fun g => DatabaseValidator.count_table w expected_counts (fst g) (snd g))
       "Error validating count checks: "
       (DatabaseValidator.validate_count_checks w metadata expected_counts
          selected_feeds)
  /\ error_isolation w groups
       (fun g => DatabaseValidator.completeness_table w (fst g) (snd g))
       "Error validating completeness checks: "
       (DatabaseValidator.validate_completeness_checks w metadata selected_feeds).
Proof.
  intros selected groups. subst selected groups. unfold error_isolation.
  split; [split; [apply validate_data_types_records|] |].
  { intros [k ms] c e Hu. apply (data_type_reports w k ms (group_in_ok _ _ Hu)). }
  split; [split; [apply validate_nullable_constraints_records|] |].
  { intros u c e _. apply nullable_reports. }
  split; [split; [apply validate_unique_constraints_records|] |].
  { intros u c e _. apply unique_reports. }
  split; [split; [apply validate_range_constraints_records|] |].
  { intros u c e _. apply range_reports. }
  split; [split; [apply validate_enumeration_constraints_records|] |].
  { intros u c e _. apply enumeration_reports. }
  split; [split; [apply validate_insert_append_logic_records|] |].
  { intros [k ms] c e Hu. apply (insert_append_reports w k ms (group_in_ok _ _ Hu)). }
  split; [split; [apply validate_count_checks_records|] |].
  { intros [k ms] c e Hu. apply (count_reports w _ k ms (group_in_ok _ _ Hu)). }
  split; [apply validate_completeness_checks_records|].
  intros [k ms] c e Hu. apply (completeness_reports w k ms (group_in_ok _ _ Hu)).
Qed.

(** C7, counterexample to the claim as stated: two columns of one table
    of a store that cannot be reached. The table is one group, and the
    nullable validator gives two ERROR records for it, one for each
    column. *)
Lemma C7_counterexample :
  exists r1 r2,
    DatabaseValidator.validate_nullable_constraints store_down
      [customer_id; customer_name] None = [r1; r2]
    /\ List.length (DatabaseValidator.group_by_table [customer_id; customer_name])
       = 1%nat
    /\ status_of r1 = ERROR
    /\ status_of r2 = ERROR
    /\ message_of r1
       = Some (VStr "Error validating nullable constraints: connection refused")
    /\ message_of r2
       = Some (VStr "Error validating nullable constraints: connection refused").
Proof.
  eexists. eexists. split; [vm_compute; reflexivity|].
  repeat split; reflexivity.
Qed.

(** C9. On an empty metadata list every validator returns the empty list,
    whatever the feed filter, the enumeration catalog and the expected
    counts. *)
Theorem C9_empty_metadata_empty_results (w : World)
    (enumeration_metadata : list EnumerationMetadata)
    (expected_counts : option (list (string * Z)))
    (selected_feeds : option (list string)) :
  DatabaseValidator.validate_data_types w [] selected_feeds = []
  /\ DatabaseValidator.validate_nullable_constraints w [] selected_feeds = []
  /\ DatabaseValidator.validate_unique_constraints w [] selected_feeds = []
  /\ DatabaseValidator.validate_range_constraints w [] selected_feeds = []
  /\ DatabaseValidator.validate_enumeration_constraints w []
       enumeration_metadata selected_feeds = []
  /\ DatabaseValidator.validate_insert_append_logic w [] selected_feeds = []
  /\ DatabaseValidator.validate_count_checks w [] expected_counts selected_feeds = []
  /\ DatabaseValidator.validate_completeness_checks w [] selected_feeds = [].
Proof.
  destruct selected_feeds as [[|f fs]|]; repeat split; reflexivity.
Qed.

(** C10. For a group whose table has no row, the completeness validator
    gives a FAIL result with the message "Table is empty - cannot check
    completeness", lists no column and asks the store for nothing but the
    row count. The check ends in ERROR only when a call to the store raised
    (so never by a division by zero), and a result that lists a column comes
    from a table with at least one row. *)
Theorem C10_empty_table_skips_columns (w : World)
    (metadata : list FeedMetadata) (selected_feeds : option (list string))
    (table_key : string) (table_metadata : list FeedMetadata)
    (db_name table_name : string) :
  In (table_key, table_metadata)
     (DatabaseValidator.group_by_table
        (DatabaseValidator.select_feeds metadata selected_feeds)) ->
  split_dot table_key = [db_name; table_name] ->
  let block := DatabaseValidator.completeness_table w table_key table_metadata in
  let engine := DatabaseConnector.get_engine db_name in
  let row_count_query := DatabaseConnector.row_count_query table_name None in
  In (record_of block)
     (DatabaseValidator.validate_completeness_checks w metadata selected_feeds)
  /\ (select_count w engine row_count_query = Returns 0%N ->
      status_of (record_of block) = FAIL
      /\ message_of (record_of block)
         = Some (VStr "Table is empty - cannot check completeness")
      /\ dict_get "column_completeness" (record_of block) = Some (VList [])
      /\ calls_of block = [Query engine row_count_query])
  /\ (status_of (record_of block) = ERROR ->
      exists c e, In c (calls_of block) /\ raises w c e)
  /\ (forall total_rows entries,
        select_count w engine row_count_query = Returns total_rows ->
        dict_get "column_completeness" (record_of block) = Some (VList entries) ->
        entries <> [] ->
        (0 < total_rows)%N).
Proof.
  intros Hin Hkey block engine row_count_query.
  pose proof (group_in_ok _ _ Hin) as Hok.
  assert (Hne : table_metadata <> []) by (now destruct Hok as [Hne _]).
  assert (Hempty : select_count w engine row_count_query = Returns 0%N ->
            status_of (record_of block) = FAIL
            /\ message_of (record_of block)
               = Some (VStr "Table is empty - cannot check completeness")
            /\ dict_get "column_completeness" (record_of block) = Some (VList [])
            /\ calls_of block = [Query engine row_count_query]).
  { intros Hrows.
    destruct (completeness_empty w _ _ _ _ Hkey Hne Hrows) as [Hrec Hcalls].
    subst block. rewrite Hrec, Hcalls. repeat split. }
  split; [|split; [exact Hempty|split]].
  - rewrite validate_completeness_checks_records.
    apply (group_record_in
             (fun g => record_of (DatabaseValidator.completeness_table w (fst g) (snd g)))
             (table_key, table_metadata)), Hin.
  - apply completeness_error_from_store, Hok.
  - intros total_rows entries Hrows Hentries Hsome.
    destruct (N.eq_dec total_rows 0) as [->|Hpos]; [|lia].
    destruct (Hempty Hrows) as (_ & _ & Hnone & _).
    rewrite Hnone in Hentries. inversion Hentries. congruence.
Qed.

(** C10, witness: the CUSTOMER table without rows. *)
Lemma C10_witness :
  let block := DatabaseValidator.completeness_table empty_table
                 "sales.CUSTOMER" [customer_id] in
  status_of (record_of block) = FAIL
  /\ message_of (record_of block)
     = Some (VStr "Table is empty - cannot check completeness")
  /\ dict_get "column_completeness" (record_of block) = Some (VList [])
  /\ calls_of block
     = [Query (DatabaseConnector.get_engine "sales")
              (DatabaseConnector.row_count_query "CUSTOMER" None)].
Proof.
  destruct (C10_empty_table_skips_columns empty_table [customer_id] None
              "sales.CUSTOMER" [customer_id] "sales" "CUSTOMER")
    as (_ & Hempty & _).
  - left. reflexivity.
  - reflexivity.
  - apply Hempty. reflexivity.
Defined.

(** * Further properties of the checks, the reader and the report *)

(** ** The type-compatibility predicate, continued *)

Lemma compare_loop_sym items a e :
  compare_loop items a e = compare_loop items e a.
Proof.
  induction items as [|[k vs] rest IH]; simpl; [reflexivity|].
  rewrite andb_comm, IH. reflexivity.
Qed.

(** X1. The type-compatibility predicate is reflexive and symmetric: the
    verdict does not depend on which of the two types is the declared one,
    so a declaration wider than the column passes exactly when the narrower
    one does. *)
Theorem compare_data_types_symmetric (actual_type expected_type : string) :
  _compare_data_types actual_type actual_type = true
  /\ _compare_data_types actual_type expected_type
     = _compare_data_types expected_type actual_type.
Proof.
  unfold _compare_data_types. split.
  - destruct (compare_loop type_mappings actual_type actual_type) as [[|]|] eqn:E.
    + reflexivity.
    + now apply compare_loop_not_false in E.
    + apply String.eqb_refl.
  - rewrite (compare_loop_sym type_mappings actual_type expected_type).
    now rewrite String.eqb_sym.
Qed.

(** ** The range check *)

(** X2. For a record of the range validator whose counts return and add up
    within a 64-bit integer (the counts are [numpy.int64], whose sum wraps
    beyond): a bound that is missing or blank is not queried and counts for
    0 violations; the result is FAIL exactly when the two counts add up to
    more than 0, and PASS exactly when both are 0. *)
Theorem range_status (w : World)
    (metadata : list FeedMetadata) (selected_feeds : option (list string))
    (meta : FeedMetadata) (below above : N) :
  let bottom := FeedMetadata.range_bottom meta in
  let top := FeedMetadata.range_top meta in
  let engine := DatabaseConnector.get_engine (FeedMetadata.db_name meta) in
  let below_query :=
    DatabaseConnector.below_query (FeedMetadata.db_table meta)
      (FeedMetadata.field_name meta) (opt_str bottom) in
  let above_query :=
    DatabaseConnector.above_query (FeedMetadata.db_table meta)
      (FeedMetadata.field_name meta) (opt_str top) in
  let below_range_count := if truthy bottom then below else 0%N in
  let above_range_count := if truthy top then above else 0%N in
  In meta (filter (fun meta => truthy (FeedMetadata.range_bottom meta)
                               || truthy (FeedMetadata.range_top meta))
                  (DatabaseValidator.select_feeds metadata selected_feeds)) ->
  (truthy bottom = true -> select_count w engine below_query = Returns below) ->
  (truthy top = true -> select_count w engine above_query = Returns above) ->
  fits_int64 (below_range_count + above_range_count) ->
  let block := DatabaseValidator.range_column w meta in
  let r := record_of block in
  In r (DatabaseValidator.validate_range_constraints w metadata selected_feeds)
  /\ dict_get "below_range_count" r = Some (VInt (Z.of_N below_range_count))
  /\ dict_get "above_range_count" r = Some (VInt (Z.of_N above_range_count))
  /\ (status_of r = FAIL <-> (0 < below_range_count + above_range_count)%N)
  /\ (status_of r = PASS <-> below_range_count = 0%N /\ above_range_count = 0%N)
  /\ calls_of block
     = ((if truthy bottom then [Query engine below_query] else [])
        ++ (if truthy top then [Query engine above_query] else []))%list.
Proof.
  intros bottom top engine below_query above_query
         below_range_count above_range_count Hin Hbelow Habove _ block r.
  split.
  { rewrite validate_range_constraints_records.
    apply (in_map (fun meta => record_of (DatabaseValidator.range_column w meta))),
      Hin. }
  subst r block below_range_count above_range_count
        below_query above_query engine.
  unfold DatabaseValidator.range_column.
  destruct (truthy bottom) eqn:Hb; destruct (truthy top) eqn:Ht;
    subst bottom top; ops; rewrite ?Hb, ?Ht; ops;
    rewrite ?(Hbelow eq_refl); ops; rewrite ?Ht; ops;
    rewrite ?(Habove eq_refl); ops.
  all: unfold DatabaseValidator.get_or_0; cbn.
  all: try (destruct (0 <? _)%N eqn:Hpos; ops;
            [apply N.ltb_lt in Hpos | apply N.ltb_ge in Hpos]).
  all: repeat split; try reflexivity; try discriminate; try lia;
       try (intros H; exfalso; lia).
Qed.

(** X2, witness: AGE between 0 and 120, with two ages under 0. *)
Lemma range_status_witness :
  let r := record_of (DatabaseValidator.range_column two_below_range customer_age) in
  dict_get "below_range_count" r = Some (VInt 2)
  /\ dict_get "above_range_count" r = Some (VInt 0)
  /\ status_of r = FAIL.
Proof.
  destruct (range_status two_below_range [customer_age] None customer_age 2 0)
    as (_ & Hbelow & Habove & Hfail & _).
  - left. reflexivity.
  - reflexivity.
  - reflexivity.
  - reflexivity.
  - split; [exact Hbelow | split; [exact Habove | apply Hfail; reflexivity]].
Defined.

(** ** The count check *)

(** X3. For a table group whose row count returns: the result carries the
    count and the expected count given for the table key, if any; it is
    PASS exactly when the table has a row and no expected count differs
    from the actual one, FAIL otherwise; on an empty table the message is
    "Table is empty", also when the expected count differs (or is 0). *)
Theorem count_status (w : World)
    (metadata : list FeedMetadata) (expected_counts : option (list (string * Z)))
    (selected_feeds : option (list string))
    (table_key : string) (table_metadata : list FeedMetadata)
    (db_name table_name : string) (actual_count : N) :
  In (table_key, table_metadata)
     (DatabaseValidator.group_by_table
        (DatabaseValidator.select_feeds metadata selected_feeds)) ->
  split_dot table_key = [db_name; table_name] ->
  select_count w (DatabaseConnector.get_engine db_name)
    (DatabaseConnector.row_count_query table_name None) = Returns actual_count ->
  let block := DatabaseValidator.count_table w expected_counts table_key table_metadata in
  let r := record_of block in
  let expected := DatabaseValidator.expected_for expected_counts table_key in
  In r (DatabaseValidator.validate_count_checks w metadata expected_counts
          selected_feeds)
  /\ dict_get "actual_count" r = Some (VInt (Z.of_N actual_count))
  /\ dict_get "expected_count" r
     = Some (match expected with Some n => VInt n | None => VNone end)
  /\ (status_of r = PASS <->
      actual_count <> 0%N
      /\ forall n, expected = Some n -> n = Z.of_N actual_count)
  /\ (status_of r = FAIL <->
      actual_count = 0%N
      \/ exists n, expected = Some n /\ n <> Z.of_N actual_count)
  /\ (actual_count = 0%N -> message_of r = Some (VStr "Table is empty"))
  /\ (forall n, actual_count <> 0%N -> expected = Some n -> n <> Z.of_N actual_count ->
      message_of r
      = Some (VStr ("Count mismatch: expected " ++ str_int n
                      ++ ", got " ++ str_int (Z.of_N actual_count))))
  /\ calls_of block
     = [Query (DatabaseConnector.get_engine db_name)
              (DatabaseConnector.row_count_query table_name None)].
Proof.
  intros Hin Hkey Hcount block r expected.
  split.
  { rewrite validate_count_checks_records.
    apply (in_map (fun g => record_of (DatabaseValidator.count_table w expected_counts
                                         (fst g) (snd g)))
                  _ (table_key, table_metadata)), Hin. }
  pose proof (group_in_ok _ _ Hin) as [Hne _]. simpl in Hne.
  subst r block expected.
  unfold DatabaseValidator.count_table. rewrite Hkey.
  destruct table_metadata as [|meta0 rest]; [congruence|].
  destruct (DatabaseValidator.expected_for expected_counts table_key) as [n|];
    ops; rewrite Hcount; ops.
  - destruct (Z.of_N actual_count =? n)%Z eqn:Hn; ops;
      destruct (N.eqb actual_count 0) eqn:H0; ops;
      [apply Z.eqb_eq in Hn | apply Z.eqb_eq in Hn
      | apply Z.eqb_neq in Hn | apply Z.eqb_neq in Hn];
      [apply N.eqb_eq in H0 | apply N.eqb_neq in H0
      | apply N.eqb_eq in H0 | apply N.eqb_neq in H0].
    all: repeat split; try reflexivity; try discriminate; try congruence;
      try tauto.
    all: try (intros [? ?]; congruence).
    all: try (intros ? Hs; inversion Hs; congruence).
    all: try (intros _; first [ now left | right; eexists; split; [reflexivity|congruence] ]).
    all: try (intros [?|(m & Hm & Hd)]; [congruence | inversion Hm; congruence]).
    all: try (intros m ? Hm ?; inversion Hm; subst; congruence).
    all: intros [? Hall]; specialize (Hall n eq_refl); congruence.
  - destruct (N.eqb actual_count 0) eqn:H0; ops;
      [apply N.eqb_eq in H0 | apply N.eqb_neq in H0].
    all: repeat split; try reflexivity; try discriminate; try congruence;
      try tauto.
    all: try (intros [? ?]; congruence).
    all: try (intros _; now left).
    all: try (intros [?|(m & Hm & Hd)]; [congruence | discriminate]).
Qed.

(** X3, witness: an empty table that is expected to be empty still fails. *)
Lemma count_status_witness :
  let r := record_of (DatabaseValidator.count_table empty_table
                        (Some [("sales.CUSTOMER", 0%Z)])
                        "sales.CUSTOMER" [customer_id]) in
  dict_get "expected_count" r = Some (VInt 0)
  /\ status_of r = FAIL
  /\ message_of r = Some (VStr "Table is empty").
Proof.
  destruct (count_status empty_table [customer_id]
              (Some [("sales.CUSTOMER", 0%Z)]) None
              "sales.CUSTOMER" [customer_id] "sales" "CUSTOMER" 0)
    as (_ & _ & Hexpected & _ & Hfail & Hempty & _).
  - left. reflexivity.
  - reflexivity.
  - reflexivity.
  - split; [exact Hexpected|].
    split; [apply Hfail; now left | apply Hempty; reflexivity].
Defined.

(** ** The insert/append check *)

(** X4. For a table group whose row count returns and whose first record
    has a request written in ASCII, the result carries the row count and
    that request; it is PASS exactly when the request, in upper case, is
    INSERT or APPEND, and otherwise ERROR with the message "Unknown request
    type: " and the request as written. The requests of the other records
    of the group are not read. *)
Theorem insert_append_status (w : World)
    (metadata : list FeedMetadata) (selected_feeds : option (list string))
    (table_key : string) (meta0 : FeedMetadata) (others : list FeedMetadata)
    (db_name table_name : string) (current_count : N) :
  In (table_key, meta0 :: others)
     (DatabaseValidator.group_by_table
        (DatabaseValidator.select_feeds metadata selected_feeds)) ->
  split_dot table_key = [db_name; table_name] ->
  select_count w (DatabaseConnector.get_engine db_name)
    (DatabaseConnector.row_count_query table_name None) = Returns current_count ->
  is_ascii (FeedMetadata.request meta0) = true ->
  let block := DatabaseValidator.insert_append_table w table_key (meta0 :: others) in
  let r := record_of block in
  let request_type := FeedMetadata.request meta0 in
  let known := upper request_type = "INSERT" \/ upper request_type = "APPEND" in
  In r (DatabaseValidator.validate_insert_append_logic w metadata selected_feeds)
  /\ dict_get "request_type" r = Some (VStr request_type)
  /\ dict_get "current_row_count" r = Some (VInt (Z.of_N current_count))
  /\ (status_of r = PASS <-> known)
  /\ (status_of r = ERROR <-> ~ known)
  /\ (~ known ->
      message_of r = Some (VStr ("Unknown request type: " ++ request_type)))
  /\ r = record_of (DatabaseValidator.insert_append_table w table_key [meta0])
  /\ calls_of block
     = [Query (DatabaseConnector.get_engine db_name)
              (DatabaseConnector.row_count_query table_name None)].
Proof.
  intros Hin Hkey Hcount _ block r request_type known.
  split.
  { rewrite validate_insert_append_logic_records.
    apply (in_map (fun g => record_of (DatabaseValidator.insert_append_table w
                                         (fst g) (snd g)))
                  _ (table_key, meta0 :: others)), Hin. }
  subst r block known request_type.
  unfold DatabaseValidator.insert_append_table. rewrite Hkey.
  ops; rewrite Hcount; ops.
  destruct (String.eqb (upper (FeedMetadata.request meta0)) "INSERT") eqn:Hi; ops;
    [apply String.eqb_eq in Hi
    | apply String.eqb_neq in Hi;
      destruct (String.eqb (upper (FeedMetadata.request meta0)) "APPEND") eqn:Ha;
      ops; [apply String.eqb_eq in Ha | apply String.eqb_neq in Ha]].
  all: repeat split; try reflexivity; try discriminate; try tauto.
Qed.

(** X4, witness: the CUSTOMER group, whose first record says Insert. *)
Lemma insert_append_status_witness :
  let r := record_of (DatabaseValidator.insert_append_table three_rows
                        "sales.CUSTOMER" [customer_id; customer_name]) in
  dict_get "current_row_count" r = Some (VInt 3) /\ status_of r = PASS.
Proof.
  destruct (insert_append_status three_rows [customer_id; customer_name] None
              "sales.CUSTOMER" customer_id [customer_name] "sales" "CUSTOMER" 3)
    as (_ & _ & Hcount & Hpass & _).
  - left. reflexivity.
  - reflexivity.
  - reflexivity.
  - reflexivity.
  - split; [exact Hcount | apply Hpass; now left].
Defined.

(** X5. Whatever the store answers, no result of the insert/append check is
    FAIL: each one is PASS or ERROR. *)
Theorem insert_append_never_fails (w : World)
    (metadata : list FeedMetadata) (selected_feeds : option (list string))
    (r : Dict) :
  In r (DatabaseValidator.validate_insert_append_logic w metadata selected_feeds) ->
  status_of r = PASS \/ status_of r = ERROR.
Proof.
  rewrite validate_insert_append_logic_records, in_map_iff.
  intros ([key metas] & <- & Hin).
  destruct (group_in_ok _ _ Hin) as [Hne (x & y & Hkey)]. simpl in Hne, Hkey.
  cbn [fst snd]. unfold DatabaseValidator.insert_append_table. rewrite Hkey.
  destruct metas as [|meta0 rest]; [congruence|].
  exec; auto.
Qed.

(** X5, witness: the one result for the CUSTOMER group. *)
Lemma insert_append_never_fails_witness :
  let r := record_of (DatabaseValidator.insert_append_table three_rows
                        "sales.CUSTOMER" [customer_id]) in
  status_of r = PASS \/ status_of r = ERROR.
Proof.
  apply (insert_append_never_fails three_rows [customer_id] None).
  left. reflexivity.
Defined.

(** ** The enumeration check, for a name that the catalog resolves *)

(** X6. For a record of the enumeration validator whose enumeration the
    catalog lists: the allowed values are the values of the catalog rows of
    that name, in the order of the rows; the store is asked once, for the
    rows whose value is not among them; when that count returns, the result
    is FAIL exactly when it is greater than 0, and PASS exactly when it is
    0. *)
Theorem enumeration_status (w : World)
    (metadata : list FeedMetadata)
    (enumeration_metadata : list EnumerationMetadata)
    (selected_feeds : option (list string))
    (meta : FeedMetadata) (name : string) (invalid_count : N) :
  let allowed_values :=
    map EnumerationMetadata.enum_values
        (filter (fun enum_meta =>
                   String.eqb (EnumerationMetadata.enumeration_name enum_meta) name)
                enumeration_metadata) in
  let engine := DatabaseConnector.get_engine (FeedMetadata.db_name meta) in
  let query :=
    DatabaseConnector.enumeration_query (FeedMetadata.db_table meta)
      (FeedMetadata.field_name meta) allowed_values in
  In meta (filter (fun meta => truthy (FeedMetadata.enumeration meta))
                  (DatabaseValidator.select_feeds metadata selected_feeds)) ->
  FeedMetadata.enumeration meta = Some name ->
  allowed_values <> [] ->
  select_count w engine query = Returns invalid_count ->
  let block :=
    DatabaseValidator.enumeration_column w
      (DatabaseValidator.enum_lookup_of enumeration_metadata) meta in
  let r := record_of block in
  In r (DatabaseValidator.validate_enumeration_constraints w metadata
          enumeration_metadata selected_feeds)
  /\ dict_get "allowed_values" r = Some (VList (map VStr allowed_values))
  /\ dict_get "invalid_count" r = Some (VInt (Z.of_N invalid_count))
  /\ (status_of r = FAIL <-> (0 < invalid_count)%N)
  /\ (status_of r = PASS <-> invalid_count = 0%N)
  /\ calls_of block = [Query engine query].
Proof.
  intros allowed_values engine query Hin Hname Hne Hcount block r.
  split.
  { rewrite validate_enumeration_constraints_records.
    apply (in_map (fun meta =>
                     record_of (DatabaseValidator.enumeration_column w
                                  (DatabaseValidator.enum_lookup_of
                                     enumeration_metadata) meta))), Hin. }
  subst r block query engine.
  unfold DatabaseValidator.enumeration_column.
  rewrite Hname, allowed_values_catalog. fold allowed_values.
  fold allowed_values in Hcount.
  destruct allowed_values as [|v vs] eqn:Hvs; [congruence|].
  rewrite <- Hvs in *. clear Hvs. ops. rewrite Hcount. ops.
  destruct (0 <? invalid_count)%N eqn:Hpos; ops;
    [apply N.ltb_lt in Hpos | apply N.ltb_ge in Hpos].
  all: repeat split; try reflexivity; try discriminate; try lia;
       try (intros H; exfalso; lia).
Qed.

(** X6, witness: STATUS against the two CustomerStatus rows of the catalog. *)
Lemma enumeration_status_witness :
  let r :=
    record_of (DatabaseValidator.enumeration_column three_rows
                 (DatabaseValidator.enum_lookup_of status_catalog)
                 customer_status) in
  dict_get "allowed_values" r = Some (VList [VStr "ACTIVE"; VStr "CLOSED"])
  /\ status_of r = FAIL.
Proof.
  destruct (enumeration_status three_rows [customer_status] status_catalog None
              customer_status "CustomerStatus" 3)
    as (_ & Hallowed & _ & Hfail & _).
  - left. reflexivity.
  - reflexivity.
  - discriminate.
  - reflexivity.
  - split; [exact Hallowed | apply Hfail; reflexivity].
Defined.

(** ** Where an ERROR comes from *)

(** The call that raised, among those the block made. *)
Ltac culprit :=
  match goal with
  | H : select_count ?w ?e ?q = Throws ?msg |- _ =>
      exists (Query e q), msg; split; [cbn; tauto | exact H]
  | H : inspect_columns ?w ?e ?t = Throws ?msg |- _ =>
      exists (Inspect e t), msg; split; [cbn; tauto | exact H]
  end.

Section Origins.
Variable w : World.

Lemma nullable_error_from_store meta :
  status_of (record_of (DatabaseValidator.nullable_column w meta)) = ERROR ->
  store_raised w (DatabaseValidator.nullable_column w meta).
Proof.
  unfold store_raised, DatabaseValidator.nullable_column. exec.
  all: try discriminate.
  all: intros _; culprit.
Qed.

Lemma unique_error_from_store meta :
  status_of (record_of (DatabaseValidator.unique_column w meta)) = ERROR ->
  store_raised w (DatabaseValidator.unique_column w meta).
Proof.
  unfold store_raised, DatabaseValidator.unique_column. exec.
  all: try discriminate.
  all: intros _; culprit.
Qed.

Lemma range_error_from_store meta :
  status_of (record_of (DatabaseValidator.range_column w meta)) = ERROR ->
  store_raised w (DatabaseValidator.range_column w meta).
Proof.
  unfold store_raised, DatabaseValidator.range_column. exec.
  all: try discriminate.
  all: intros _; culprit.
Qed.

Lemma enumeration_error_origin enum_lookup meta :
  let block := DatabaseValidator.enumeration_column w enum_lookup meta in
  status_of (record_of block) = ERROR ->
  store_raised w block
  \/ DatabaseValidator.allowed_values_of enum_lookup (FeedMetadata.enumeration meta)
     = [].
Proof.
  cbv zeta. unfold store_raised, DatabaseValidator.enumeration_column.
  destruct (DatabaseValidator.allowed_values_of enum_lookup
              (FeedMetadata.enumeration meta)) eqn:Ha; [now right|].
  exec.
  all: try discriminate.
  all: intros _; left; culprit.
Qed.

Lemma data_type_error_from_store key metas :
  group_ok (key, metas) ->
  status_of (record_of (DatabaseValidator.data_type_table w key metas)) = ERROR ->
  store_raised w (DatabaseValidator.data_type_table w key metas).
Proof.
  intros [Hne (x & y & Hkey)]. simpl in Hne, Hkey.
  unfold store_raised, DatabaseValidator.data_type_table. rewrite Hkey.
  destruct metas as [|meta0 rest]; [congruence|]. exec.
  all: rewrite ?record_columns_run; ops.
  all: try (destruct (forallb _ _)); try discriminate.
  all: intros _; culprit.
Qed.

Lemma count_error_from_store expected_counts key metas :
  group_ok (key, metas) ->
  status_of (record_of (DatabaseValidator.count_table w expected_counts key metas))
    = ERROR ->
  store_raised w (DatabaseValidator.count_table w expected_counts key metas).
Proof.
  intros [Hne (x & y & Hkey)]. simpl in Hne, Hkey.
  unfold store_raised, DatabaseValidator.count_table. rewrite Hkey.
  destruct metas as [|meta0 rest]; [congruence|].
  destruct (DatabaseValidator.expected_for expected_counts key) eqn:Hx; exec.
  all: try discriminate.
  all: intros _; culprit.
Qed.

Lemma insert_append_error_origin key metas :
  group_ok (key, metas) ->
  let block := DatabaseValidator.insert_append_table w key metas in
  status_of (record_of block) = ERROR ->
  store_raised w block
  \/ exists meta0 rest,
       metas = meta0 :: rest
       /\ upper (FeedMetadata.request meta0) <> "INSERT"
       /\ upper (FeedMetadata.request meta0) <> "APPEND".
Proof.
  intros [Hne (x & y & Hkey)]. simpl in Hne, Hkey. cbv zeta.
  unfold store_raised, DatabaseValidator.insert_append_table. rewrite Hkey.
  destruct metas as [|meta0 rest]; [congruence|]. exec.
  all: try discriminate.
  - intros _. right. exists meta0, rest.
    split; [reflexivity|]. split; now apply String.eqb_neq.
  - intros _; left; culprit.
Qed.

End Origins.

(** X7. An ERROR has a cause. In the data-type, nullable, unique, range and
    count checks a result is ERROR only when a call to the store, made for
    that very unit, raised; in the enumeration check, only then or when the
    catalog gives no value for the record's enumeration; in the
    insert/append check, only then or when the request of the group's first
    record is neither INSERT nor APPEND. *)
Theorem error_has_a_cause (w : World)
    (metadata : list FeedMetadata)
    (enumeration_metadata : list EnumerationMetadata)
    (expected_counts : option (list (string * Z)))
    (selected_feeds : option (list string)) :
  let selected := DatabaseValidator.select_feeds metadata selected_feeds in
  let groups := DatabaseValidator.group_by_table selected in
  let enum_lookup := DatabaseValidator.enum_lookup_of enumeration_metadata in
  (forall table_key table_metadata,
     In (table_key, table_metadata) groups ->
     let block := DatabaseValidator.data_type_table w table_key table_metadata in
     status_of (record_of block) = ERROR -> store_raised w block)
  /\ (forall meta,
        let block := DatabaseValidator.nullable_column w meta in
        status_of (record_of block) = ERROR -> store_raised w block)
  /\ (forall meta,
        let block := DatabaseValidator.unique_column w meta in
        status_of (record_of block) = ERROR -> store_raised w block)
  /\ (forall meta,
        let block := DatabaseValidator.range_column w meta in
        status_of (record_of block) = ERROR -> store_raised w block)
  /\ (forall table_key table_metadata,
        In (table_key, table_metadata) groups ->
        let block :=
          DatabaseValidator.count_table w expected_counts table_key table_metadata in
        status_of (record_of block) = ERROR -> store_raised w block)
  /\ (forall meta,
        let block := DatabaseValidator.enumeration_column w enum_lookup meta in
        status_of (record_of block) = ERROR ->
        store_raised w block
        \/ DatabaseValidator.allowed_values_of enum_lookup
             (FeedMetadata.enumeration meta) = [])
  /\ (forall table_key table_metadata,
        In (table_key, table_metadata) groups ->
        let block :=
          DatabaseValidator.insert_append_table w table_key table_metadata in
        status_of (record_of block) = ERROR ->
        store_raised w block
        \/ exists meta0 rest,
             table_metadata = meta0 :: rest
             /\ upper (FeedMetadata.request meta0) <> "INSERT"
             /\ upper (FeedMetadata.request meta0) <> "APPEND").
Proof.
  intros selected groups enum_lookup.
  split; [|split; [|split; [|split; [|split; [|split]]]]].
  - intros k ms Hin. apply data_type_error_from_store. eapply group_in_ok, Hin.
  - apply nullable_error_from_store.
  - apply unique_error_from_store.
  - apply range_error_from_store.
  - intros k ms Hin. apply count_error_from_store. eapply group_in_ok, Hin.
  - apply enumeration_error_origin.
  - intros k ms Hin. apply insert_append_error_origin. eapply group_in_ok, Hin.
Qed.

(** ** The shape of a record *)

Ltac shape :=
  unfold well_formed, is_text, settled, keys_of, status_of, PASS, FAIL, ERROR;
  cbn;
  repeat match goal with
         | |- _ /\ _ => split
         | |- exists _, _ => eexists
         | |- _ = _ => reflexivity
         | |- _ \/ _ => first [left; reflexivity | right; left; reflexivity
                              | right; right; reflexivity]
         end.

Section Shapes.
Variable w : World.

Lemma nullable_well_formed meta :
  well_formed "nullable_constraint" nullable_keys
    (record_of (DatabaseValidator.nullable_column w meta)).
Proof. unfold DatabaseValidator.nullable_column. exec; shape. Qed.

Lemma unique_well_formed meta :
  well_formed "unique_constraint" unique_keys
    (record_of (DatabaseValidator.unique_column w meta)).
Proof. unfold DatabaseValidator.unique_column. exec; shape. Qed.

Lemma range_well_formed meta :
  well_formed "range_constraint" range_keys
    (record_of (DatabaseValidator.range_column w meta)).
Proof. unfold DatabaseValidator.range_column. exec; shape. Qed.

Lemma enumeration_well_formed enum_lookup meta :
  well_formed "enumeration_constraint" enumeration_keys
    (record_of (DatabaseValidator.enumeration_column w enum_lookup meta)).
Proof.
  unfold DatabaseValidator.enumeration_column.
  destruct (DatabaseValidator.allowed_values_of enum_lookup
              (FeedMetadata.enumeration meta)) eqn:Ha; exec; shape.
Qed.

Lemma data_type_well_formed key metas :
  group_ok (key, metas) ->
  well_formed "data_type" data_type_keys
    (record_of (DatabaseValidator.data_type_table w key metas)).
Proof.
  intros [Hne (x & y & Hkey)]. simpl in Hne, Hkey.
  unfold DatabaseValidator.data_type_table. rewrite Hkey.
  destruct metas as [|meta0 rest]; [congruence|]. exec.
  all: rewrite ?record_columns_run; ops.
  all: try (destruct (forallb _ _)); shape.
Qed.

Lemma insert_append_well_formed key metas :
  group_ok (key, metas) ->
  well_formed "insert_append_logic" insert_append_keys
    (record_of (DatabaseValidator.insert_append_table w key metas)).
Proof.
  intros [Hne (x & y & Hkey)]. simpl in Hne, Hkey.
  unfold DatabaseValidator.insert_append_table. rewrite Hkey.
  destruct metas as [|meta0 rest]; [congruence|]. exec; shape.
Qed.

Lemma count_well_formed expected_counts key metas :
  group_ok (key, metas) ->
  well_formed "count_check" count_keys
    (record_of (DatabaseValidator.count_table w expected_counts key metas)).
Proof.
  intros [Hne (x & y & Hkey)]. simpl in Hne, Hkey.
  unfold DatabaseValidator.count_table. rewrite Hkey.
  destruct metas as [|meta0 rest]; [congruence|].
  destruct (DatabaseValidator.expected_for expected_counts key) eqn:Hx; exec; shape.
Qed.

Lemma completeness_well_formed key metas :
  group_ok (key, metas) ->
  well_formed "completeness_check" completeness_keys
    (record_of (DatabaseValidator.completeness_table w key metas)).
Proof.
  intros [Hne (x & y & Hkey)]. simpl in Hne, Hkey.
  unfold DatabaseValidator.completeness_table. rewrite Hkey.
  destruct metas as [|meta0 rest]; [congruence|]. exec.
  all: try run_columns w x y (FeedMetadata.feed meta0) (meta0 :: rest).
  all: shape.
Qed.

Lemma Forall_records {U : Type} (P : Dict -> Prop) (f : U -> Dict) (units : list U) :
  (forall u, In u units -> P (f u)) -> Forall P (map f units).
Proof.
  intros H. apply Forall_forall. intros r Hr.
  apply in_map_iff in Hr. destruct Hr as (u & <- & Hu). now apply H.
Qed.

End Shapes.

Lemma checks_well_formed (w : World)
    (metadata : list FeedMetadata)
    (enumeration_metadata : list EnumerationMetadata)
    (expected_counts : option (list (string * Z)))
    (selected_feeds : option (list string)) :
  Forall (well_formed "data_type" data_type_keys)
         (DatabaseValidator.validate_data_types w metadata selected_feeds)
  /\ Forall (well_formed "nullable_constraint" nullable_keys)
       (DatabaseValidator.validate_nullable_constraints w metadata selected_feeds)
  /\ Forall (well_formed "unique_constraint" unique_keys)
       (DatabaseValidator.validate_unique_constraints w metadata selected_feeds)
  /\ Forall (well_formed "range_constraint" range_keys)
       (DatabaseValidator.validate_range_constraints w metadata selected_feeds)
  /\ Forall (well_formed "enumeration_constraint" enumeration_keys)
       (DatabaseValidator.validate_enumeration_constraints w metadata
          enumeration_metadata selected_feeds)
  /\ Forall (well_formed "insert_append_logic" insert_append_keys)
       (DatabaseValidator.validate_insert_append_logic w metadata selected_feeds)
  /\ Forall (well_formed "count_check" count_keys)
       (DatabaseValidator.validate_count_checks w metadata expected_counts
          selected_feeds)
  /\ Forall (well_formed "completeness_check" completeness_keys)
       (DatabaseValidator.validate_completeness_checks w metadata selected_feeds).
Proof.
  rewrite validate_data_types_records, validate_nullable_constraints_records,
    validate_unique_constraints_records, validate_range_constraints_records,
    validate_enumeration_constraints_records,
    validate_insert_append_logic_records, validate_count_checks_records,
    validate_completeness_checks_records.
  repeat split; apply Forall_records.
  - intros [k ms] Hin. apply data_type_well_formed. eapply group_in_ok, Hin.
  - intros meta _. apply nullable_well_formed.
  - intros meta _. apply unique_well_formed.
  - intros meta _. apply range_well_formed.
  - intros meta _. apply enumeration_well_formed.
  - intros [k ms] Hin. apply insert_append_well_formed. eapply group_in_ok, Hin.
  - intros [k ms] Hin. apply count_well_formed. eapply group_in_ok, Hin.
  - intros [k ms] Hin. apply completeness_well_formed. eapply group_in_ok, Hin.
Qed.

(** X8. Every result of every check is well formed: its keys are those of
    the check's [result] literal, in that order, whatever path the check
    took; [validation_type] names the check; [db_name], [table_name] and
    [feed_name] are strings; and [validation_status] is PASS, FAIL or
    ERROR. *)
Theorem results_are_well_formed (w : World)
    (metadata : list FeedMetadata)
    (enumeration_metadata : list EnumerationMetadata)
    (expected_counts : option (list (string * Z)))
    (selected_feeds : option (list string)) :
  Forall (well_formed "data_type" data_type_keys)
         (DatabaseValidator.validate_data_types w metadata selected_feeds)
  /\ Forall (well_formed "nullable_constraint" nullable_keys)
       (DatabaseValidator.validate_nullable_constraints w metadata selected_feeds)
  /\ Forall (well_formed "unique_constraint" unique_keys)
       (DatabaseValidator.validate_unique_constraints w metadata selected_feeds)
  /\ Forall (well_formed "range_constraint" range_keys)
       (DatabaseValidator.validate_range_constraints w metadata selected_feeds)
  /\ Forall (well_formed "enumeration_constraint" enumeration_keys)
       (DatabaseValidator.validate_enumeration_constraints w metadata
          enumeration_metadata selected_feeds)
  /\ Forall (well_formed "insert_append_logic" insert_append_keys)
       (DatabaseValidator.validate_insert_append_logic w metadata selected_feeds)
  /\ Forall (well_formed "count_check" count_keys)
       (DatabaseValidator.validate_count_checks w metadata expected_counts
          selected_feeds)
  /\ Forall (well_formed "completeness_check" completeness_keys)
       (DatabaseValidator.validate_completeness_checks w metadata selected_feeds).
Proof. apply checks_well_formed. Qed.

(** ** Grouping by table *)

Lemma group_add_keys key meta groups :
  map fst (DatabaseValidator.group_add key meta groups)
  = if str_mem key (map fst groups) then map fst groups
    else (map fst groups ++ [key])%list.
Proof.
  unfold str_mem.
  induction groups as [|[k ms] rest IH];
    cbn [DatabaseValidator.group_add map fst existsb app]; [reflexivity|].
  rewrite (String.eqb_sym key k).
  destruct (String.eqb k key); cbn [map fst orb]; [reflexivity|].
  rewrite IH. now destruct (existsb (String.eqb key) (map fst rest)).
Qed.

Lemma group_add_get name key meta groups :
  dict_get name (DatabaseValidator.group_add key meta groups)
  = if String.eqb key name
    then Some ((match dict_get name groups with
                | Some metas => metas
                | None => []
                end) ++ [meta])%list
    else dict_get name groups.
Proof.
  induction groups as [|[k ms] rest IH]; simpl.
  - destruct (String.eqb key name); reflexivity.
  - destruct (String.eqb k key) eqn:E; simpl.
    + apply String.eqb_eq in E. subst k.
      destruct (String.eqb key name); reflexivity.
    + destruct (String.eqb k name) eqn:E'.
      * apply String.eqb_eq in E'. subst k.
        rewrite String.eqb_sym in E. now rewrite E.
      * exact IH.
Qed.

Lemma str_mem_In (x : string) (l : list string) : str_mem x l = true <-> In x l.
Proof.
  unfold str_mem. rewrite existsb_exists. split.
  - intros (y & Hy & E). apply String.eqb_eq in E. now subst.
  - intros H. exists x. split; [exact H | apply String.eqb_refl].
Qed.

Lemma group_by_table_snoc metadata meta :
  DatabaseValidator.group_by_table (metadata ++ [meta])
  = DatabaseValidator.group_add (DatabaseValidator.table_key_of meta) meta
      (DatabaseValidator.group_by_table metadata).
Proof.
  unfold DatabaseValidator.group_by_table. now rewrite fold_left_app.
Qed.

Lemma group_by_table_keys metadata :
  NoDup (map fst (DatabaseValidator.group_by_table metadata))
  /\ forall key, In key (map fst (DatabaseValidator.group_by_table metadata))
                 <-> In key (map DatabaseValidator.table_key_of metadata).
Proof.
  induction metadata as [|meta metadata [IHnd IHin]] using rev_ind.
  - split; [constructor | tauto].
  - rewrite group_by_table_snoc, group_add_keys, map_app. cbn [map].
    destruct (str_mem _ _) eqn:E.
    + apply str_mem_In in E. split; [exact IHnd|].
      intros key. rewrite in_app_iff, IHin. cbn [In]. split; [tauto|].
      intros [H|[<-|[]]]; [exact H | now apply IHin].
    + split.
      * apply NoDup_app; [exact IHnd | repeat constructor; tauto |].
        intros k Hk [<-|[]]. apply str_mem_In in Hk. congruence.
      * intros key. rewrite !in_app_iff, IHin. tauto.
Qed.

Lemma group_by_table_get metadata key :
  dict_get key (DatabaseValidator.group_by_table metadata)
  = match filter (fun meta => String.eqb (DatabaseValidator.table_key_of meta) key)
                 metadata with
    | [] => None
    | metas => Some metas
    end.
Proof.
  induction metadata as [|meta metadata IH] using rev_ind; [reflexivity|].
  rewrite group_by_table_snoc, group_add_get, filter_app, IH. cbn [filter].
  destruct (String.eqb (DatabaseValidator.table_key_of meta) key).
  - now destruct (filter _ metadata).
  - rewrite app_nil_r. reflexivity.
Qed.

Lemma dict_get_of_in {V : Type} (k : string) (v : V) (d : list (string * V)) :
  NoDup (map fst d) -> In (k, v) d -> dict_get k d = Some v.
Proof.
  induction d as [|[k' v'] d IH]; simpl; [tauto|].
  intros Hnd [H|H].
  - inversion H. subst. now rewrite String.eqb_refl.
  - inversion Hnd as [|? ? Hnot Hnd']. subst.
    destruct (String.eqb k' k) eqn:E.
    + apply String.eqb_eq in E. subst k'. elim Hnot.
      change k with (fst (k, v)). now apply in_map.
    + now apply IH.
Qed.

Lemma group_members metadata table_key table_metadata :
  In (table_key, table_metadata) (DatabaseValidator.group_by_table metadata) ->
  table_metadata <> []
  /\ table_metadata
     = filter (fun meta =>
                 String.eqb (DatabaseValidator.table_key_of meta) table_key)
              metadata.
Proof.
  destruct (group_by_table_keys metadata) as [Hnd _].
  intros Hin. apply (dict_get_of_in _ _ _ Hnd) in Hin.
  rewrite group_by_table_get in Hin.
  destruct (filter _ metadata) as [|m l]; [discriminate|].
  inversion Hin. split; [discriminate | reflexivity].
Qed.

(** X9. Grouping by table is a partition of the metadata by the key
    [db_name.db_table]: no key comes twice; a key has a group exactly when
    some record has it; and the group of a key holds all the records of that
    key and only them, in the order of the metadata, so that no group is
    empty. *)
Theorem group_by_table_partition (metadata : list FeedMetadata) :
  let table_groups := DatabaseValidator.group_by_table metadata in
  NoDup (map fst table_groups)
  /\ (forall table_key,
        In table_key (map fst table_groups)
        <-> exists meta, In meta metadata
                         /\ DatabaseValidator.table_key_of meta = table_key)
  /\ (forall table_key table_metadata,
        In (table_key, table_metadata) table_groups ->
        table_metadata <> []
        /\ table_metadata
           = filter (fun meta =>
                       String.eqb (DatabaseValidator.table_key_of meta) table_key)
                    metadata).
Proof.
  cbv zeta. destruct (group_by_table_keys metadata) as [Hnd Hkeys].
  split; [exact Hnd|]. split.
  - intros key. rewrite Hkeys, in_map_iff. split.
    + intros (meta & E & Hin). now exists meta.
    + intros (meta & Hin & E). now exists meta.
  - apply group_members.
Qed.

(** ** The table key, split again *)

Lemma append_nil_l (s : string) : EmptyString ++ s = s.
Proof. reflexivity. Qed.

Lemma append_cons (c : ascii) (a s : string) :
  String c a ++ s = String c (a ++ s).
Proof. reflexivity. Qed.

Lemma no_dot_prefix (a b x y : string) :
  split_dot (a ++ "." ++ b) = [x; y] ->
  str_in "." x = false /\ (a ++ "." ++ b = x ++ "." ++ y).
Proof.
  revert x. induction a as [|c a IH]; intros x.
  - rewrite !append_nil_l, append_cons, append_nil_l. cbn [split_dot Ascii.eqb Bool.eqb].
    intros H. inversion H. split; reflexivity.
  - rewrite append_cons. cbn [split_dot].
    destruct (Ascii.eqb c ".") eqn:E.
    + apply Ascii.eqb_eq in E. subst c. intros H. inversion H.
      split; reflexivity.
    + destruct (split_dot_key a b) as (x' & y' & Hs).
      rewrite Hs. intros H. inversion H. subst.
      destruct (IH x' Hs) as [Hx Heq]. split.
      * cbn [str_in prefix]. rewrite Hx.
        destruct (Ascii.ascii_dec "." c) as [Hc|Hc]; [|now destruct x'].
        subst c. discriminate.
      * rewrite !append_cons. f_equal. exact Heq.
Qed.

Section Names.
Variable w : World.

Lemma data_type_names key metas x y :
  split_dot key = [x; y] -> metas <> [] ->
  names x y (record_of (DatabaseValidator.data_type_table w key metas)).
Proof.
  intros Hkey Hne. unfold names, DatabaseValidator.data_type_table. rewrite Hkey.
  destruct metas as [|meta0 rest]; [congruence|]. exec.
  all: rewrite ?record_columns_run; ops.
  all: split; reflexivity.
Qed.

Lemma insert_append_names key metas x y :
  split_dot key = [x; y] -> metas <> [] ->
  names x y (record_of (DatabaseValidator.insert_append_table w key metas)).
Proof.
  intros Hkey Hne. unfold names, DatabaseValidator.insert_append_table.
  rewrite Hkey. destruct metas as [|meta0 rest]; [congruence|].
  exec; split; reflexivity.
Qed.

Lemma count_names expected_counts key metas x y :
  split_dot key = [x; y] -> metas <> [] ->
  names x y (record_of (DatabaseValidator.count_table w expected_counts key metas)).
Proof.
  intros Hkey Hne. unfold names, DatabaseValidator.count_table. rewrite Hkey.
  destruct metas as [|meta0 rest]; [congruence|].
  destruct (DatabaseValidator.expected_for expected_counts key) eqn:Hx;
    exec; split; reflexivity.
Qed.

Lemma completeness_names key metas x y :
  split_dot key = [x; y] -> metas <> [] ->
  names x y (record_of (DatabaseValidator.completeness_table w key metas)).
Proof.
  intros Hkey Hne. unfold names, DatabaseValidator.completeness_table.
  rewrite Hkey. destruct metas as [|meta0 rest]; [congruence|]. exec.
  all: try run_columns w x y (FeedMetadata.feed meta0) (meta0 :: rest).
  all: split; reflexivity.
Qed.

End Names.

(** X10. The four checks that work by table cut the key [db_name.db_table]
    at its first dot to name the store and the table, in their record and in
    their calls. The store name they use never holds a dot, and glued to the
    table name by a dot it gives back the key; it is the [db_name] of the
    metadata, and the table the [db_table], exactly when that [db_name]
    holds no dot. *)
Theorem table_key_round_trip (w : World)
    (metadata : list FeedMetadata) (expected_counts : option (list (string * Z)))
    (table_key : string) (table_metadata : list FeedMetadata)
    (meta : FeedMetadata) :
  In (table_key, table_metadata) (DatabaseValidator.group_by_table metadata) ->
  In meta table_metadata ->
  exists db_name table_name,
    split_dot table_key = [db_name; table_name]
    /\ names db_name table_name
         (record_of (DatabaseValidator.data_type_table w table_key table_metadata))
    /\ names db_name table_name
         (record_of (DatabaseValidator.insert_append_table w table_key
                       table_metadata))
    /\ names db_name table_name
         (record_of (DatabaseValidator.count_table w expected_counts table_key
                       table_metadata))
    /\ names db_name table_name
         (record_of (DatabaseValidator.completeness_table w table_key
                       table_metadata))
    /\ str_in "." db_name = false
    /\ db_name ++ "." ++ table_name
       = FeedMetadata.db_name meta ++ "." ++ FeedMetadata.db_table meta
    /\ (str_in "." (FeedMetadata.db_name meta) = false <->
        db_name = FeedMetadata.db_name meta
        /\ table_name = FeedMetadata.db_table meta).
Proof.
  intros Hin Hmeta.
  destruct (group_members _ _ _ Hin) as [Hne Hfilter].
  assert (Hkey : table_key = DatabaseValidator.table_key_of meta).
  { rewrite Hfilter in Hmeta. apply filter_In in Hmeta.
    destruct Hmeta as [_ E]. apply String.eqb_eq in E. now symmetry. }
  unfold DatabaseValidator.table_key_of in Hkey.
  destruct (split_dot_key (FeedMetadata.db_name meta) (FeedMetadata.db_table meta))
    as (x & y & Hsplit).
  rewrite <- Hkey in Hsplit.
  exists x, y. split; [exact Hsplit|].
  split; [now apply data_type_names|].
  split; [now apply insert_append_names|].
  split; [now apply count_names|].
  split; [now apply completeness_names|].
  rewrite Hkey in Hsplit.
  destruct (no_dot_prefix _ _ _ _ Hsplit) as [Hx Heq].
  split; [exact Hx|]. split; [now symmetry|].
  split.
  - intros Hplain. rewrite (split_dot_plain _ _ Hplain) in Hsplit.
    inversion Hsplit. split; reflexivity.
  - intros [<- _]. exact Hx.
Qed.

(** X10, witness: the CUSTOMER table of the store sales. *)
Lemma table_key_round_trip_witness :
  exists db_name table_name,
    split_dot "sales.CUSTOMER" = [db_name; table_name]
    /\ db_name = "sales" /\ table_name = "CUSTOMER".
Proof.
  destruct (table_key_round_trip three_rows [customer_id] None
              "sales.CUSTOMER" [customer_id] customer_id)
    as (db & tbl & Hsplit & _ & _ & _ & _ & _ & _ & Hplain).
  - left. reflexivity.
  - left. reflexivity.
  - exists db, tbl. split; [exact Hsplit|]. apply Hplain. reflexivity.
Defined.

(** ** A column declared more than once *)

Lemma expected_schema_snoc metas meta :
  DatabaseValidator.expected_schema_of (metas ++ [meta])
  = dict_set (FeedMetadata.field_name meta) (FeedMetadata.data_type meta)
      (DatabaseValidator.expected_schema_of metas).
Proof.
  unfold DatabaseValidator.expected_schema_of. now rewrite fold_left_app.
Qed.

Lemma expected_schema_get metas name :
  dict_get name (DatabaseValidator.expected_schema_of metas)
  = option_map FeedMetadata.data_type (last_declaration metas name).
Proof.
  unfold last_declaration.
  induction metas as [|meta metas IH] using rev_ind; [reflexivity|].
  rewrite expected_schema_snoc, rev_app_distr. cbn [rev app find].
  destruct (String.eqb (FeedMetadata.field_name meta) name) eqn:E.
  - apply String.eqb_eq in E. subst name. apply dict_get_set_same.
  - rewrite dict_get_set_other; [exact IH|].
    apply String.eqb_neq in E. congruence.
Qed.

Lemma forallb_of_map {A B : Type} (f : B -> bool) (g : A -> B) (l : list A) :
  forallb f (map g l) = forallb (fun a => f (g a)) l.
Proof.
  induction l as [|a l IH]; simpl; [reflexivity|]. now rewrite IH.
Qed.

(** X11. When several records of a table group declare the same column (two
    feeds that load one table), the data-type check compares the actual type
    with the type of the last declaration, and shows as [expected_type] the
    type of the first one. For a table that the store can describe, with
    distinct column names, the column entries of the result are these. *)
Theorem data_type_declared_twice (w : World)
    (table_key : string) (table_metadata : list FeedMetadata)
    (db_name table_name : string) (columns : list ColumnInfo) :
  split_dot table_key = [db_name; table_name] ->
  table_metadata <> [] ->
  inspect_columns w (DatabaseConnector.get_engine db_name) table_name
    = Returns columns ->
  NoDup (map col_name columns) ->
  let validation_passed column_info :=
    match last_declaration table_metadata (col_name column_info) with
    | Some meta =>
        _compare_data_types (upper (col_type column_info))
                            (upper (FeedMetadata.data_type meta))
    | None => false
    end in
  let expected_type column_info :=
    match first_declaration table_metadata (col_name column_info) with
    | Some meta => FeedMetadata.data_type meta
    | None => "Unknown"
    end in
  let r := record_of (DatabaseValidator.data_type_table w table_key table_metadata) in
  dict_get "column_validations" r
  = Some (VList (map (fun column_info =>
                        VDict [ ("column_name", VStr (col_name column_info));
                                ("expected_type", VStr (expected_type column_info));
                                ("validation_passed",
                                 VBool (validation_passed column_info));
                                ("error_message",
                                 if validation_passed column_info then VNone
                                 else VStr ("Data type mismatch for column "
                                              ++ col_name column_info)) ])
                     columns))
  /\ (status_of r = PASS <->
      forall column_info, In column_info columns ->
                          validation_passed column_info = true).
Proof.
  intros Hkey Hne Hcols Hnd validation_passed expected_type r.
  subst r. rewrite (data_type_returns w _ _ _ _ _ Hkey Hne Hcols). cbv zeta.
  rewrite validate_columns_distinct by exact Hnd. cbn [app].
  assert (Hv : forall c, column_accepted table_metadata c = validation_passed c).
  { intros c. unfold column_accepted, validation_passed.
    rewrite expected_schema_get. now destruct (last_declaration _ _). }
  split.
  - unfold DatabaseValidator.data_type_result. cbn [dict_get String.eqb Ascii.eqb Bool.eqb].
    cbn. rewrite map_map. f_equal. f_equal. apply map_ext. intros c.
    cbn [fst snd]. rewrite Hv. reflexivity.
  - rewrite forallb_of_map. unfold DatabaseValidator.data_type_result, status_of. cbn.
    destruct (forallb _ columns) eqn:E.
    + split; [|reflexivity]. intros _ c Hc.
      rewrite forallb_forall in E. rewrite <- Hv. exact (E c Hc).
    + split; [discriminate|]. intros Hall. exfalso.
      apply not_true_iff_false in E. apply E.
      apply forallb_forall. intros c Hc. cbn [snd]. rewrite Hv. now apply Hall.
Qed.

(** X11, witness: ID declared Integer by one feed and Varchar by another,
    for a column that is INTEGER: shown as expected Integer, and failed. *)
Lemma data_type_declared_twice_witness :
  let r := record_of (DatabaseValidator.data_type_table one_null_in_100
                        "sales.CUSTOMER" [customer_id; customer_id_as_text]) in
  dict_get "column_validations" r
  = Some (VList [VDict [ ("column_name", VStr "ID");
                         ("expected_type", VStr "Integer");
                         ("validation_passed", VBool false);
                         ("error_message",
                          VStr "Data type mismatch for column ID") ]]).
Proof.
  apply (data_type_declared_twice one_null_in_100 "sales.CUSTOMER"
           [customer_id; customer_id_as_text] "sales" "CUSTOMER" [id_column false]).
  - reflexivity.
  - discriminate.
  - reflexivity.
  - repeat constructor. intros [].
Defined.

(** ** What a record holds, by its status *)

Ltac no_violation :=
  repeat match goal with
         | H : (0 <? _)%N = false |- _ => apply N.ltb_ge in H
         | H : negb (N.eqb _ _) = false |- _ =>
             apply negb_false_iff, N.eqb_eq in H
         end.

(** X12. The figures of a column record agree with its status. A PASS
    record of the unique check has equal total and distinct counts and 0
    duplicates; of the range check, 0 values below and above, provided the
    two counts it holds add up within a 64-bit integer (their sum, on
    [numpy.int64], wraps beyond); of the enumeration check, 0 invalid
    values; of the nullable check on a mandatory column, 0 nulls. An ERROR
    record of these checks holds the initial figures (0, and no actual
    nullable flag), also when some of its counts had returned before the
    call that raised. *)
Theorem figures_agree_with_status (w : World)
    (enum_lookup : list (string * list string)) (meta : FeedMetadata) :
  let nullable := record_of (DatabaseValidator.nullable_column w meta) in
  let unique := record_of (DatabaseValidator.unique_column w meta) in
  let range := record_of (DatabaseValidator.range_column w meta) in
  let enumeration :=
    record_of (DatabaseValidator.enumeration_column w enum_lookup meta) in
  (status_of nullable = PASS ->
   DatabaseValidator.is_Y (FeedMetadata.mandatory meta) = true ->
   dict_get "null_count" nullable = Some (VInt 0))
  /\ (status_of nullable = ERROR ->
      dict_get "null_count" nullable = Some (VInt 0)
      /\ dict_get "actual_nullable" nullable = Some VNone)
  /\ (status_of unique = PASS ->
      dict_get "total_count" unique = dict_get "distinct_count" unique
      /\ dict_get "duplicate_count" unique = Some (VInt 0))
  /\ (status_of unique = ERROR ->
      dict_get "total_count" unique = Some (VInt 0)
      /\ dict_get "distinct_count" unique = Some (VInt 0)
      /\ dict_get "duplicate_count" unique = Some (VInt 0))
  /\ (status_of range = PASS ->
      forall below above : N,
        dict_get "below_range_count" range = Some (VInt (Z.of_N below)) ->
        dict_get "above_range_count" range = Some (VInt (Z.of_N above)) ->
        fits_int64 (below + above) ->
        below = 0%N /\ above = 0%N)
  /\ (status_of range = ERROR ->
      dict_get "below_range_count" range = Some (VInt 0)
      /\ dict_get "above_range_count" range = Some (VInt 0))
  /\ (status_of enumeration = PASS \/ status_of enumeration = ERROR ->
      dict_get "invalid_count" enumeration = Some (VInt 0)).
Proof.
  cbv zeta.
  assert (Hrange :
    status_of (record_of (DatabaseValidator.range_column w meta)) = PASS
    \/ status_of (record_of (DatabaseValidator.range_column w meta)) = ERROR ->
    dict_get "below_range_count" (record_of (DatabaseValidator.range_column w meta))
      = Some (VInt 0)
    /\ dict_get "above_range_count"
         (record_of (DatabaseValidator.range_column w meta))
       = Some (VInt 0)).
  { unfold DatabaseValidator.range_column. exec.
    all: intros [H|H]; try discriminate H.
    all: try (split; reflexivity).
    all: no_violation; unfold DatabaseValidator.get_or_0 in *; cbn in *.
    all: split; repeat f_equal; lia. }
  split; [|split; [|split; [|split; [|split; [|split]]]]].
  - unfold DatabaseValidator.nullable_column. exec; try discriminate.
    all: intros _ Hy; rewrite Hy in *; cbn [andb] in *; try discriminate.
    all: no_violation; repeat f_equal; lia.
  - unfold DatabaseValidator.nullable_column. exec; try discriminate.
    all: intros _; split; reflexivity.
  - unfold DatabaseValidator.unique_column. exec; try discriminate.
    intros _. no_violation. subst.
    split; [reflexivity|]. repeat f_equal. lia.
  - unfold DatabaseValidator.unique_column. exec; try discriminate.
    all: intros _; repeat split; reflexivity.
  - intros Hpass below above Hb Ha _.
    destruct (Hrange (or_introl Hpass)) as [Hb0 Ha0].
    rewrite Hb0 in Hb. rewrite Ha0 in Ha. inversion Hb. inversion Ha. lia.
  - intros Herror. apply Hrange. now right.
  - unfold DatabaseValidator.enumeration_column.
    destruct (DatabaseValidator.allowed_values_of enum_lookup
                (FeedMetadata.enumeration meta)) eqn:Ha; exec.
    all: intros [H|H]; try discriminate H.
    all: try reflexivity.
    all: no_violation; repeat f_equal; lia.
Qed.

(** ** Selecting feeds *)

Lemma filter_idem {A : Type} (p : A -> bool) (l : list A) :
  filter p (filter p l) = filter p l.
Proof.
  induction l as [|a l IH]; simpl; [reflexivity|].
  destruct (p a) eqn:E; simpl; [rewrite E, IH|]; auto.
Qed.

Lemma filter_comm {A : Type} (p q : A -> bool) (l : list A) :
  filter p (filter q l) = filter q (filter p l).
Proof.
  induction l as [|a l IH]; simpl; [reflexivity|].
  destruct (p a) eqn:Ep; destruct (q a) eqn:Eq; simpl;
    rewrite ?Ep, ?Eq, IH; reflexivity.
Qed.

Lemma select_feeds_idem metadata selected_feeds :
  DatabaseValidator.select_feeds
    (DatabaseValidator.select_feeds metadata selected_feeds) selected_feeds
  = DatabaseValidator.select_feeds metadata selected_feeds.
Proof.
  destruct selected_feeds as [[|f fs]|]; try reflexivity.
  apply filter_idem.
Qed.

Lemma select_feeds_filter (p : FeedMetadata -> bool) metadata selected_feeds :
  DatabaseValidator.select_feeds (filter p metadata) selected_feeds
  = filter p (DatabaseValidator.select_feeds metadata selected_feeds).
Proof.
  destruct selected_feeds as [[|f fs]|]; try reflexivity.
  apply filter_comm.
Qed.

(** X13. A caller that selects the feeds itself before calling a check
    with the same selection (as the test suite does) gets the results of
    the plain call, for each of the eight checks; the same holds when the
    caller also keeps only the unique, the ranged or the enumerated records
    for the unique, the range or the enumeration check. *)
Theorem selecting_beforehand_changes_nothing (w : World)
    (metadata : list FeedMetadata)
    (enumeration_metadata : list EnumerationMetadata)
    (expected_counts : option (list (string * Z)))
    (selected_feeds : option (list string)) :
  let selected := DatabaseValidator.select_feeds metadata selected_feeds in
  let select_from l := DatabaseValidator.select_feeds l selected_feeds in
  DatabaseValidator.validate_data_types w selected selected_feeds
  = DatabaseValidator.validate_data_types w metadata selected_feeds
  /\ DatabaseValidator.validate_nullable_constraints w selected selected_feeds
     = DatabaseValidator.validate_nullable_constraints w metadata selected_feeds
  /\ DatabaseValidator.validate_unique_constraints w selected selected_feeds
     = DatabaseValidator.validate_unique_constraints w metadata selected_feeds
  /\ DatabaseValidator.validate_range_constraints w selected selected_feeds
     = DatabaseValidator.validate_range_constraints w metadata selected_feeds
  /\ DatabaseValidator.validate_enumeration_constraints w selected
       enumeration_metadata selected_feeds
     = DatabaseValidator.validate_enumeration_constraints w metadata
         enumeration_metadata selected_feeds
  /\ DatabaseValidator.validate_insert_append_logic w selected selected_feeds
     = DatabaseValidator.validate_insert_append_logic w metadata selected_feeds
  /\ DatabaseValidator.validate_count_checks w selected expected_counts
       selected_feeds
     = DatabaseValidator.validate_count_checks w metadata expected_counts
         selected_feeds
  /\ DatabaseValidator.validate_completeness_checks w selected selected_feeds
     = DatabaseValidator.validate_completeness_checks w metadata selected_feeds
  /\ DatabaseValidator.validate_unique_constraints w
       (select_from
          (filter (fun meta => DatabaseValidator.is_Y (FeedMetadata.unique meta))
                  metadata))
       selected_feeds
     = DatabaseValidator.validate_unique_constraints w metadata selected_feeds
  /\ DatabaseValidator.validate_range_constraints w
       (select_from
          (filter (fun meta => truthy (FeedMetadata.range_bottom meta)
                               || truthy (FeedMetadata.range_top meta))
                  metadata))
       selected_feeds
     = DatabaseValidator.validate_range_constraints w metadata selected_feeds
  /\ DatabaseValidator.validate_enumeration_constraints w
       (select_from
          (filter (fun meta => truthy (FeedMetadata.enumeration meta)) metadata))
       enumeration_metadata selected_feeds
     = DatabaseValidator.validate_enumeration_constraints w metadata
         enumeration_metadata selected_feeds.
Proof.
  intros selected select_from. subst selected select_from.
  unfold DatabaseValidator.validate_data_types,
    DatabaseValidator.validate_nullable_constraints,
    DatabaseValidator.validate_unique_constraints,
    DatabaseValidator.validate_range_constraints,
    DatabaseValidator.validate_enumeration_constraints,
    DatabaseValidator.validate_insert_append_logic,
    DatabaseValidator.validate_count_checks,
    DatabaseValidator.validate_completeness_checks.
  cbv zeta.
  rewrite !select_feeds_filter, !select_feeds_idem, !filter_idem.
  repeat split; reflexivity.
Qed.

(** ** The engine and the session of a store *)

Lemma lower_upper_ascii (c : ascii) : lower_ascii (upper_ascii c) = lower_ascii c.
Proof. destruct c as [[] [] [] [] [] [] [] []]; reflexivity. Qed.

Lemma lower_upper (s : string) : lower (upper s) = lower s.
Proof.
  unfold lower, upper. induction s as [|c s IH]; cbn [str_map]; [reflexivity|].
  now rewrite lower_upper_ascii, IH.
Qed.

(** X14. Which engine serves a store name written in ASCII. [get_engine]
    and [get_session] both look for server1, then server2, in the name in
    lower case, so the case of the name does not matter; but a name that
    mentions neither is queried on server1 by [get_engine] while
    [get_session] opens its session on server2: the two agree exactly on
    the names that mention a server. *)
Theorem engine_and_session (db_name : string) :
  is_ascii db_name = true ->
  let names1 := str_in "server1" (lower db_name) in
  let names2 := str_in "server2" (lower db_name) in
  (DatabaseConnector.get_engine db_name = server2 <->
   names1 = false /\ names2 = true)
  /\ (get_session db_name = server1 <-> names1 = true)
  /\ (DatabaseConnector.get_engine db_name = get_session db_name <->
      names1 = true \/ names2 = true)
  /\ DatabaseConnector.get_engine (upper db_name)
     = DatabaseConnector.get_engine db_name
  /\ get_session (upper db_name) = get_session db_name.
Proof.
  intros _. cbv zeta. unfold DatabaseConnector.get_engine, get_session.
  rewrite lower_upper.
  destruct (str_in "server1" (lower db_name));
    destruct (str_in "server2" (lower db_name)).
  all: repeat split; try reflexivity; try discriminate; try tauto; auto.
  all: try (intros [? ?]; discriminate).
  all: try (intros [?|?]; discriminate).
Qed.

(** X14, witness: a name in capitals that mentions server2. *)
Lemma engine_and_session_witness :
  DatabaseConnector.get_engine "SALES_SERVER2" = server2
  /\ get_session "SALES_SERVER2" = server2
  /\ DatabaseConnector.get_engine "sales" <> get_session "sales".
Proof.
  destruct (engine_and_session "SALES_SERVER2" eq_refl)
    as (Hengine & _ & Hagree & _).
  destruct (engine_and_session "sales" eq_refl) as (_ & _ & Hsales & _).
  split; [apply Hengine; split; reflexivity|].
  split; [symmetry; apply Hagree; right; reflexivity|].
  intros H. apply Hsales in H. destruct H as [H|H]; discriminate H.
Defined.

(** ** Stripping and splitting *)

Lemma rstrip_cons (c : ascii) (t : string) :
  rstrip (String c t)
  = match rstrip t with
    | EmptyString => if is_space c then EmptyString else String c EmptyString
    | kept => String c kept
    end.
Proof. reflexivity. Qed.

Lemma rstrip_idem (s : string) : rstrip (rstrip s) = rstrip s.
Proof.
  induction s as [|c t IH]; [reflexivity|].
  rewrite rstrip_cons. destruct (rstrip t) as [|d kept] eqn:E.
  - destruct (is_space c) eqn:Ec; [reflexivity|].
    rewrite rstrip_cons. cbn [rstrip]. now rewrite Ec.
  - rewrite rstrip_cons, IH. reflexivity.
Qed.

Lemma rstrip_head (c : ascii) (t : string) :
  is_space c = false -> exists kept, rstrip (String c t) = String c kept.
Proof.
  intros Ec. rewrite rstrip_cons.
  destruct (rstrip t); rewrite ?Ec; eexists; reflexivity.
Qed.

Lemma lstrip_head (s : string) :
  lstrip s = EmptyString
  \/ exists c t, lstrip s = String c t /\ is_space c = false.
Proof.
  induction s as [|c t IH]; [now left|].
  cbn [lstrip]. destruct (is_space c) eqn:Ec; [exact IH|].
  right. now exists c, t.
Qed.

Lemma strip_idem (s : string) : strip (strip s) = strip s.
Proof.
  unfold strip. destruct (lstrip_head s) as [E|(c & t & E & Ec)]; rewrite E.
  - reflexivity.
  - destruct (rstrip_head c t Ec) as [kept Ek]. rewrite Ek.
    cbn [lstrip]. rewrite Ec, <- Ek. apply rstrip_idem.
Qed.

Lemma lstrip_exists (p : ascii -> bool) (s : string) :
  str_exists p (lstrip s) = true -> str_exists p s = true.
Proof.
  induction s as [|c t IH]; [trivial|].
  cbn [lstrip]. destruct (is_space c); [|trivial].
  intros H. cbn [str_exists]. rewrite (IH H). apply orb_true_r.
Qed.

Lemma rstrip_exists (p : ascii -> bool) (s : string) :
  str_exists p (rstrip s) = true -> str_exists p s = true.
Proof.
  induction s as [|c t IH]; [trivial|].
  rewrite rstrip_cons. destruct (rstrip t) as [|d kept].
  - destruct (is_space c); cbn [str_exists]; [discriminate|].
    rewrite orb_false_r. intros ->. reflexivity.
  - cbn [str_exists] in *. intros H. apply orb_true_iff in H.
    destruct H as [H|H]; [now rewrite H|].
    rewrite (IH H). apply orb_true_r.
Qed.

Lemma strip_keeps_out (p : ascii -> bool) (s : string) :
  str_exists p s = false -> str_exists p (strip s) = false.
Proof.
  intros H. destruct (str_exists p (strip s)) eqn:E; [|reflexivity].
  unfold strip in E. apply rstrip_exists, lstrip_exists in E. congruence.
Qed.

Lemma re_split_pieces (s : string) : forall in_run piece,
  In piece (re_split_from in_run s) -> str_exists is_separator piece = false.
Proof.
  induction s as [|c t IH]; intros in_run piece; cbn [re_split_from].
  - intros [<-|[]]. reflexivity.
  - destruct (is_separator c) eqn:Ec.
    + destruct in_run; [apply IH|].
      intros [<-|H]; [reflexivity | exact (IH _ _ H)].
    + destruct (re_split_from false t) as [|p ps] eqn:E.
      * intros [<-|[]]. cbn [str_exists]. now rewrite Ec.
      * intros [<-|H].
        -- cbn [str_exists]. rewrite Ec. apply (IH false). rewrite E. now left.
        -- apply (IH false). rewrite E. now right.
Qed.

Lemma re_split_plain (s : string) :
  str_exists is_separator s = false -> re_split_from false s = [s].
Proof.
  induction s as [|c t IH]; [reflexivity|].
  cbn [str_exists re_split_from]. intros H. apply orb_false_iff in H.
  destruct H as [Hc Ht]. now rewrite Hc, (IH Ht).
Qed.

Lemma split_on_pieces (sep : ascii) (s : string) : forall piece,
  In piece (split_on sep s) ->
  str_exists (fun c => Ascii.eqb c sep) piece = false.
Proof.
  induction s as [|c t IH]; intros piece; cbn [split_on].
  - intros [<-|[]]. reflexivity.
  - destruct (Ascii.eqb c sep) eqn:Ec.
    + intros [<-|H]; [reflexivity | exact (IH _ H)].
    + destruct (split_on sep t) as [|p ps] eqn:E.
      * intros [<-|[]]. cbn [str_exists]. now rewrite Ec.
      * intros [<-|H].
        -- cbn [str_exists]. rewrite Ec. apply IH. now left.
        -- apply IH. now right.
Qed.

Lemma split_on_not_nil (sep : ascii) (s : string) : split_on sep s <> [].
Proof.
  destruct s as [|c t]; cbn [split_on]; [discriminate|].
  destruct (Ascii.eqb c sep); [discriminate|].
  destruct (split_on sep t); discriminate.
Qed.

Lemma is_empty_false (s : string) : is_empty s = false <-> s <> EmptyString.
Proof. destruct s; simpl; split; congruence. Qed.

(** X15. The feed list that the reader stores beside a raw feed string
    written in ASCII: every file name in it is not empty, has no white
    space at either end and holds no separator (comma, bar, semicolon); and
    a raw string without separator gives the one name it holds, stripped,
    or no name when it is blank. *)
Theorem feed_list_is_clean (feed_raw : string) :
  is_ascii feed_raw = true ->
  (forall f, In f (parse_feed_list feed_raw) ->
     f <> EmptyString
     /\ strip f = f
     /\ str_exists is_separator f = false)
  /\ (str_exists is_separator feed_raw = false ->
      parse_feed_list feed_raw
      = if is_empty (strip feed_raw) then [] else [strip feed_raw]).
Proof.
  intros _. unfold parse_feed_list, re_split. split.
  - intros f Hf. apply in_map_iff in Hf. destruct Hf as (piece & <- & Hin).
    apply filter_In in Hin. destruct Hin as [Hin Hne].
    apply negb_true_iff, is_empty_false in Hne.
    split; [exact Hne|]. split; [apply strip_idem|].
    apply strip_keeps_out. exact (re_split_pieces _ _ _ Hin).
  - intros Hplain. rewrite (re_split_plain _ Hplain). cbn [filter].
    now destruct (is_empty (strip feed_raw)).
Qed.

(** X15, witness: a raw string without separator. *)
Lemma feed_list_is_clean_witness :
  parse_feed_list " customers.csv " = ["customers.csv"].
Proof.
  apply (proj2 (feed_list_is_clean " customers.csv " eq_refl)). reflexivity.
Defined.

(** ** Feeds named on the command line *)

(** X16. The feeds of the option [--feeds] against the raw feed string of a
    record. When the option is given, written in ASCII, a record is selected
    exactly when its raw feed string is one of the names of the option, cut
    at the commas and stripped. Hence a selected record has a raw feed string without comma
    and without white space at either end: a record that lists several
    files separated by commas is never selected, by none of its files. *)
Theorem feeds_option_selects (feeds : string) (metadata : list FeedMetadata)
    (meta : FeedMetadata) :
  feeds <> EmptyString ->
  is_ascii feeds = true ->
  let selection := selected_feeds (Some feeds) in
  (In meta (DatabaseValidator.select_feeds metadata selection) <->
   In meta metadata
   /\ In (FeedMetadata.feed meta) (map strip (split_on "," feeds)))
  /\ (In meta (DatabaseValidator.select_feeds metadata selection) ->
      strip (FeedMetadata.feed meta) = FeedMetadata.feed meta
      /\ str_exists (fun c => Ascii.eqb c ",") (FeedMetadata.feed meta) = false).
Proof.
  intros Hne _ selection.
  assert (Hsel : In meta (DatabaseValidator.select_feeds metadata selection) <->
                 In meta metadata
                 /\ In (FeedMetadata.feed meta) (map strip (split_on "," feeds))).
  { subst selection. unfold selected_feeds, truthy, opt_str.
    apply String.eqb_neq in Hne. rewrite Hne. cbn [negb].
    unfold DatabaseValidator.select_feeds.
    destruct (map strip (split_on "," feeds)) as [|f fs] eqn:E.
    - apply map_eq_nil in E. now apply split_on_not_nil in E.
    - rewrite filter_In, str_mem_In. reflexivity. }
  split; [exact Hsel|].
  intros Hin. apply Hsel in Hin. destruct Hin as [_ Hin].
  apply in_map_iff in Hin. destruct Hin as (piece & <- & Hpiece).
  split; [apply strip_idem|].
  apply strip_keeps_out. exact (split_on_pieces _ _ _ Hpiece).
Qed.

(** X16, witness: the option names the two files of a record one by one. *)
Lemma feeds_option_selects_witness :
  let meta :=
    FeedMetadata.mk "CRM" "customers.csv, customers_delta.csv"
      ["customers.csv"; "customers_delta.csv"] "ID" "sales" "CUSTOMER"
      "Integer" "N" "Insert" None None None None "Y" "Y" in
  ~ In meta (DatabaseValidator.select_feeds [meta]
               (selected_feeds (Some "customers.csv, customers_delta.csv"))).
Proof.
  intros meta Hin.
  destruct (feeds_option_selects "customers.csv, customers_delta.csv" [meta] meta)
    as [_ Hclean].
  - discriminate.
  - reflexivity.
  - destruct (Hclean Hin) as [_ Hcomma]. discriminate Hcomma.
Defined.

(** ** The metadata reader *)

Section Loading.
Variable A : Type.
Variable keep : list Cell -> option A.

Lemma load_rows_kept rs : forall loaded : list A,
  fold_left (fun loaded row =>
               match keep row with
               | Some record => (loaded ++ [record])%list
               | None => loaded
               end)
            rs loaded
  = (loaded ++ kept_of keep rs)%list.
Proof.
  induction rs as [|row rest IH]; intros loaded; cbn [fold_left kept_of].
  - now rewrite app_nil_r.
  - rewrite IH. destruct (keep row); [|reflexivity].
    now rewrite <- app_assoc.
Qed.

Lemma kept_of_length rs : (List.length (kept_of keep rs) <= List.length rs)%nat.
Proof.
  induction rs as [|row rest IH]; cbn [kept_of List.length]; [lia|].
  destruct (keep row); cbn [List.length]; lia.
Qed.

Lemma kept_of_in rs record :
  In record (kept_of keep rs) <-> exists row, In row rs /\ keep row = Some record.
Proof.
  induction rs as [|row rest IH]; cbn [kept_of].
  - split; [intros [] | intros (? & [] & _)].
  - destruct (keep row) as [r|] eqn:E; cbn [In]; rewrite IH; split.
    + intros [<-|(row' & Hin & Hk)]; [exists row | exists row']; auto.
    + intros (row' & [<-|Hin] & Hk); [left; congruence | right; eauto].
    + intros (row' & Hin & Hk). exists row'. auto.
    + intros (row' & [<-|Hin] & Hk); [congruence | eauto].
Qed.

End Loading.

Lemma is_Y_nan : DatabaseValidator.is_Y "nan" = false.
Proof. reflexivity. Qed.

Lemma is_Y_N : DatabaseValidator.is_Y "N" = false.
Proof. reflexivity. Qed.

Lemma index_of_none label labels :
  ~ In label labels -> index_of label labels = None.
Proof.
  induction labels as [|l rest IH]; cbn [index_of In]; [reflexivity|].
  intros H. destruct (String.eqb l label) eqn:E.
  - apply String.eqb_eq in E. tauto.
  - rewrite IH; tauto.
Qed.

Lemma row_get_missing labels row label :
  ~ In label labels -> row_get labels row label = None.
Proof. intros H. unfold row_get. now rewrite index_of_none. Qed.

(** A flag read from a cell says Y only when the cell does. *)
Lemma flag_from_cell (x : option Cell) :
  DatabaseValidator.is_Y (str_cell x "N") = true ->
  exists s, x = Some (Text s) /\ DatabaseValidator.is_Y s = true.
Proof.
  destruct x as [[|s]|]; cbn [str_cell].
  - rewrite is_Y_nan. discriminate.
  - intros H. now exists s.
  - rewrite is_Y_N. discriminate.
Qed.

(** An optional field is given only by a cell with a text that is not
    empty. *)
Lemma option_from_cell (x : option Cell) :
  truthy (opt_cell x) = true ->
  exists s, x = Some (Text s) /\ s <> EmptyString /\ opt_cell x = Some s.
Proof.
  destruct x as [[|s]|]; unfold opt_cell; cbn [notna isna negb truthy str_cell];
    try discriminate.
  intros H. exists s. apply negb_true_iff, String.eqb_neq in H. auto.
Qed.

Lemma kept_of_named labels rs :
  map (fun meta => (FeedMetadata.modules meta, FeedMetadata.feed meta))
      (kept_of (MetadataReader.feed_row labels) rs)
  = named_rows labels rs.
Proof.
  unfold named_rows.
  induction rs as [|row rest IH]; cbn [kept_of flat_map map]; [reflexivity|].
  unfold MetadataReader.feed_row at 1. cbv zeta.
  destruct (row_get labels row "Modules") as [[|m]|];
    cbn [isna orb app]; try exact IH.
  destruct (row_get labels row "Feed") as [[|f]|];
    cbn [isna orb app]; try exact IH.
  cbn [map FeedMetadata.modules FeedMetadata.feed str_cell app]. now rewrite IH.
Qed.

(** X17. Loading a feed sheet whose column labels are written in ASCII and
    differ once stripped. The records already loaded stay; the rows that
    have both a Modules and a Feed cell follow them, one record each, in the
    order of the sheet, with the texts of these two cells; the other rows
    are skipped without an error, and so is every row when the sheet has no
    column Modules or no column Feed (labels compared once stripped). A
    record holds, for each field, the text of the cell of its column, the
    default when the sheet has no such column, and the text nan for a blank
    cell; so its Unique and Mandatory flags say Y only when the cell does,
    and it has a range bound or an enumeration only from a cell that is not
    blank. Its feed list is the clean list of its raw feed, when that is
    written in ASCII. *)
Theorem feed_sheet_loading (df : DataFrame) (feed_metadata : list FeedMetadata) :
  let labels := map strip (columns df) in
  let new := kept_of (MetadataReader.feed_row labels) (rows df) in
  forallb is_ascii (columns df) = true ->
  NoDup labels ->
  MetadataReader._load_feed_metadata (Some df) feed_metadata
  = (feed_metadata ++ new)%list
  /\ map (fun meta => (FeedMetadata.modules meta, FeedMetadata.feed meta)) new
     = named_rows labels (rows df)
  /\ (List.length new <= List.length (rows df))%nat
  /\ (~ In "Modules" labels \/ ~ In "Feed" labels -> new = [])
  /\ (forall meta, In meta new ->
        exists row,
          let cell := row_get labels row in
          In row (rows df)
          /\ cell "Modules" = Some (Text (FeedMetadata.modules meta))
          /\ cell "Feed" = Some (Text (FeedMetadata.feed meta))
          /\ (is_ascii (FeedMetadata.feed meta) = true ->
              FeedMetadata.feed_list meta = parse_feed_list (FeedMetadata.feed meta))
          /\ FeedMetadata.field_name meta = str_cell (cell "FieldName") EmptyString
          /\ FeedMetadata.db_name meta = str_cell (cell "DBName") EmptyString
          /\ FeedMetadata.db_table meta = str_cell (cell "DB Table") EmptyString
          /\ FeedMetadata.data_type meta = str_cell (cell "DataType") EmptyString
          /\ FeedMetadata.nullable meta = str_cell (cell "Nullable") "N"
          /\ FeedMetadata.request meta = str_cell (cell "Request") "Insert"
          /\ FeedMetadata.mandatory meta = str_cell (cell "Mandatory") "N"
          /\ FeedMetadata.unique meta = str_cell (cell "Unique") "N"
          /\ FeedMetadata.default meta = opt_cell (cell "Default")
          /\ FeedMetadata.enumeration meta = opt_cell (cell "Enumeration")
          /\ FeedMetadata.range_bottom meta = opt_cell (cell "RangeBottom")
          /\ FeedMetadata.range_top meta = opt_cell (cell "RangeTop")
          /\ (DatabaseValidator.is_Y (FeedMetadata.unique meta) = true ->
              exists s, cell "Unique" = Some (Text s)
                        /\ DatabaseValidator.is_Y s = true)
          /\ (DatabaseValidator.is_Y (FeedMetadata.mandatory meta) = true ->
              exists s, cell "Mandatory" = Some (Text s)
                        /\ DatabaseValidator.is_Y s = true)
          /\ (truthy (FeedMetadata.range_bottom meta) = true ->
              exists s, cell "RangeBottom" = Some (Text s) /\ s <> EmptyString)
          /\ (truthy (FeedMetadata.range_top meta) = true ->
              exists s, cell "RangeTop" = Some (Text s) /\ s <> EmptyString)
          /\ (truthy (FeedMetadata.enumeration meta) = true ->
              exists s, cell "Enumeration" = Some (Text s) /\ s <> EmptyString)).
Proof.
  intros labels new _ _. subst new.
  split; [apply load_rows_kept|].
  split; [apply kept_of_named|].
  split; [apply kept_of_length|].
  split.
  - intros Hmissing.
    assert (Hskip : forall row, MetadataReader.feed_row labels row = None).
    { intros row. unfold MetadataReader.feed_row. cbv zeta.
      destruct Hmissing as [H|H]; rewrite (row_get_missing _ _ _ H);
        cbn [isna orb]; [reflexivity | now rewrite orb_true_r]. }
    induction (rows df) as [|row rest IH]; cbn [kept_of]; [reflexivity|].
    now rewrite Hskip.
  - intros meta Hin. apply kept_of_in in Hin. destruct Hin as (row & Hrow & Hkeep).
    exists row. cbv zeta. split; [exact Hrow|].
    unfold MetadataReader.feed_row in Hkeep. cbv zeta in Hkeep.
    destruct (row_get labels row "Modules") as [[|m]|] eqn:Em;
      cbn [isna orb] in Hkeep; try discriminate.
    destruct (row_get labels row "Feed") as [[|f]|] eqn:Ef;
      cbn [isna orb] in Hkeep; try discriminate.
    inversion Hkeep. subst meta. clear Hkeep.
    cbn [FeedMetadata.modules FeedMetadata.feed FeedMetadata.feed_list
         FeedMetadata.field_name FeedMetadata.db_name FeedMetadata.db_table
         FeedMetadata.data_type FeedMetadata.nullable FeedMetadata.request
         FeedMetadata.default
         FeedMetadata.unique FeedMetadata.mandatory FeedMetadata.range_bottom
         FeedMetadata.range_top FeedMetadata.enumeration str_cell].
    repeat match goal with |- _ /\ _ => split end; try reflexivity.
    + intros Hy. exact (flag_from_cell _ Hy).
    + intros Hy. exact (flag_from_cell _ Hy).
    + intros Ht. destruct (option_from_cell _ Ht) as (s & Hs & Hne & _). eauto.
    + intros Ht. destruct (option_from_cell _ Ht) as (s & Hs & Hne & _). eauto.
    + intros Ht. destruct (option_from_cell _ Ht) as (s & Hs & Hne & _). eauto.
Qed.

(** X17, witness: the sample sheet, whose second row has no feed. *)
Lemma feed_sheet_loading_witness :
  map (fun meta => (FeedMetadata.modules meta, FeedMetadata.feed meta))
      (MetadataReader._load_feed_metadata (Some sample_sheet) [])
  = [ ("CRM", "customers.csv, customers_delta.csv"); ("CRM", "customers.csv") ].
Proof.
  destruct (feed_sheet_loading sample_sheet []) as (Hloaded & Hnamed & _).
  - reflexivity.
  - repeat constructor; cbn; intuition discriminate.
  - rewrite Hloaded. cbn [app]. rewrite Hnamed. reflexivity.
Defined.

(** ** The values of an enumeration *)

Lemma collect_values name catalog : forall values : list string,
  fold_left (fun values meta =>
               if String.eqb (EnumerationMetadata.enumeration_name meta) name
               then (values ++ [EnumerationMetadata.enum_values meta])%list
               else values)
            catalog values
  = (values
     ++ map EnumerationMetadata.enum_values
          (filter (fun em =>
                     String.eqb (EnumerationMetadata.enumeration_name em) name)
                  catalog))%list.
Proof.
  induction catalog as [|em rest IH]; intros values; cbn [fold_left filter map].
  - now rewrite app_nil_r.
  - rewrite IH.
    destruct (String.eqb (EnumerationMetadata.enumeration_name em) name);
      cbn [map]; [now rewrite <- app_assoc | reflexivity].
Qed.

Lemma get_enumeration_values_filter catalog name :
  MetadataReader.get_enumeration_values catalog name
  = map EnumerationMetadata.enum_values
        (filter (fun em => String.eqb (EnumerationMetadata.enumeration_name em) name)
                catalog).
Proof.
  unfold MetadataReader.get_enumeration_values. now rewrite collect_values.
Qed.

Lemma kept_of_filter_map {A B : Type} (keep : list Cell -> option A)
    (p : A -> bool) (f : A -> B) (q : list Cell -> bool) (g : list Cell -> B)
    (rs : list (list Cell)) :
  (forall row, match keep row with
               | Some a => q row = p a /\ (p a = true -> g row = f a)
               | None => q row = false
               end) ->
  map f (filter p (kept_of keep rs)) = map g (filter q rs).
Proof.
  intros H. induction rs as [|row rest IH]; cbn [kept_of filter map]; [reflexivity|].
  specialize (H row). destruct (keep row) as [a|].
  - destruct H as [Hq Hg]. cbn [filter]. rewrite Hq.
    destruct (p a); cbn [map]; [rewrite IH, (Hg eq_refl)|]; auto.
  - rewrite H. exact IH.
Qed.

(** X18. The values of an enumeration. The reader's [get_enumeration_values]
    and the lookup that the enumeration check builds for itself give the
    same list for every name and every catalog. For a catalog loaded from a
    sheet whose column labels are written in ASCII and differ once stripped,
    that list holds the EnumValues cells of the rows whose EnumerationName
    cell is the name, in the order of the sheet, a blank value cell giving
    the value nan; rows without a name are skipped. *)
Theorem enumeration_values_agree (df : DataFrame)
    (enumeration_metadata : list EnumerationMetadata) (enum_name : string) :
  let labels := map strip (columns df) in
  let loaded := MetadataReader._load_enumeration_metadata (Some df) [] in
  MetadataReader.get_enumeration_values enumeration_metadata enum_name
  = DatabaseValidator.allowed_values_of
      (DatabaseValidator.enum_lookup_of enumeration_metadata) (Some enum_name)
  /\ (forallb is_ascii (columns df) = true ->
      NoDup labels ->
      MetadataReader.get_enumeration_values loaded enum_name
      = map (fun row => str_cell (row_get labels row "EnumValues") EmptyString)
            (filter (fun row =>
                       match row_get labels row "EnumerationName" with
                       | Some (Text s) => String.eqb s enum_name
                       | _ => false
                       end)
                    (rows df))).
Proof.
  cbv zeta. split.
  - now rewrite get_enumeration_values_filter, allowed_values_catalog.
  - intros _ _. unfold MetadataReader._load_enumeration_metadata. cbv zeta.
    rewrite load_rows_kept. cbn [app].
    rewrite get_enumeration_values_filter.
    apply kept_of_filter_map. intros row.
    unfold MetadataReader.enumeration_row. cbv zeta.
    destruct (row_get (map strip (columns df)) row "EnumerationName")
      as [[|s]|]; cbn [isna]; try reflexivity.
    cbn [EnumerationMetadata.enumeration_name EnumerationMetadata.enum_values
         str_cell].
    split; reflexivity.
Qed.

(** X18, witness: the values of CustomerStatus in the sample enumeration
    sheet. *)
Lemma enumeration_values_agree_witness :
  MetadataReader.get_enumeration_values
    (MetadataReader._load_enumeration_metadata (Some enumeration_sheet) [])
    "CustomerStatus"
  = ["ACTIVE"; "CLOSED"].
Proof.
  destruct (enumeration_values_agree enumeration_sheet [] "CustomerStatus")
    as [_ Hsheet].
  rewrite Hsheet.
  - reflexivity.
  - reflexivity.
  - repeat constructor; cbn; intuition discriminate.
Defined.

(** ** The report *)

Module Import Report.
Import ReportGenerator.

Lemma count_in_nil name r :
  count_in name r [] = [(name, count (counted_status r) no_test)].
Proof.
  unfold count_in, dict_has. cbn [dict_get negb dict_set].
  rewrite String.eqb_refl. reflexivity.
Qed.

Lemma count_in_cons name r k t rest :
  count_in name r ((k, t) :: rest)
  = if String.eqb k name then (k, count (counted_status r) t) :: rest
    else (k, t) :: count_in name r rest.
Proof.
  unfold count_in, dict_has. cbn [dict_get].
  destruct (String.eqb k name) eqn:E.
  - cbn [negb dict_get dict_set]. rewrite E. reflexivity.
  - destruct (dict_get name rest) as [t'|] eqn:G; cbn [negb dict_set dict_get];
      rewrite E; cbn [dict_set dict_get]; rewrite ?E, ?G; reflexivity.
Qed.

Lemma sum_of_cons counter k (t : Tally) rest :
  sum_of counter ((k, t) :: rest) = (counter t + sum_of counter rest)%nat.
Proof. reflexivity. Qed.

Lemma count_in_sum counter name r groups :
  additive counter ->
  sum_of counter (count_in name r groups)
  = (sum_of counter groups + adds counter r)%nat.
Proof.
  intros Hadd. unfold adds.
  induction groups as [|[k t] rest IH].
  - rewrite count_in_nil. cbn. lia.
  - rewrite count_in_cons. destruct (String.eqb k name).
    + rewrite !sum_of_cons, Hadd. lia.
    + rewrite !sum_of_cons, IH. lia.
Qed.

Lemma count_in_keys name r groups :
  map fst (count_in name r groups)
  = if str_mem name (map fst groups) then map fst groups
    else (map fst groups ++ [name])%list.
Proof.
  unfold str_mem.
  induction groups as [|[k t] rest IH].
  - rewrite count_in_nil. reflexivity.
  - rewrite count_in_cons. cbn [map fst existsb app].
    rewrite (String.eqb_sym name k).
    destruct (String.eqb k name); cbn [map fst orb]; [reflexivity|].
    rewrite IH. now destruct (existsb (String.eqb name) (map fst rest)).
Qed.

Lemma count_balanced status tally :
  balanced tally \/ tally = no_test -> balanced (count status tally).
Proof.
  unfold balanced, count.
  intros [[Hsum Hpos]| ->];
    destruct (is_str status "PASS"); [| destruct (is_str status "FAIL") | |
    destruct (is_str status "FAIL")]; cbn; lia.
Qed.

Lemma count_in_balanced name r groups :
  Forall balanced (map snd groups) ->
  Forall balanced (map snd (count_in name r groups)).
Proof.
  induction groups as [|[k t] rest IH]; intros H.
  - rewrite count_in_nil. repeat constructor; apply count_balanced; now right.
  - rewrite count_in_cons. cbn [map snd] in H. inversion H as [|? ? Ht Hrest].
    destruct (String.eqb k name); cbn [map snd]; constructor; auto.
    apply count_balanced. now left.
Qed.

Lemma additive_total : additive total.
Proof.
  intros s t. unfold count.
  destruct (is_str s "PASS"); [|destruct (is_str s "FAIL")]; cbn; lia.
Qed.

Lemma additive_passed : additive passed.
Proof.
  intros s t. unfold count.
  destruct (is_str s "PASS"); [|destruct (is_str s "FAIL")]; cbn; lia.
Qed.

Lemma additive_failed : additive failed.
Proof.
  intros s t. unfold count.
  destruct (is_str s "PASS"); [|destruct (is_str s "FAIL")]; cbn; lia.
Qed.

Lemma additive_errors : additive errors.
Proof.
  intros s t. unfold count.
  destruct (is_str s "PASS"); [|destruct (is_str s "FAIL")]; cbn; lia.
Qed.

Lemma tests_cons counter r rest :
  tests counter (r :: rest) = (adds counter r + tests counter rest)%nat.
Proof. reflexivity. Qed.

(** The loop of a grouping, from the groups [groups0]. *)
Lemma grouping key (rs : list Dict) : forall groups0 groups,
  fold_left (fun groups result =>
               match groups, label result key "Unknown" with
               | Some groups, Some name => Some (count_in name result groups)
               | _, _ => None
               end)
            rs (Some groups0) = Some groups ->
  (forall counter, additive counter ->
     sum_of counter groups = (sum_of counter groups0 + tests counter rs)%nat)
  /\ (NoDup (map fst groups0) -> NoDup (map fst groups))
  /\ (Forall balanced (map snd groups0) -> Forall balanced (map snd groups))
  /\ (forall name, In name (map fst groups) ->
        In name (map fst groups0)
        \/ exists r, In r rs /\ label r key "Unknown" = Some name)
  /\ Forall (fun r => label r key "Unknown" <> None) rs.
Proof.
  induction rs as [|r rest IH]; intros groups0 groups; cbn [fold_left].
  - intros H. inversion H. subst.
    split; [intros counter _; cbn; lia|]. repeat split; auto.
  - destruct (label r key "Unknown") as [name|] eqn:El.
    + intros H. destruct (IH _ _ H) as (Hsum & Hnd & Hbal & Hkeys & Hlab).
      split; [|split; [|split; [|split]]].
      * intros counter Hadd.
        rewrite (Hsum counter Hadd), count_in_sum, tests_cons by exact Hadd. lia.
      * intros H0. apply Hnd. rewrite count_in_keys.
        destruct (str_mem name (map fst groups0)) eqn:E; [exact H0|].
        apply NoDup_app; [exact H0 | repeat constructor; tauto |].
        intros k Hk [<-|[]]. apply str_mem_In in Hk. congruence.
      * intros H0. apply Hbal. now apply count_in_balanced.
      * intros k Hk. destruct (Hkeys k Hk) as [Hin|(r' & Hr' & Hl)].
        -- rewrite count_in_keys in Hin.
           destruct (str_mem name (map fst groups0)); [now left|].
           apply in_app_iff in Hin. destruct Hin as [Hin|[<-|[]]]; [now left|].
           right. exists r. split; [now left | exact El].
        -- right. exists r'. split; [now right | exact Hl].
      * constructor; [congruence | exact Hlab].
    + intros H. exfalso. clear -H.
      induction rest as [|r' rest IH]; cbn [fold_left] in H; [discriminate|].
      exact (IH H).
Qed.

Lemma grouping_defined key (rs : list Dict) : forall groups0,
  Forall (fun r => label r key "Unknown" <> None) rs ->
  exists groups,
    fold_left (fun groups result =>
                 match groups, label result key "Unknown" with
                 | Some groups, Some name => Some (count_in name result groups)
                 | _, _ => None
                 end)
              rs (Some groups0) = Some groups.
Proof.
  induction rs as [|r rest IH]; intros groups0 H; cbn [fold_left].
  - now exists groups0.
  - inversion H as [|? ? Hr Hrest]. subst.
    destruct (label r key "Unknown") as [name|]; [|congruence].
    now apply IH.
Qed.

Lemma tests_total rs : tests total rs = List.length rs.
Proof.
  induction rs as [|r rest IH]; [reflexivity|].
  rewrite tests_cons, IH. cbn [List.length]. unfold adds, count.
  destruct (is_str _ "PASS"); [|destruct (is_str _ "FAIL")]; reflexivity.
Qed.

Lemma is_str_counted r s :
  s <> "ERROR" ->
  is_str (counted_status r) s = is_str (get r "validation_status") s.
Proof.
  intros Hs. unfold counted_status, get_or, get.
  destruct (dict_get "validation_status" r); [reflexivity|].
  cbn [is_str]. apply String.eqb_neq. congruence.
Qed.

Lemma tests_passed rs : tests passed rs = having "PASS" rs.
Proof.
  unfold having.
  induction rs as [|r rest IH]; [reflexivity|].
  rewrite tests_cons, IH. cbn [filter]. unfold adds, count.
  rewrite <- (is_str_counted r "PASS") by discriminate.
  destruct (is_str (counted_status r) "PASS");
    [|destruct (is_str _ "FAIL")]; reflexivity.
Qed.

Lemma is_str_one v s t : is_str v s = true -> s <> t -> is_str v t = false.
Proof.
  destruct v; cbn [is_str]; try discriminate.
  intros E Hst. apply String.eqb_eq in E. subst. now apply String.eqb_neq.
Qed.

Lemma tests_failed rs : tests failed rs = having "FAIL" rs.
Proof.
  unfold having.
  induction rs as [|r rest IH]; [reflexivity|].
  rewrite tests_cons, IH. cbn [filter]. unfold adds, count.
  rewrite <- (is_str_counted r "FAIL") by discriminate.
  destruct (is_str (counted_status r) "PASS") eqn:Ep.
  - rewrite (is_str_one _ _ "FAIL" Ep) by discriminate. reflexivity.
  - destruct (is_str _ "FAIL"); reflexivity.
Qed.

Lemma tests_errors rs :
  (having "ERROR" rs <= tests errors rs)%nat
  /\ (Forall settled rs -> tests errors rs = having "ERROR" rs).
Proof.
  unfold having.
  induction rs as [|r rest [IHle IHeq]].
  - split; [cbn; lia | reflexivity].
  - rewrite tests_cons. cbn [filter].
    assert (Hr : if is_str (get r "validation_status") "ERROR"
                 then adds errors r = 1%nat
                 else (settled r -> adds errors r = 0%nat)).
    { unfold adds, count, counted_status, get_or, get, settled, status_of,
        PASS, FAIL, ERROR.
      destruct (dict_get "validation_status" r) as [[| | | |s| | |]|];
        cbn [is_str]; try reflexivity;
        try (intros [H|[H|H]]; discriminate H).
      destruct (String.eqb s "ERROR") eqn:Ee.
      - apply String.eqb_eq in Ee. subst. reflexivity.
      - intros [H|[H|H]]; inversion H; subst; try reflexivity.
        discriminate. }
    destruct (is_str (get r "validation_status") "ERROR"); cbn [List.length].
    + rewrite Hr. split; [lia|]. intros H. inversion H. subst.
      rewrite IHeq by assumption. reflexivity.
    + split; [lia|]. intros H. inversion H as [|? ? Hs Hrest]. subst.
      rewrite (Hr Hs), IHeq by assumption. reflexivity.
Qed.

Lemma having_settled rs :
  (having "PASS" rs + having "FAIL" rs + having "ERROR" rs <= List.length rs)%nat
  /\ (Forall settled rs ->
      (having "PASS" rs + having "FAIL" rs + having "ERROR" rs)%nat
      = List.length rs).
Proof.
  destruct (tests_errors rs) as [Hle Heq].
  assert (Hall : (tests passed rs + tests failed rs + tests errors rs)%nat
                 = tests total rs).
  { clear. induction rs as [|r rest IH]; [reflexivity|].
    rewrite !tests_cons, <- IH. unfold adds, count.
    destruct (is_str _ "PASS"); [|destruct (is_str _ "FAIL")]; cbn; lia. }
  rewrite tests_passed, tests_failed, tests_total in Hall.
  split; [lia|]. intros H. rewrite <- (Heq H). exact Hall.
Qed.

Lemma group_by_agrees key rs groups data :
  group_by key rs = Some groups ->
  total_tests data = List.length rs ->
  passed_tests data = having "PASS" rs ->
  failed_tests data = having "FAIL" rs ->
  error_tests data = having "ERROR" rs ->
  agrees data groups
  /\ (Forall settled rs -> sum_of errors groups = error_tests data).
Proof.
  intros Hg Ht Hp Hf He. unfold group_by in Hg.
  destruct (grouping _ _ _ _ Hg) as (Hsum & Hnd & Hbal & _ & _).
  unfold agrees. rewrite Ht, Hp, Hf, He.
  rewrite (Hsum total additive_total), (Hsum passed additive_passed),
    (Hsum failed additive_failed), (Hsum errors additive_errors).
  cbn [sum_of fold_right plus].
  rewrite tests_total, tests_passed, tests_failed.
  destruct (tests_errors rs) as [Hle Heq].
  repeat split; auto.
  all: first [apply Hnd | apply Hbal]; constructor.
Qed.

End Report.

(** X19. The figures of the report summary. Whenever the summary is made,
    the total is the number of results; in the grouping by validation type
    and in the grouping by feed, no name comes twice, no group is empty, the
    counters of a group add up to its total, and over the groups the
    totals, the passed and the failed add up to the headline figures. A
    result whose status is missing, or is none of PASS, FAIL and ERROR,
    counts as an error in its groups and in no headline figure: the
    headline passed, failed and errors add up to the total at most, and the
    headline errors to the errors of the groups at most, with equality when
    every result has one of the three statuses. *)
Theorem report_figures (test_results : list Dict)
    (data : ReportGenerator.ReportData) :
  ReportGenerator._prepare_report_data test_results = Some data ->
  ReportGenerator.total_tests data = List.length test_results
  /\ agrees data (ReportGenerator.validation_types data)
  /\ agrees data (ReportGenerator.feed_results data)
  /\ (ReportGenerator.passed_tests data + ReportGenerator.failed_tests data
      + ReportGenerator.error_tests data
      <= ReportGenerator.total_tests data)%nat
  /\ (Forall settled test_results ->
      (ReportGenerator.passed_tests data + ReportGenerator.failed_tests data
       + ReportGenerator.error_tests data)%nat
      = ReportGenerator.total_tests data
      /\ sum_of ReportGenerator.errors (ReportGenerator.validation_types data)
         = ReportGenerator.error_tests data
      /\ sum_of ReportGenerator.errors (ReportGenerator.feed_results data)
         = ReportGenerator.error_tests data).
Proof.
  unfold ReportGenerator._prepare_report_data. cbv zeta.
  destruct (ReportGenerator.group_by "validation_type" test_results)
    as [types|] eqn:Et; [|discriminate].
  destruct (ReportGenerator.group_by "feed_name" test_results)
    as [feeds|] eqn:Ef; [|discriminate].
  intros H. inversion H. subst data. clear H.
  cbn [ReportGenerator.total_tests ReportGenerator.passed_tests
       ReportGenerator.failed_tests ReportGenerator.error_tests
       ReportGenerator.validation_types ReportGenerator.feed_results].
  destruct (group_by_agrees _ _ _
              (ReportGenerator.mkReportData (List.length test_results)
                 (ReportGenerator.having "PASS" test_results)
                 (ReportGenerator.having "FAIL" test_results)
                 (ReportGenerator.having "ERROR" test_results) types feeds)
              Et eq_refl eq_refl eq_refl eq_refl) as [Ht Hte].
  destruct (group_by_agrees _ _ _
              (ReportGenerator.mkReportData (List.length test_results)
                 (ReportGenerator.having "PASS" test_results)
                 (ReportGenerator.having "FAIL" test_results)
                 (ReportGenerator.having "ERROR" test_results) types feeds)
              Ef eq_refl eq_refl eq_refl eq_refl) as [Hf Hfe].
  destruct (having_settled test_results) as [Hle Heq].
  split; [reflexivity|]. split; [exact Ht|]. split; [exact Hf|].
  split; [exact Hle|].
  intros Hs. split; [exact (Heq Hs)|]. split; [exact (Hte Hs) | exact (Hfe Hs)].
Qed.

(** X19, witness: a result with an unknown status and no feed is an error
    of its groups, under the feed Unknown, and of no headline figure. *)
Lemma report_figures_witness :
  ReportGenerator._prepare_report_data collected_results = Some collected_summary
  /\ agrees collected_summary (ReportGenerator.feed_results collected_summary)
  /\ (ReportGenerator.passed_tests collected_summary
      + ReportGenerator.failed_tests collected_summary
      + ReportGenerator.error_tests collected_summary
      <= ReportGenerator.total_tests collected_summary)%nat.
Proof.
  destruct (report_figures collected_results collected_summary)
    as (_ & _ & Hfeeds & Hle & _).
  - reflexivity.
  - split; [reflexivity|]. split; [exact Hfeeds | exact Hle].
Defined.

(** ** The report of the eight checks *)

Lemma Forall_checked validation_type keys (results : list Dict) :
  In validation_type check_names ->
  Forall (well_formed validation_type keys) results ->
  Forall checked results.
Proof.
  intros Hin. apply Forall_impl. intros r Hr. now exists validation_type, keys.
Qed.

Lemma checked_all (w : World) metadata enumeration_metadata expected_counts
    selected_feeds :
  Forall checked
    (all_checks w metadata enumeration_metadata expected_counts selected_feeds).
Proof.
  destruct (checks_well_formed w metadata enumeration_metadata expected_counts
              selected_feeds)
    as (H1 & H2 & H3 & H4 & H5 & H6 & H7 & H8).
  unfold all_checks.
  repeat (apply Forall_app; split).
  all: eapply Forall_checked; [|eassumption]; cbn; tauto.
Qed.

Lemma checked_labels r :
  checked r ->
  settled r
  /\ (exists name, In name check_names
                   /\ ReportGenerator.label r "validation_type" "Unknown" = Some name)
  /\ (exists feed, dict_get "feed_name" r = Some (VStr feed)
                   /\ ReportGenerator.label r "feed_name" "Unknown" = Some feed).
Proof.
  intros (T & keys & HT & _ & Hty & _ & _ & (f & Hf) & Hs).
  unfold ReportGenerator.label. rewrite Hty, Hf.
  split; [exact Hs|]. split; [now exists T | now exists f].
Qed.

(** X20. The report of the results of the eight checks. The summary is
    always made; its headline passed, failed and errors add up to the
    number of results, and its headline errors are the errors of the
    groups, in both groupings; the validation types of the report are among
    the names of the eight checks, and each feed of the report is the
    [feed_name] of a result. *)
Theorem report_of_the_checks (w : World)
    (metadata : list FeedMetadata)
    (enumeration_metadata : list EnumerationMetadata)
    (expected_counts : option (list (string * Z)))
    (selected_feeds : option (list string)) :
  let test_results :=
    all_checks w metadata enumeration_metadata expected_counts selected_feeds in
  exists data,
    ReportGenerator._prepare_report_data test_results = Some data
    /\ (ReportGenerator.passed_tests data + ReportGenerator.failed_tests data
        + ReportGenerator.error_tests data)%nat
       = List.length test_results
    /\ sum_of ReportGenerator.errors (ReportGenerator.validation_types data)
       = ReportGenerator.error_tests data
    /\ sum_of ReportGenerator.errors (ReportGenerator.feed_results data)
       = ReportGenerator.error_tests data
    /\ incl (map fst (ReportGenerator.validation_types data)) check_names
    /\ (forall feed,
          In feed (map fst (ReportGenerator.feed_results data)) ->
          exists r, In r test_results /\ dict_get "feed_name" r = Some (VStr feed)).
Proof.
  intros test_results.
  pose proof (checked_all w metadata enumeration_metadata expected_counts
                selected_feeds) as Hall.
  fold test_results in Hall. clearbody test_results.
  assert (Hsettled : Forall settled test_results).
  { eapply Forall_impl; [|exact Hall]. intros r Hr. now apply checked_labels. }
  assert (Htypes : Forall (fun r => ReportGenerator.label r "validation_type"
                                      "Unknown" <> None) test_results).
  { eapply Forall_impl; [|exact Hall]. intros r Hr.
    destruct (checked_labels r Hr) as (_ & (n & _ & ->) & _). discriminate. }
  assert (Hfeeds : Forall (fun r => ReportGenerator.label r "feed_name"
                                      "Unknown" <> None) test_results).
  { eapply Forall_impl; [|exact Hall]. intros r Hr.
    destruct (checked_labels r Hr) as (_ & _ & (f & _ & ->)). discriminate. }
  destruct (grouping_defined "validation_type" test_results [] Htypes)
    as [types Et].
  destruct (grouping_defined "feed_name" test_results [] Hfeeds) as [feeds Ef].
  unfold ReportGenerator._prepare_report_data. cbv zeta.
  unfold ReportGenerator.group_by. rewrite Et, Ef.
  eexists. split; [reflexivity|].
  cbn [ReportGenerator.total_tests ReportGenerator.passed_tests
       ReportGenerator.failed_tests ReportGenerator.error_tests
       ReportGenerator.validation_types ReportGenerator.feed_results].
  destruct (having_settled test_results) as [_ Heq].
  split; [exact (Heq Hsettled)|].
  destruct (grouping _ _ _ _ Et) as (Hsum_t & _ & _ & Hkeys_t & _).
  destruct (grouping _ _ _ _ Ef) as (Hsum_f & _ & _ & Hkeys_f & _).
  destruct (tests_errors test_results) as [_ Herr].
  split; [rewrite (Hsum_t _ additive_errors); cbn [sum_of fold_right plus];
          exact (Herr Hsettled)|].
  split; [rewrite (Hsum_f _ additive_errors); cbn [sum_of fold_right plus];
          exact (Herr Hsettled)|].
  split.
  - intros name Hname. destruct (Hkeys_t name Hname) as [[]|(r & Hr & Hl)].
    rewrite Forall_forall in Hall.
    destruct (checked_labels r (Hall r Hr)) as (_ & (n & Hn & Hl') & _).
    congruence.
  - intros feed Hfeed. destruct (Hkeys_f feed Hfeed) as [[]|(r & Hr & Hl)].
    exists r. split; [exact Hr|].
    rewrite Forall_forall in Hall.
    destruct (checked_labels r (Hall r Hr)) as (_ & _ & (f & Hf & Hl')).
    congruence.
Qed.

(** ** The sheets of the Excel report *)

Lemma dict_has_keys {V : Type} (k : string) (d : list (string * V)) :
  dict_has k d = str_mem k (map fst d).
Proof.
  unfold dict_has, str_mem.
  induction d as [|[k' v] rest IH]; cbn [dict_get map fst existsb]; [reflexivity|].
  rewrite (String.eqb_sym k k'). destruct (String.eqb k' k); [reflexivity|].
  exact IH.
Qed.

Lemma filled_of_keys validation_type keys r :
  well_formed validation_type keys r ->
  forallb (fun header => str_mem (ReportGenerator.key_of_header header) keys)
          (ReportGenerator._get_headers_for_validation_type validation_type)
    = true ->
  filled validation_type r.
Proof.
  intros (Hkeys & _) Hall header Hin.
  rewrite forallb_forall in Hall. rewrite dict_has_keys.
  unfold keys_of in Hkeys. rewrite Hkeys. now apply Hall.
Qed.

Lemma blank_of_keys validation_type keys r header :
  well_formed validation_type keys r ->
  str_mem (ReportGenerator.key_of_header header) keys = false ->
  blank_under header r.
Proof.
  intros (Hkeys & _) Hout. unfold blank_under, ReportGenerator.value_under,
    ReportGenerator.get_or.
  pose proof (dict_has_keys (ReportGenerator.key_of_header header) r) as H.
  unfold keys_of in Hkeys. rewrite Hkeys, Hout in H. unfold dict_has in H.
  now destruct (dict_get _ r).
Qed.

(** X21. The sheets of the Excel report against the records of the checks.
    For the nullable, unique, range, enumeration, count and completeness
    checks, every column of the sheet of the check reads a key that every
    result of the check has. On the sheet of the data-type check the columns
    Column Name and Expected Type are blank for every result, since a
    data-type result keeps them inside its column entries. The insert/append
    check has no sheet columns of its own: its sheet shows the five common
    columns only. *)
Theorem sheet_columns (w : World)
    (metadata : list FeedMetadata)
    (enumeration_metadata : list EnumerationMetadata)
    (expected_counts : option (list (string * Z)))
    (selected_feeds : option (list string)) :
  Forall (filled "nullable_constraint")
    (DatabaseValidator.validate_nullable_constraints w metadata selected_feeds)
  /\ Forall (filled "unique_constraint")
       (DatabaseValidator.validate_unique_constraints w metadata selected_feeds)
  /\ Forall (filled "range_constraint")
       (DatabaseValidator.validate_range_constraints w metadata selected_feeds)
  /\ Forall (filled "enumeration_constraint")
       (DatabaseValidator.validate_enumeration_constraints w metadata
          enumeration_metadata selected_feeds)
  /\ Forall (filled "count_check")
       (DatabaseValidator.validate_count_checks w metadata expected_counts
          selected_feeds)
  /\ Forall (filled "completeness_check")
       (DatabaseValidator.validate_completeness_checks w metadata selected_feeds)
  /\ Forall (fun r => blank_under "Column Name" r /\ blank_under "Expected Type" r)
       (DatabaseValidator.validate_data_types w metadata selected_feeds)
  /\ ReportGenerator._get_headers_for_validation_type "insert_append_logic"
     = ReportGenerator.common_headers
  /\ Forall (filled "insert_append_logic")
       (DatabaseValidator.validate_insert_append_logic w metadata selected_feeds).
Proof.
  destruct (checks_well_formed w metadata enumeration_metadata expected_counts
              selected_feeds)
    as (H1 & H2 & H3 & H4 & H5 & H6 & H7 & H8).
  repeat split.
  all: try reflexivity.
  all: match goal with
       | |- Forall (filled _) _ =>
           eapply Forall_impl; [|eassumption];
           intros r Hr; apply (filled_of_keys _ _ _ Hr); reflexivity
       | |- Forall _ _ =>
           eapply Forall_impl; [|exact H1];
           intros r Hr; split; apply (blank_of_keys _ _ _ _ Hr); reflexivity
       end.
Qed.

(** ** What a check asks the store *)

Section Asking.
Variable w : World.

Lemma completeness_columns_asks db tbl fd n cols (nulls : string -> N) :
  n <> 0%N ->
  inspect_columns w (DatabaseConnector.get_engine db) tbl = Returns cols ->
  forall metas,
    (forall meta, In meta metas ->
       select_count w (DatabaseConnector.get_engine db)
         (DatabaseConnector.null_count_query tbl (FeedMetadata.field_name meta))
       = Returns (nulls (FeedMetadata.field_name meta))) ->
    forall scores l,
      asked (DatabaseValidator.completeness_columns w db tbl n metas scores
               (DatabaseValidator.completeness_result db tbl fd (Z.of_N n) l
                  (float_of_Z 0) "PASS" VNone))
      = flat_map (column_calls db tbl) metas.
Proof.
  intros Hn Hcols. induction metas as [|meta rest IH]; intros Hq scores l.
  - reflexivity.
  - rewrite completeness_columns_cons. ops.
    rewrite Hcols. ops. rewrite (Hq meta (or_introl eq_refl)). ops.
    rewrite completeness_of_ok by exact Hn. ops.
    assert (Hq' : forall meta', In meta' rest ->
              select_count w (DatabaseConnector.get_engine db)
                (DatabaseConnector.null_count_query tbl (FeedMetadata.field_name meta'))
              = Returns (nulls (FeedMetadata.field_name meta')))
      by (intros; apply Hq; now right).
    specialize (IH Hq'
      (scores ++ [percentage_of n (nulls (FeedMetadata.field_name meta))])%list
      (l ++ [DatabaseValidator.column_completeness_of meta n
               (nulls (FeedMetadata.field_name meta))
               (percentage_of n (nulls (FeedMetadata.field_name meta)))])%list).
    unfold DatabaseValidator.completeness_result in *.
    destruct (DatabaseValidator.completeness_columns _ _ _ _ _ _ _)
      as [o d1 em ask].
    cbn in IH |- *. now rewrite IH.
Qed.

End Asking.

(** X22. What the checks by table ask the store, when every call returns.
    The data-type check reads the schema of the table twice and asks
    nothing else. The completeness check of a table with rows asks for the
    row count and then, for each record of the group, reads the schema of
    the table again and counts the nulls of the column: one call and two
    more for each declared column, all on the engine of the store name. *)
Theorem calls_by_table (w : World)
    (table_key : string) (table_metadata : list FeedMetadata)
    (db_name table_name : string) (total_rows : N)
    (columns : list ColumnInfo) (nulls : string -> N) :
  split_dot table_key = [db_name; table_name] ->
  table_metadata <> [] ->
  inspect_columns w (DatabaseConnector.get_engine db_name) table_name
    = Returns columns ->
  select_count w (DatabaseConnector.get_engine db_name)
    (DatabaseConnector.row_count_query table_name None) = Returns total_rows ->
  (0 < total_rows)%N ->
  (forall meta, In meta table_metadata ->
     select_count w (DatabaseConnector.get_engine db_name)
       (DatabaseConnector.null_count_query table_name (FeedMetadata.field_name meta))
     = Returns (nulls (FeedMetadata.field_name meta))) ->
  let engine := DatabaseConnector.get_engine db_name in
  calls_of (DatabaseValidator.data_type_table w table_key table_metadata)
  = [Inspect engine table_name; Inspect engine table_name]
  /\ calls_of (DatabaseValidator.completeness_table w table_key table_metadata)
     = (Query engine (DatabaseConnector.row_count_query table_name None)
        :: flat_map (column_calls db_name table_name) table_metadata)
  /\ List.length
       (calls_of (DatabaseValidator.completeness_table w table_key table_metadata))
     = (1 + 2 * List.length table_metadata)%nat.
Proof.
  intros Hkey Hne Hcols Hrows Hpos Hq engine.
  assert (Hn : total_rows <> 0%N) by lia.
  assert (Hcalls :
    calls_of (DatabaseValidator.completeness_table w table_key table_metadata)
    = (Query engine (DatabaseConnector.row_count_query table_name None)
       :: flat_map (column_calls db_name table_name) table_metadata)).
  { unfold DatabaseValidator.completeness_table. rewrite Hkey.
    destruct table_metadata as [|meta0 rest]; [congruence|]. ops.
    rewrite Hrows. ops.
    apply N.eqb_neq in Hn. rewrite Hn. apply N.eqb_neq in Hn. ops.
    pose proof (completeness_columns_returns w db_name table_name
                  (FeedMetadata.feed meta0) total_rows columns nulls Hn Hcols
                  (meta0 :: rest) Hq [] []) as Hrun.
    pose proof (completeness_columns_asks w db_name table_name
                  (FeedMetadata.feed meta0) total_rows columns nulls Hn Hcols
                  (meta0 :: rest) Hq [] []) as Hask.
    cbv zeta in Hrun. unfold DatabaseValidator.completeness_result in Hrun, Hask.
    destruct (DatabaseValidator.completeness_columns _ _ _ _ _ _ _)
      as [o d1 em ask].
    cbn [outcome result emitted asked app] in Hrun, Hask.
    destruct Hrun as (-> & -> & ->). subst ask. ops.
    rewrite truediv_float_ok by (cbn [List.length map]; lia). ops.
    destruct (PrimFloat.ltb _ f95); ops; now rewrite ?app_nil_r. }
  split; [|split; [exact Hcalls|]].
  - unfold DatabaseValidator.data_type_table. rewrite Hkey.
    destruct table_metadata as [|meta0 rest]; [congruence|]. ops.
    rewrite Hcols. ops. rewrite record_columns_run. ops. reflexivity.
  - rewrite Hcalls. cbn [List.length]. f_equal.
    clear. induction table_metadata as [|m rest IH]; [reflexivity|].
    cbn [flat_map column_calls app List.length]. rewrite IH. lia.
Qed.

(** X22, witness: the CUSTOMER table with two declared columns. *)
Lemma calls_by_table_witness :
  List.length
    (calls_of (DatabaseValidator.completeness_table one_null_in_100
                 "sales.CUSTOMER" [customer_id; customer_name]))
  = 5%nat.
Proof.
  destruct (calls_by_table one_null_in_100 "sales.CUSTOMER"
              [customer_id; customer_name] "sales" "CUSTOMER" 100
              [id_column false] (fun _ => 1%N))
    as (_ & _ & Hlen).
  - reflexivity.
  - discriminate.
  - reflexivity.
  - reflexivity.
  - reflexivity.
  - intros meta [<-|[<-|[]]]; reflexivity.
  - exact Hlen.
Defined.

(** ** The sample sheets, loaded *)

Example sample_sheet_loads :
  map (fun meta => (FeedMetadata.field_name meta, FeedMetadata.feed_list meta,
                    FeedMetadata.unique meta, FeedMetadata.range_top meta))
      (MetadataReader._load_feed_metadata (Some sample_sheet) [])
  = [ ("ID", ["customers.csv"; "customers_delta.csv"], "Y", None);
      ("AGE", ["customers.csv"], "nan", Some "120") ].
Proof. reflexivity. Qed.

Example enumeration_sheet_loads :
  let catalog :=
    MetadataReader._load_enumeration_metadata (Some enumeration_sheet) [] in
  MetadataReader.get_enumeration_values catalog "CustomerStatus"
  = ["ACTIVE"; "CLOSED"]
  /\ MetadataReader.get_enumeration_values catalog "Country" = ["nan"].
Proof. split; reflexivity. Qed.
